(** * simplemqhttp: a lease-based message queue behind net.Conn,
      net.Listener and http.RoundTripper

    Shallow embedding of the Go package [simplemqhttp] (serializer.go,
    conn.go, the listener and transport.go) and of the parts of the Go
    standard library it calls, followed by the properties of the
    specification that were checked against it.

    Conventions.
    - A Go [string] or [[]byte] is a [string] (a sequence of 8-bit [ascii]).
    - A Go [int]/[int64] is a [Z]; where the code can overflow the
      wrap-around is written with [wrap64].
    - A [time.Time] is the instant it denotes, in nanoseconds since the Unix
      epoch, as an unbounded [Z]; a [time.Duration] is an int64 number of
      nanoseconds.
    - A Go [error] is a value of [error]; [nil] is [None].
    - The queue service, the wall clock and the local time zone are the
      environment [Env]: an oracle that answers the k-th interaction of a
      run.  Every call made to it is recorded in the [World]. *)

From Stdlib Require Import ZArith List String Ascii Lia Bool.
Import ListNotations.
Local Open Scope string_scope.
Local Open Scope Z_scope.

(* ================================================================== *)
(** ** Go values: errors, results, machine integers, strings *)

Inductive error : Type :=
| ErrAPI (code : Z) (message : string)   (* *simplemq.APIError *)
| ErrContextCanceled                     (* context.Canceled *)
| ErrNetClosed                           (* net.ErrClosed *)
| ErrTooLarge                            (* simplemqhttp.ErrTooLarge *)
| ErrOther (text : string)               (* errors.New and every other leaf *)
| ErrWrap (prefix : string) (e : error). (* fmt.Errorf("<prefix>: %w", e) *)

Inductive result (A : Type) : Type :=
| Ok (a : A)
| Err (e : error).
Arguments Ok {A} a.
Arguments Err {A} e.

(** errors.Is(err, context.Canceled): walks the chain of wrapped errors. *)
Fixpoint errors_Is_Canceled (e : error) : bool :=
  match e with
  | ErrContextCanceled => true
  | ErrWrap _ e' => errors_Is_Canceled e'
  | _ => false
  end.

(** errors.As(err, &apiErr) for [*simplemq.APIError]. *)
Fixpoint errors_As_APIError (e : error) : option (Z * string) :=
  match e with
  | ErrAPI code message => Some (code, message)
  | ErrWrap _ e' => errors_As_APIError e'
  | _ => None
  end.

Definition minInt64 : Z := -9223372036854775808.
Definition maxInt64 : Z := 9223372036854775807.

Definition inInt64 (z : Z) : bool := (minInt64 <=? z) && (z <=? maxInt64).

(** Two's complement wrap-around of int64 arithmetic. *)
Definition wrap64 (z : Z) : Z := (z + 2 ^ 63) mod 2 ^ 64 - 2 ^ 63.

(** Saturation, as [time.Time.Sub] does on overflow. *)
Definition sat64 (z : Z) : Z := Z.max minInt64 (Z.min maxInt64 z).

Definition len (s : string) : Z := Z.of_nat (String.length s).

Definition byteVal (c : ascii) : Z := Z.of_N (N_of_ascii c).

Definition isDigit (c : ascii) : bool := (48 <=? byteVal c) && (byteVal c <=? 57).

Definition digitChar (d : Z) : ascii := ascii_of_N (Z.to_N (48 + d)).

Fixpoint allChars (p : ascii -> bool) (s : string) : bool :=
  match s with
  | EmptyString => true
  | String c r => p c && allChars p r
  end.

Fixpoint filterChars (p : ascii -> bool) (s : string) : string :=
  match s with
  | EmptyString => EmptyString
  | String c r => if p c then String c (filterChars p r) else filterChars p r
  end.

Fixpoint mapChars (f : ascii -> ascii) (s : string) : string :=
  match s with
  | EmptyString => EmptyString
  | String c r => String (f c) (mapChars f r)
  end.

Definition isEmpty (s : string) : bool :=
  match s with EmptyString => true | _ => false end.

(** strconv: the value of a run of decimal digits. *)
Fixpoint digitsValue (acc : Z) (s : string) : option Z :=
  match s with
  | EmptyString => Some acc
  | String c r =>
      if isDigit c then digitsValue (acc * 10 + (byteVal c - 48)) r else None
  end.

(** strconv.Atoi on a 64-bit platform: an optional sign, then one or more
    decimal digits, the value within int64.  Syntax and range errors are
    not told apart: no caller looks at the error. *)
Definition Atoi (s : string) : option Z :=
  match s with
  | EmptyString => None
  | String c r =>
      let neg := Ascii.eqb c "-" in
      let ds := if neg || Ascii.eqb c "+" then r else s in
      if isEmpty ds then None
      else match digitsValue 0 ds with
           | None => None
           | Some v =>
               let n := if neg then - v else v in
               if inInt64 n then Some n else None
           end
  end.

(** strconv.ParseUint(s, 10, 63): digits only, no sign. *)
Definition ParseUint63 (s : string) : option Z :=
  if isEmpty s then None
  else match digitsValue 0 s with
       | None => None
       | Some v => if v <=? maxInt64 then Some v else None
       end.

Fixpoint digitsOf (fuel : nat) (n : Z) (acc : string) : string :=
  match fuel with
  | O => acc
  | S f =>
      let acc' := String (digitChar (n mod 10)) acc in
      if n <? 10 then acc' else digitsOf f (n / 10) acc'
  end.

(** strconv.Itoa and the verb %d: decimal, with a minus sign. *)
Definition Itoa (n : Z) : string :=
  if n <? 0
  then String "-" (digitsOf (S (Z.to_nat (Z.log2 (- n)))) (- n) "")
  else digitsOf (S (Z.to_nat (Z.log2 n))) n "".

(* ================================================================== *)
(** ** encoding/base64, StdEncoding *)

Module Base64.

(** Six bits, most significant first. *)
Definition sextet : Type := (bool * bool * bool * bool * bool * bool)%type.

Definition alphabet : string :=
  "ABCDEFGHIJKLMNOPQRSTUVWXYZabcdefghijklmnopqrstuvwxyz0123456789+/".

Definition padChar : ascii := "=".

Definition sextetIndex (s : sextet) : nat :=
  let '(b5, b4, b3, b2, b1, b0) := s in
  N.to_nat (N_of_digits [b0; b1; b2; b3; b4; b5]).

(** enc.encode[i] *)
Definition encodeSextet (s : sextet) : ascii :=
  match String.get (sextetIndex s) alphabet with
  | Some c => c
  | None => padChar
  end.

Definition allSextets : list sextet :=
  let bs := [false; true] in
  flat_map (fun b5 => flat_map (fun b4 => flat_map (fun b3 =>
  flat_map (fun b2 => flat_map (fun b1 => map (fun b0 =>
    (b5, b4, b3, b2, b1, b0)) bs) bs) bs) bs) bs) bs.

(** enc.decodeMap[c]; [None] stands for 0xff. *)
Definition decodeMap (c : ascii) : option sextet :=
  find (fun s => Ascii.eqb (encodeSextet s) c) allSextets.

(** val := b0<<16 | b1<<8 | b2, cut in four groups of six bits. *)
Definition split3 (x y z : ascii) : sextet * sextet * sextet * sextet :=
  let '(Ascii x0 x1 x2 x3 x4 x5 x6 x7) := x in
  let '(Ascii y0 y1 y2 y3 y4 y5 y6 y7) := y in
  let '(Ascii z0 z1 z2 z3 z4 z5 z6 z7) := z in
  ((x7, x6, x5, x4, x3, x2), (x1, x0, y7, y6, y5, y4),
   (y3, y2, y1, y0, z7, z6), (z5, z4, z3, z2, z1, z0)).

(** val := s1<<18 | s2<<12 | s3<<6 | s4, cut in three bytes. *)
Definition join4 (s1 s2 s3 s4 : sextet) : ascii * ascii * ascii :=
  let '(a5, a4, a3, a2, a1, a0) := s1 in
  let '(b5, b4, b3, b2, b1, b0) := s2 in
  let '(c5, c4, c3, c2, c1, c0) := s3 in
  let '(d5, d4, d3, d2, d1, d0) := s4 in
  (Ascii b4 b5 a0 a1 a2 a3 a4 a5,
   Ascii c2 c3 c4 c5 b0 b1 b2 b3,
   Ascii d0 d1 d2 d3 d4 d5 c0 c1).

Definition zeroSextet : sextet := (false, false, false, false, false, false).
Definition zeroByte : ascii := Ascii false false false false false false false false.

(** Encoding.EncodeToString: full groups of three bytes, then the
    remaining one or two bytes padded with '='. *)
Fixpoint EncodeToString (src : string) : string :=
  match src with
  | EmptyString => EmptyString
  | String x EmptyString =>
      let '(s1, s2, _, _) := split3 x zeroByte zeroByte in
      String (encodeSextet s1) (String (encodeSextet s2)
        (String padChar (String padChar EmptyString)))
  | String x (String y EmptyString) =>
      let '(s1, s2, s3, _) := split3 x y zeroByte in
      String (encodeSextet s1) (String (encodeSextet s2)
        (String (encodeSextet s3) (String padChar EmptyString)))
  | String x (String y (String z rest)) =>
      let '(s1, s2, s3, s4) := split3 x y z in
      String (encodeSextet s1) (String (encodeSextet s2)
        (String (encodeSextet s3) (String (encodeSextet s4)
          (EncodeToString rest))))
  end.

Definition isNewline (c : ascii) : bool :=
  Ascii.eqb c "010" || Ascii.eqb c "013".

(** decodeQuantum, repeated: four characters at a time; padding only in
    the last quantum, nothing after it; not strict, so the unused low bits
    of a padded quantum are dropped unchecked.  [None] is
    CorruptInputError. *)
Fixpoint decodeQuanta (s : string) : option string :=
  match s with
  | EmptyString => Some EmptyString
  | String c1 (String c2 (String c3 (String c4 rest))) =>
      match decodeMap c1, decodeMap c2 with
      | Some s1, Some s2 =>
          match decodeMap c3, decodeMap c4 with
          | Some s3, Some s4 =>
              let '(x, y, z) := join4 s1 s2 s3 s4 in
              match decodeQuanta rest with
              | Some out => Some (String x (String y (String z out)))
              | None => None
              end
          | Some s3, None =>
              let '(x, y, _) := join4 s1 s2 s3 zeroSextet in
              if Ascii.eqb c4 padChar && isEmpty rest
              then Some (String x (String y EmptyString))
              else None
          | None, _ =>
              let '(x, _, _) := join4 s1 s2 zeroSextet zeroSextet in
              if Ascii.eqb c3 padChar && Ascii.eqb c4 padChar && isEmpty rest
              then Some (String x EmptyString)
              else None
          end
      | _, _ => None
      end
  | _ => None
  end.

(** Encoding.DecodeString.  The decoder skips '\r' and '\n' wherever they
    stand, which is the same as decoding the input without them. *)
Definition DecodeString (s : string) : option string :=
  decodeQuanta (filterChars (fun c => negb (isNewline c)) s).

End Base64.

(* ================================================================== *)
(** ** net/http: headers and requests *)

(** http.Header, a map from canonical keys to the values added under
    them; kept as an association list in insertion order. *)
Definition Header : Type := list (string * list string).

Definition isUpper (c : ascii) : bool := (65 <=? byteVal c) && (byteVal c <=? 90).
Definition isLower (c : ascii) : bool := (97 <=? byteVal c) && (byteVal c <=? 122).
Definition toUpper (c : ascii) : ascii :=
  if isLower c then ascii_of_N (Z.to_N (byteVal c - 32)) else c.
Definition toLower (c : ascii) : ascii :=
  if isUpper c then ascii_of_N (Z.to_N (byteVal c + 32)) else c.

(** httpguts.IsTokenRune / textproto.validHeaderFieldByte: the tchar of
    RFC 7230. *)
Definition isTokenChar (c : ascii) : bool :=
  isDigit c || isUpper c || isLower c ||
  existsb (Ascii.eqb c)
    ["!"; "#"; "$"; "%"; "&"; "'"; "*"; "+"; "-"; "."; "^"; "_"; "`"; "|"; "~"]%char.

Fixpoint canonicalize (upper : bool) (s : string) : string :=
  match s with
  | EmptyString => EmptyString
  | String c r =>
      String (if upper then toUpper c else toLower c)
             (canonicalize (Ascii.eqb c "-") r)
  end.

(** textproto.CanonicalMIMEHeaderKey: a key that is not a token is left
    as it is. *)
Definition CanonicalMIMEHeaderKey (s : string) : string :=
  if allChars isTokenChar s then canonicalize true s else s.

Fixpoint Header_lookup (h : Header) (key : string) : list string :=
  match h with
  | [] => []
  | (k, vs) :: h' => if String.eqb k key then vs else Header_lookup h' key
  end.

(** Header.Get: the first value under the canonical form of the key, or
    the empty string. *)
Definition Header_Get (h : Header) (key : string) : string :=
  match Header_lookup h (CanonicalMIMEHeaderKey key) with
  | [] => EmptyString
  | v :: _ => v
  end.

Fixpoint Header_append (h : Header) (key value : string) : Header :=
  match h with
  | [] => [(key, [value])]
  | (k, vs) :: h' =>
      if String.eqb k key then (k, (vs ++ [value])%list) :: h'
      else (k, vs) :: Header_append h' key value
  end.

(** Header.Add *)
Definition Header_Add (h : Header) (key value : string) : Header :=
  Header_append h (CanonicalMIMEHeaderKey key) value.

(** An io.Reader used as a request body: the bytes it yields, then EOF or
    a read error. *)
Record Reader : Type := mkReader { readerData : string; readerErr : option error }.

(** io.ReadAll *)
Definition ReadAll (r : Reader) : result string :=
  match readerErr r with
  | Some e => Err e
  | None => Ok (readerData r)
  end.

Record URL : Type := mkURL { Path : string }.

Record Request : Type := mkRequest {
  Method : string;
  ReqURL : URL;
  ReqHeader : Header;
  ReqBody : option Reader;       (* None: a nil Body *)
  ReqContentLength : Z
}.

(** What reading the body to its end gives: nothing for a nil body. *)
Definition bodyBytes (r : Request) : result string :=
  match ReqBody r with
  | None => Ok EmptyString
  | Some rd => ReadAll rd
  end.

Definition isCTL (c : ascii) : bool := (byteVal c <? 32) || (byteVal c =? 127).

(** net/url.Parse, for the one form this package parses: a rooted path
    without query, fragment or escapes.  Control bytes are rejected as Go
    does; the other forms of URL are outside this model and reported as an
    error of the model. *)
Definition url_Parse (s : string) : result URL :=
  if negb (allChars (fun c => negb (isCTL c)) s)
  then Err (ErrOther "net/url: invalid control character in URL")
  else match s with
       | String "/" _ =>
           if allChars (fun c => negb (existsb (Ascii.eqb c) ["?"; "#"; "%"]%char)) s
           then Ok (mkURL s)
           else Err (ErrOther "URL form outside the model")
       | _ => Err (ErrOther "URL form outside the model")
       end.

(** net/http.validMethod *)
Definition validMethod (m : string) : bool :=
  negb (isEmpty m) && allChars isTokenChar m.

(** http.NewRequest(method, url, strings.NewReader(body)): the content
    length is the reader's length (for an empty reader Go puts http.NoBody
    in its place, which reads the same: nothing). *)
Definition NewRequest (method url body : string) : result Request :=
  let method := if isEmpty method then "GET" else method in
  if negb (validMethod method)
  then Err (ErrOther "net/http: invalid method")
  else match url_Parse url with
       | Err e => Err e
       | Ok u =>
           Ok {| Method := method;
                 ReqURL := u;
                 ReqHeader := [];
                 ReqBody := Some (mkReader body None);
                 ReqContentLength := len body |}
       end.

(* ================================================================== *)
(** ** serializer.go *)

(** The Serializer interface. *)
Record Serializer : Type := mkSerializer {
  Serialize : option Request -> result string;
  Deserialize : string -> result Request
}.

Record BodyOnlySerializer : Type := mkBodyOnly { NoBase64 : bool }.

Definition maxPayload : Z := 256 * 1024.

(** BodyOnlySerializer.Serialize; [None] is a nil request. *)
Definition BodyOnly_Serialize (s : BodyOnlySerializer) (req : option Request)
  : result string :=
  match req with
  | None => Err (ErrOther "request is nil")
  | Some r =>
      match ReqBody r with
      | None => Ok EmptyString
      | Some body =>
          match ReadAll body with
          | Err e => Err e
          | Ok bs =>
              if NoBase64 s then
                if maxPayload <? len bs then Err ErrTooLarge else Ok bs
              else
                let encoded := Base64.EncodeToString bs in
                if maxPayload <? len encoded then Err ErrTooLarge
                else Ok encoded
          end
      end
  end.

(** The content handed to http.NewRequest: the decoded bytes when base64
    is in use and the content decodes, the content itself otherwise. *)
Definition payloadOf (s : BodyOnlySerializer) (content : string) : string :=
  if negb (NoBase64 s) then
    match Base64.DecodeString content with
    | Some decoded => decoded
    | None => content
    end
  else content.

(** BodyOnlySerializer.Deserialize *)
Definition BodyOnly_Deserialize (s : BodyOnlySerializer) (content : string)
  : result Request :=
  match NewRequest "POST" "/" (payloadOf s content) with
  | Err e => Err e
  | Ok req => Ok req
  end.

Definition bodyOnlySerializer (s : BodyOnlySerializer) : Serializer :=
  {| Serialize := BodyOnly_Serialize s; Deserialize := BodyOnly_Deserialize s |}.

(* ================================================================== *)
(** ** net/http: responses on the wire *)

Definition CR : ascii := "013".
Definition LF : ascii := "010".
Definition CRLF : string := String CR (String LF EmptyString).

Definition isSpaceTab (c : ascii) : bool := Ascii.eqb c " " || Ascii.eqb c "009".

(** textproto.isASCIISpace *)
Definition isASCIISpace (c : ascii) : bool :=
  isSpaceTab c || Ascii.eqb c LF || Ascii.eqb c CR.

Fixpoint trimLeft (p : ascii -> bool) (s : string) : string :=
  match s with
  | EmptyString => EmptyString
  | String c r => if p c then trimLeft p r else s
  end.

Fixpoint trimRight (p : ascii -> bool) (s : string) : string :=
  match s with
  | EmptyString => EmptyString
  | String c r =>
      let r' := trimRight p r in
      if isEmpty r' && p c then EmptyString else String c r'
  end.

Definition trim (p : ascii -> bool) (s : string) : string :=
  trimLeft p (trimRight p s).

Fixpoint takeStr (n : nat) (s : string) : string :=
  match n, s with
  | S n', String c r => String c (takeStr n' r)
  | _, _ => EmptyString
  end.

Fixpoint dropStr (n : nat) (s : string) : string :=
  match n, s with
  | S n', String _ r => dropStr n' r
  | _, _ => s
  end.

(** strings.Cut with a one-byte separator. *)
Fixpoint cut (sep : ascii) (s : string) : option (string * string) :=
  match s with
  | EmptyString => None
  | String c r =>
      if Ascii.eqb c sep then Some (EmptyString, r)
      else match cut sep r with
           | Some (a, b) => Some (String c a, b)
           | None => None
           end
  end.

(** The text before the first '\n' and, when there is one, the text
    after it. *)
Fixpoint splitLine (s : string) : string * option string :=
  match s with
  | EmptyString => (EmptyString, None)
  | String c r =>
      if Ascii.eqb c LF then (EmptyString, Some r)
      else let '(l, o) := splitLine r in (String c l, o)
  end.

Fixpoint dropCR (l : string) : string :=
  match l with
  | EmptyString => EmptyString
  | String c EmptyString => if Ascii.eqb c CR then EmptyString else l
  | String c r => String c (dropCR r)
  end.

(** bufio.Reader.ReadLine through textproto: the next line without its
    end-of-line marker ('\n' or '\r\n'); the last line may lack one;
    [None] at the end of the input. *)
Definition readLine (s : string) : option (string * string) :=
  match s with
  | EmptyString => None
  | _ =>
      match splitLine s with
      | (l, Some r) => Some (dropCR l, r)
      | (l, None) => Some (l, EmptyString)
      end
  end.

Definition statusTexts : list (Z * string) :=
  [ (100, "Continue"); (101, "Switching Protocols"); (102, "Processing");
    (103, "Early Hints");
    (200, "OK"); (201, "Created"); (202, "Accepted");
    (203, "Non-Authoritative Information"); (204, "No Content");
    (205, "Reset Content"); (206, "Partial Content"); (207, "Multi-Status");
    (208, "Already Reported"); (226, "IM Used");
    (300, "Multiple Choices"); (301, "Moved Permanently"); (302, "Found");
    (303, "See Other"); (304, "Not Modified"); (305, "Use Proxy");
    (307, "Temporary Redirect"); (308, "Permanent Redirect");
    (400, "Bad Request"); (401, "Unauthorized"); (402, "Payment Required");
    (403, "Forbidden"); (404, "Not Found"); (405, "Method Not Allowed");
    (406, "Not Acceptable"); (407, "Proxy Authentication Required");
    (408, "Request Timeout"); (409, "Conflict"); (410, "Gone");
    (411, "Length Required"); (412, "Precondition Failed");
    (413, "Request Entity Too Large"); (414, "Request URI Too Long");
    (415, "Unsupported Media Type"); (416, "Requested Range Not Satisfiable");
    (417, "Expectation Failed"); (418, "I'm a teapot");
    (421, "Misdirected Request"); (422, "Unprocessable Entity");
    (423, "Locked"); (424, "Failed Dependency"); (425, "Too Early");
    (426, "Upgrade Required"); (428, "Precondition Required");
    (429, "Too Many Requests"); (431, "Request Header Fields Too Large");
    (451, "Unavailable For Legal Reasons");
    (500, "Internal Server Error"); (501, "Not Implemented");
    (502, "Bad Gateway"); (503, "Service Unavailable");
    (504, "Gateway Timeout"); (505, "HTTP Version Not Supported");
    (506, "Variant Also Negotiates"); (507, "Insufficient Storage");
    (508, "Loop Detected"); (510, "Not Extended");
    (511, "Network Authentication Required") ].

Fixpoint assocZ (k : Z) (l : list (Z * string)) : string :=
  match l with
  | [] => EmptyString
  | (k', v) :: l' => if k =? k' then v else assocZ k l'
  end.

(** http.StatusText: empty for a code it does not know. *)
Definition StatusText (code : Z) : string := assocZ code statusTexts.

Definition StatusAccepted : Z := 202.

Record Response : Type := mkResponse {
  Status : string;
  StatusCode : Z;
  Proto : string;
  ProtoMajor : Z;
  ProtoMinor : Z;
  RespHeader : Header;
  ContentLength : Z;
  Chunked : bool;         (* TransferEncoding = ["chunked"] *)
  RespBody : string       (* what reading Body gives; raw when Chunked *)
}.

(** http.ParseHTTPVersion *)
Definition ParseHTTPVersion (vers : string) : option (Z * Z) :=
  match vers with
  | String "H" (String "T" (String "T" (String "P" (String "/"
      (String a (String "." (String b EmptyString))))))) =>
      if isDigit a && isDigit b
      then Some (byteVal a - 48, byteVal b - 48)
      else None
  | _ => None
  end.

Record StatusLine : Type := mkStatusLine {
  slStatus : string; slCode : Z; slProto : string; slMajor : Z; slMinor : Z
}.

(** The first part of http.ReadResponse: the status line. *)
Definition parseStatusLine (line : string) : result StatusLine :=
  match cut " " line with
  | None => Err (ErrOther "malformed HTTP response")
  | Some (proto, status) =>
      let status := trimLeft (Ascii.eqb " ") status in
      let statusCode :=
        match cut " " status with
        | Some (code, _) => code
        | None => status
        end in
      if negb (Nat.eqb (String.length statusCode) 3)
      then Err (ErrOther "malformed HTTP status code")
      else match Atoi statusCode with
           | None => Err (ErrOther "malformed HTTP status code")
           | Some code =>
               if code <? 0 then Err (ErrOther "malformed HTTP status code")
               else match ParseHTTPVersion proto with
                    | None => Err (ErrOther "malformed HTTP version")
                    | Some (major, minor) =>
                        Ok (mkStatusLine status code proto major minor)
                    end
           end
  end.

(** textproto.validHeaderValueByte: HTAB, SP, VCHAR and obs-text. *)
Definition validHeaderValueByte (c : ascii) : bool :=
  Ascii.eqb c "009" || ((32 <=? byteVal c) && negb (byteVal c =? 127)).

(** textproto.canonicalMIMEHeaderKey on the bytes before the colon: an
    empty key or a byte that is neither a token byte nor a space is
    refused; a key with a space is kept as it is. *)
Definition canonicalMIMEHeaderKey (k : string) : option string :=
  if isEmpty k then None
  else if negb (allChars (fun c => isTokenChar c || Ascii.eqb c " ") k) then None
  else if allChars isTokenChar k then Some (canonicalize true k)
  else Some k.

Definition startsWith (p : ascii -> bool) (s : string) : bool :=
  match s with
  | EmptyString => false
  | String c _ => p c
  end.

(** The continuation lines of a header line: each begins with a space or
    a tab and is joined to the line with one space. *)
Fixpoint contLines (fuel : nat) (buf rest : string) : string * string :=
  match fuel with
  | O => (buf, rest)
  | S f =>
      if startsWith isSpaceTab rest then
        let rest' := trimLeft isSpaceTab rest in
        match readLine rest' with
        | None => (buf ++ " ", rest')
        | Some (l, rest'') => contLines f (buf ++ " " ++ trim isSpaceTab l) rest''
        end
      else (buf, rest)
  end.

(** textproto.Reader.readContinuedLineSlice *)
Definition readContinuedLine (text : string) : result string * string :=
  match readLine text with
  | None => (Err (ErrOther "unexpected EOF"), EmptyString)
  | Some (line, rest) =>
      if isEmpty line then (Ok EmptyString, rest)
      else match cut ":" line with
           | None => (Err (ErrOther "malformed MIME header: missing colon"), rest)
           | Some _ => let '(buf, rest') :=
                         contLines (String.length rest) (trim isSpaceTab line) rest in
                       (Ok buf, rest')
           end
  end.

Definition malformedLine : error := ErrOther "malformed MIME header line".

Fixpoint headerLines (fuel : nat) (h : Header) (text : string)
  : result Header * string :=
  match fuel with
  | O => (Err (ErrOther "unexpected EOF"), text)
  | S f =>
      match readContinuedLine text with
      | (Err e, rest) => (Err e, rest)
      | (Ok kv, rest) =>
          if isEmpty kv then (Ok h, rest)
          else match cut ":" kv with
               | None => (Err malformedLine, rest)
               | Some (k, v) =>
                   match canonicalMIMEHeaderKey k with
                   | None => (Err malformedLine, rest)
                   | Some key =>
                       if negb (allChars validHeaderValueByte v)
                       then (Err malformedLine, rest)
                       else headerLines f
                              (Header_append h key (trimLeft isSpaceTab v)) rest
                   end
               end
      end
  end.

(** textproto.Reader.ReadMIMEHeader: header lines up to the blank line. *)
Definition readMIMEHeader (text : string) : result Header * string :=
  if startsWith isSpaceTab text
  then match readLine text with
       | Some (_, rest) =>
           (Err (ErrOther "malformed MIME header initial line"), rest)
       | None => (Err (ErrOther "malformed MIME header initial line"), text)
       end
  else headerLines (S (String.length text)) [] text.

Fixpoint Header_has (h : Header) (key : string) : bool :=
  match h with
  | [] => false
  | (k, _) :: h' => String.eqb k key || Header_has h' key
  end.

Fixpoint Header_Del (h : Header) (key : string) : Header :=
  match h with
  | [] => []
  | (k, vs) :: h' =>
      if String.eqb k key then Header_Del h' key else (k, vs) :: Header_Del h' key
  end.

(** net/http.fixPragmaCacheControl *)
Definition fixPragmaCacheControl (h : Header) : Header :=
  match Header_lookup h "Pragma" with
  | v :: _ =>
      if String.eqb v "no-cache" && negb (Header_has h "Cache-Control")
      then (h ++ [("Cache-Control", ["no-cache"])])%list
      else h
  | [] => h
  end.

(** textproto.TrimString *)
Definition TrimString (s : string) : string := trim isASCIISpace s.

(** net/http.parseContentLength; -1 when the header is absent. *)
Definition parseContentLength (cls : list string) : result Z :=
  match cls with
  | [] => Ok (-1)
  | c :: _ =>
      let cl := TrimString c in
      if isEmpty cl then Err (ErrOther "invalid empty Content-Length")
      else match ParseUint63 cl with
           | None => Err (ErrOther "bad Content-Length")
           | Some n => Ok n
           end
  end.

(** net/http.bodyAllowedForStatus *)
Definition bodyAllowedForStatus (status : Z) : bool :=
  negb ((100 <=? status) && (status <=? 199))
  && negb (status =? 204) && negb (status =? 304).

Definition equalFoldChunked (s : string) : bool :=
  String.eqb (mapChars toLower s) "chunked".

Record Transfer : Type := mkTransfer {
  trHeader : Header; trLength : Z; trChunked : bool; trBody : string
}.

(** net/http.readTransfer for a response: Transfer-Encoding, then
    fixLength, then the body reader.  A chunked body is kept as the raw
    bytes that follow the header (nothing in this package reads one), and
    Trailer declarations are left in the header. *)
Definition readTransfer (status major minor : Z) (requestMethod : string)
  (h : Header) (rest : string) : result Transfer :=
  let isHead := String.eqb requestMethod "HEAD" in
  (* parseTransferEncoding *)
  let te := Header_lookup h "Transfer-Encoding" in
  let present := Header_has h "Transfer-Encoding" in
  let h := Header_Del h "Transfer-Encoding" in
  let atLeast11 := (1 <? major) || ((major =? 1) && (1 <=? minor)) in
  let teResult : result bool :=
    if negb present then Ok false
    else if negb atLeast11 then Ok false
    else match te with
         | [v] => if equalFoldChunked v then Ok true
                  else Err (ErrOther "unsupported transfer encoding")
         | _ => Err (ErrOther "too many transfer encodings")
         end in
  match teResult with
  | Err e => Err e
  | Ok chunked =>
      (* fixLength *)
      let cls := Header_lookup h "Content-Length" in
      let dedup : result (Header * list string) :=
        match cls with
        | first :: (_ :: _) as others =>
            if forallb (fun ct => String.eqb (TrimString first) (TrimString ct)) others
            then Ok (Header_append (Header_Del h "Content-Length")
                       "Content-Length" (TrimString first),
                     [TrimString first])
            else Err (ErrOther "http: message cannot contain multiple Content-Length headers")
        | _ => Ok (h, cls)
        end in
      match dedup with
      | Err e => Err e
      | Ok (h, cls) =>
          match parseContentLength cls with
          | Err e => Err e
          | Ok n =>
              let noBody := isHead || negb (bodyAllowedForStatus status) in
              let realLength :=
                if noBody then 0
                else if chunked then -1
                else match cls with [] => -1 | _ => n end in
              let h := if negb noBody && chunked
                       then Header_Del h "Content-Length" else h in
              let contentLength := if isHead then n else realLength in
              let body :=
                if chunked then (if noBody then EmptyString else rest)
                else if realLength =? 0 then EmptyString
                else if 0 <? realLength then takeStr (Z.to_nat realLength) rest
                else rest in
              Ok (mkTransfer h contentLength chunked body)
          end
      end
  end.

(** http.ReadResponse on a reader holding [text], for the request [req]
    (nil: GET is assumed).  The second component is the text after the
    last line that was read. *)
Definition ReadResponse (text : string) (req : option Request)
  : result Response * string :=
  match readLine text with
  | None => (Err (ErrOther "unexpected EOF"), EmptyString)
  | Some (line, rest) =>
      match parseStatusLine line with
      | Err e => (Err e, rest)
      | Ok sl =>
          match readMIMEHeader rest with
          | (Err e, rest') => (Err e, rest')
          | (Ok h, rest') =>
              let method := match req with Some r => Method r | None => "GET" end in
              match readTransfer (slCode sl) (slMajor sl) (slMinor sl) method
                      (fixPragmaCacheControl h) rest' with
              | Err e => (Err e, rest')
              | Ok tr =>
                  (Ok {| Status := slStatus sl; StatusCode := slCode sl;
                         Proto := slProto sl; ProtoMajor := slMajor sl;
                         ProtoMinor := slMinor sl; RespHeader := trHeader tr;
                         ContentLength := trLength tr; Chunked := trChunked tr;
                         RespBody := trBody tr |}, rest')
              end
          end
      end
  end.

(** bufio's default buffer size. *)
Definition defaultBufSize : nat := 4096.

(** http.ReadResponse(bufio.NewReader(&buf), req) on a bytes.Buffer
    holding [text]: the outcome, and what is left in the buffer.  The
    buffered reader takes up to 4096 bytes with its first read and reads
    again only when a line of the header does not end within what it
    holds; the body is not read.  Exact when the header section ends
    within the first 4096 bytes; beyond that the reader has taken at least
    the lines that were read, which is what the model leaves out of the
    buffer. *)
Definition ReadResponseBuffered (text : string) (req : option Request)
  : result Response * string :=
  let '(r, rest) := ReadResponse text req in
  let consumed := (String.length text - String.length rest)%nat in
  (r, dropStr (Nat.max defaultBufSize consumed) text).

Fixpoint insertByKey (kv : string * list string) (l : Header) : Header :=
  match l with
  | [] => [kv]
  | kv' :: l' =>
      if String.ltb (fst kv) (fst kv') then kv :: l
      else kv' :: insertByKey kv l'
  end.

(** Header.sortedKeyValues *)
Definition sortedKeyValues (h : Header) : Header :=
  fold_right insertByKey [] h.

(** headerNewlineToSpace.Replace *)
Definition headerNewlineToSpace (v : string) : string :=
  mapChars (fun c => if Ascii.eqb c LF || Ascii.eqb c CR then " "%char else c) v.

(** httpguts.ValidHeaderFieldName: a non-empty token. *)
Definition ValidHeaderFieldName (k : string) : bool :=
  negb (isEmpty k) && allChars isTokenChar k.

Definition writeValue (key v : string) : string :=
  key ++ ": " ++ TrimString (headerNewlineToSpace v) ++ CRLF.

(** Header.Write: keys in increasing order; a key that is not a valid
    field name is skipped. *)
Definition Header_Write (h : Header) : string :=
  concat EmptyString
    (map (fun kv : string * list string =>
            if ValidHeaderFieldName (fst kv)
            then concat EmptyString (map (writeValue (fst kv)) (snd kv))
            else EmptyString)
         (sortedKeyValues h)).

(* ================================================================== *)
(** ** package simplemq: messages and the environment *)

Record Message : Type := mkMessage {
  ID : string;
  Content : string;
  CreatedAt : Z;
  UpdatedAt : Z;
  ExpiresAt : Z;
  AcquiredAt : Z;
  VisibilityTimeoutAt : Z
}.

(** time.UnixMilli *)
Definition UnixMilli (ms : Z) : Z := ms * 1000000.

Definition CreatedTime (m : Message) : Z := UnixMilli (CreatedAt m).
Definition VisibilityTimeoutTime (m : Message) : Z := UnixMilli (VisibilityTimeoutAt m).

Definition withVisibilityTimeoutAt (m : Message) (v : Z) : Message :=
  {| ID := ID m; Content := Content m; CreatedAt := CreatedAt m;
     UpdatedAt := UpdatedAt m; ExpiresAt := ExpiresAt m;
     AcquiredAt := AcquiredAt m; VisibilityTimeoutAt := v |}.

(** t.Sub(now): the difference of two instants as a Duration, saturated. *)
Definition Until (now t : Z) : Z := sat64 (t - now).

Definition Second : Z := 1000000000.

(** The zero time.Time: January 1, year 1, 00:00:00 UTC. *)
Definition zeroTime : Z := -62135596800 * Second.

(** The world outside the process, as an oracle: what the wall clock
    shows and what the queue service answers at the k-th interaction of
    a run, and how the local zone prints an instant in RFC 3339. *)
Record Env : Type := mkEnv {
  wallClock : nat -> Z;
  SendMessage : nat -> string -> result Message;
  ReceiveMessages : nat -> result (list Message);
  DeleteMessage : nat -> string -> option error;
  ExtendVisibilityTimeout : nat -> string -> result Message;
  formatRFC3339 : Z -> string
}.

Inductive Event : Type :=
| CallSend (content : string)
| CallReceive
| CallDelete (id : string)
| CallExtend (id : string)
| CancelRenewal.    (* extendCancel(); extendWg.Wait() *)

(** A run so far: the number of interactions with the environment, and
    the log of what was done, each entry with the interaction index it was
    answered at (cancelling the renewal is logged but is no interaction). *)
Record World : Type := mkWorld { tick : nat; events : list (nat * Event) }.

Definition isDelete (e : Event) : bool :=
  match e with CallDelete _ => true | _ => false end.
Definition isExtend (e : Event) : bool :=
  match e with CallExtend _ => true | _ => false end.

Definition deleteCalls (evs : list (nat * Event)) : list Event :=
  filter isDelete (map snd evs).
Definition extendCalls (evs : list (nat * Event)) : list Event :=
  filter isExtend (map snd evs).

(** The response observer, HandleResponse(resp *http.Response, req
    *http.Request) error.  It is handed the response itself, not a copy,
    and Close goes on reading that response afterwards: the observer is a
    function to the error it returns and the response as it leaves it. *)
Definition ResponseHandler : Type :=
  Response -> option Request -> option error * Response.

Record Conn : Type := mkConn {
  addr : string;
  msg : Message;
  serializer : Serializer;
  clientQueue : string;            (* client.Queue *)
  extendCancel : bool;             (* extendCancel != nil *)
  renewing : bool;                 (* the renewal goroutine is running *)
  extendErr : option error;
  reqBytes : string;
  initErr : option error;
  req : option Request;
  respBuffer : string;
  respHandler : option ResponseHandler
}.

Definition setMsg (c : Conn) (m : Message) : Conn :=
  mkConn (addr c) m (serializer c) (clientQueue c) (extendCancel c) (renewing c)
    (extendErr c) (reqBytes c) (initErr c) (req c) (respBuffer c) (respHandler c).
Definition setRenewal (c : Conn) (cancel running : bool) : Conn :=
  mkConn (addr c) (msg c) (serializer c) (clientQueue c) cancel running
    (extendErr c) (reqBytes c) (initErr c) (req c) (respBuffer c) (respHandler c).
Definition setExtendErr (c : Conn) (e : option error) : Conn :=
  mkConn (addr c) (msg c) (serializer c) (clientQueue c) (extendCancel c) (renewing c)
    e (reqBytes c) (initErr c) (req c) (respBuffer c) (respHandler c).
Definition setReqBytes (c : Conn) (b : string) : Conn :=
  mkConn (addr c) (msg c) (serializer c) (clientQueue c) (extendCancel c) (renewing c)
    (extendErr c) b (initErr c) (req c) (respBuffer c) (respHandler c).
Definition setInitErr (c : Conn) (e : option error) : Conn :=
  mkConn (addr c) (msg c) (serializer c) (clientQueue c) (extendCancel c) (renewing c)
    (extendErr c) (reqBytes c) e (req c) (respBuffer c) (respHandler c).
Definition setReq (c : Conn) (r : option Request) : Conn :=
  mkConn (addr c) (msg c) (serializer c) (clientQueue c) (extendCancel c) (renewing c)
    (extendErr c) (reqBytes c) (initErr c) r (respBuffer c) (respHandler c).
Definition setRespBuffer (c : Conn) (b : string) : Conn :=
  mkConn (addr c) (msg c) (serializer c) (clientQueue c) (extendCancel c) (renewing c)
    (extendErr c) (reqBytes c) (initErr c) (req c) b (respHandler c).
Definition setRespHandler (c : Conn) (h : option ResponseHandler) : Conn :=
  mkConn (addr c) (msg c) (serializer c) (clientQueue c) (extendCancel c) (renewing c)
    (extendErr c) (reqBytes c) (initErr c) (req c) (respBuffer c) h.

Definition setHeader (r : Request) (h : Header) : Request :=
  mkRequest (Method r) (ReqURL r) h (ReqBody r) (ReqContentLength r).

Definition setBody (r : Request) (body : option Reader) : Request :=
  mkRequest (Method r) (ReqURL r) (ReqHeader r) body (ReqContentLength r).

Record Listener : Type := mkListener {
  listenerQueue : string;                     (* client.Queue *)
  acceptedMessages : list Message;
  ListenerSerializer : option Serializer;     (* the Serializer field; None: nil *)
  ListenerResponseHandler : option ResponseHandler
}.

Definition setAccepted (l : Listener) (ms : list Message) : Listener :=
  mkListener (listenerQueue l) ms (ListenerSerializer l) (ListenerResponseHandler l).

Record Transport : Type := mkTransport {
  transportQueue : string;                    (* client.Queue *)
  TransportSerializer : option Serializer
}.

Section Adapter.

Variable E : Env.

(** The messages the polls of a log delivered, in the order of the polls. *)
Fixpoint deliveries (evs : list (nat * Event)) : list Message :=
  match evs with
  | [] => []
  | (k, CallReceive) :: evs' =>
      match ReceiveMessages E k with
      | Ok ms => ms ++ deliveries evs'
      | Err _ => deliveries evs'
      end
  | _ :: evs' => deliveries evs'
  end.

(** http.Request.Write: the wire form of a request or the error, and the
    body of the request as writing leaves it (a write that succeeds has
    read the body to its end). *)
Variable Request_Write : Request -> result string * option Reader.

(** http.ReadResponse(bufio.NewReader(&c.respBuffer), c.req): the parsed
    response or the error, and what is left unread in the buffer. *)
Variable readResponse : string -> option Request -> result Response * string.

(** *** Interactions with the environment *)

Definition record (ev : Event) (w : World) : World :=
  mkWorld (S (tick w)) (events w ++ [(tick w, ev)]).

(** time.Now *)
Definition Now (w : World) : Z * World :=
  (wallClock E (tick w), mkWorld (S (tick w)) (events w)).

Definition callExtend (id : string) (w : World) : result Message * World :=
  (ExtendVisibilityTimeout E (tick w) id, record (CallExtend id) w).

Definition callDelete (id : string) (w : World) : option error * World :=
  (DeleteMessage E (tick w) id, record (CallDelete id) w).

Definition callReceive (w : World) : result (list Message) * World :=
  (ReceiveMessages E (tick w), record CallReceive w).

Definition callSend (content : string) (w : World) : result Message * World :=
  (SendMessage E (tick w) content, record (CallSend content) w).

(** *** conn.go *)

(** What one firing of the renewal timer does (the body of the goroutine
    started by init); the timer itself, set at nine tenths of the time
    left, is not modelled. *)
Definition renewalFire (c : Conn) (w : World) : Conn * World :=
  if renewing c then
    let '(r, w) := callExtend (ID (msg c)) w in
    match r with
    | Err e =>
        let c := if errors_Is_Canceled e then c else setExtendErr c (Some e) in
        (setRenewal c (extendCancel c) false, w)
    | Ok extendedMsg =>
        (setMsg c (withVisibilityTimeoutAt (msg c) (VisibilityTimeoutAt extendedMsg)), w)
    end
  else (c, w).

(** Conn.init *)
Definition init (c : Conn) : Conn :=
  let c := setRenewal c true false in
  match Deserialize (serializer c) (Content (msg c)) with
  | Err e => setInitErr c (Some e)
  | Ok r =>
      let h := ReqHeader r in
      let h := Header_Add h "SimpleMQ-Message-ID" (ID (msg c)) in
      let h := Header_Add h "SimpleMQ-Message-Created"
                 (formatRFC3339 E (CreatedTime (msg c))) in
      let h := Header_Add h "SimpleMQ-Message-Visibility-Timeout"
                 (formatRFC3339 E (VisibilityTimeoutTime (msg c))) in
      let h := Header_Add h "SimpleMQ-Queue-Name" (clientQueue c) in
      let r := setHeader r h in
      let c := setRenewal c true true in   (* go func() { ... }() *)
      (* c.req = req; req.Write(&buf) reads the body of that same request *)
      let '(written, unread) := Request_Write r in
      let c := setReq c (Some (setBody r unread)) in
      match written with
      | Err e => setInitErr c (Some e)
      | Ok bytes => setReqBytes c bytes
      end
  end.

(** newConn *)
Definition newConn (addr : string) (m : Message) (s : Serializer) (queue : string)
  : Conn :=
  init (mkConn addr m s queue false false None EmptyString None None EmptyString None).

(** Conn.Read into a slice of length [n]. *)
Definition Read (n : nat) (c : Conn) : result string * Conn :=
  match initErr c with
  | Some e => (Err (ErrWrap "failed to initialize connection" e), c)
  | None =>
      match extendErr c with
      | Some e => (Err (ErrWrap "failed to extend visibility timeout" e), c)
      | None =>
          if isEmpty (reqBytes c) then (Err ErrNetClosed, c)
          else (Ok (takeStr n (reqBytes c)), setReqBytes c (dropStr n (reqBytes c)))
      end
  end.

(** Conn.Write: the number of bytes written, or an error. *)
Definition Write (b : string) (c : Conn) : result Z * Conn :=
  match extendErr c with
  | Some e => (Err (ErrWrap "failed to extend visibility timeout" e), c)
  | None =>
      if isEmpty b then (Ok 0, c)
      else (Ok (len b), setRespBuffer c (respBuffer c ++ b))
  end.

(** if c.extendCancel != nil { c.extendCancel(); c.extendWg.Wait() } *)
Definition stopRenewal (c : Conn) (w : World) : Conn * World :=
  if extendCancel c
  then (setRenewal c true false,
        mkWorld (tick w) (events w ++ [(tick w, CancelRenewal)]))
  else (c, w).

(** The log of [k] calls [ev], the first at interaction [t], each [gap]
    interactions after the one before. *)
Fixpoint callsEvery (gap : nat) (ev : Event) (t k : nat) : list (nat * Event) :=
  match k with
  | O => []
  | S k' => (t, ev) :: callsEvery gap ev (gap + t) k'
  end.

(** What stopping the renewal adds to the log. *)
Definition stopEvents (c : Conn) (w : World) : list (nat * Event) :=
  if extendCancel c then [(tick w, CancelRenewal)] else [].

(** if c.respHandler != nil { err := c.respHandler.HandleResponse(resp, c.req) }:
    the error, and the response as it is afterwards. *)
Definition observe (c : Conn) (resp : Response) : option error * Response :=
  match respHandler c with
  | Some h => h resp (req c)
  | None => (None, resp)
  end.

(** The loop of Close for a Retry-After of [bound] nanoseconds:
    for time.Until(c.msg.VisibilityTimeoutTime()) < bound { extend }.
    A failed extend ends Close with nil.  [None]: the fuel ran out. *)
Fixpoint retryAfterLoop (fuel : nat) (bound : Z) (c : Conn) (w : World)
  : option (Conn * World) :=
  match fuel with
  | O => None
  | S f =>
      let '(now, w) := Now w in
      if Until now (VisibilityTimeoutTime (msg c)) <? bound then
        let '(r, w) := callExtend (ID (msg c)) w in
        match r with
        | Err _ => Some (c, w)
        | Ok extendedMsg =>
            retryAfterLoop f bound
              (setMsg c (withVisibilityTimeoutAt (msg c)
                           (VisibilityTimeoutAt extendedMsg))) w
        end
      else Some (c, w)
  end.

(** Conn.Close; [None]: the fuel ran out in the Retry-After loop. *)
Definition Close (fuel : nat) (c : Conn) (w : World)
  : option (option error * Conn * World) :=
  let '(c, w) := stopRenewal c w in
  if isEmpty (respBuffer c) then Some (None, c, w)
  else
    let '(parsed, rest) := readResponse (respBuffer c) (req c) in
    let c := setRespBuffer c rest in
    match parsed with
    | Err e => Some (Some (ErrWrap "failed to serialize response" e), c, w)
    | Ok resp =>
        let statusCode := StatusCode resp in
        let '(handled, resp) := observe c resp in
        match handled with
        | Some e => Some (Some (ErrWrap "failed to handle response" e), c, w)
        | None =>
            if (200 <=? statusCode) && (statusCode <? 300) then
              let '(r, w) := callDelete (ID (msg c)) w in
              match r with
              | Some e => Some (Some (ErrWrap "failed to delete message" e), c, w)
              | None => Some (None, c, w)
              end
            else
              let retryAfter := Header_Get (RespHeader resp) "Retry-After" in
              if isEmpty retryAfter then Some (None, c, w)
              else match Atoi retryAfter with
                   | None => Some (None, c, w)
                   | Some seconds =>
                       match retryAfterLoop fuel (wrap64 (seconds * Second)) c w with
                       | None => None
                       | Some (c, w) => Some (None, c, w)
                       end
                   end
        end
    end.

Definition maxAttempts : nat := 10.

(** The loop of SetDeadline, with [remaining] attempts left:
    for attempts := 0; currentTimeout.Before(t) && attempts < maxAttempts;
    attempts++ { extend; time.Sleep(sleepDuration) }.  Sleeping only lets
    the clock run. *)
Fixpoint deadlineLoop (remaining : nat) (t : Z) (c : Conn) (w : World)
  : option error * Conn * World :=
  match remaining with
  | O => (None, c, w)
  | S k =>
      if VisibilityTimeoutTime (msg c) <? t then
        let '(r, w) := callExtend (ID (msg c)) w in
        match r with
        | Err e =>
            (Some (ErrWrap "failed to extend visibility timeout to deadline" e), c, w)
        | Ok extendedMsg =>
            deadlineLoop k t
              (setMsg c (withVisibilityTimeoutAt (msg c)
                           (VisibilityTimeoutAt extendedMsg))) w
        end
      else (None, c, w)
  end.

(** Conn.SetDeadline *)
Definition SetDeadline (t : Z) (c : Conn) (w : World) : option error * Conn * World :=
  let '(c, w) := stopRenewal c w in
  if t =? zeroTime then (None, c, w)
  else
    let '(now, w) := Now w in
    let deadline := Until now t in
    if deadline <=? 0 then (None, c, w)
    else deadlineLoop maxAttempts t c w.



(** *** The listener *)

(** Listener.serializer *)
Definition listenerSerializer (l : Listener) : Serializer :=
  match ListenerSerializer l with
  | Some s => s
  | None => bodyOnlySerializer (mkBodyOnly false)
  end.

(** Listener.accept: poll while the buffer is empty, then take its first
    message.  time.Sleep only lets the clock run.  [None]: the fuel ran
    out. *)
Fixpoint accept (fuel : nat) (l : Listener) (w : World)
  : option (result Message * Listener * World) :=
  match acceptedMessages l with
  | m :: rest => Some (Ok m, setAccepted l rest, w)
  | [] =>
      match fuel with
      | O => None
      | S f =>
          let '(r, w) := callReceive w in
          match r with
          | Err e => Some (Err e, l, w)
          | Ok ms => accept f (setAccepted l (acceptedMessages l ++ ms)%list) w
          end
      end
  end.

(** Listener.Accept; [None]: the fuel ran out. *)
Fixpoint Accept (fuel : nat) (l : Listener) (w : World)
  : option (result Conn * Listener * World) :=
  match fuel with
  | O => None
  | S f =>
      match accept fuel l w with
      | None => None
      | Some (Err e, l, w) =>
          if errors_Is_Canceled e then Some (Err ErrNetClosed, l, w)
          else Some (Err e, l, w)
      | Some (Ok m, l, w) =>
          let '(now, w) := Now w in
          if Until now (VisibilityTimeoutTime m) <=? 0 then Accept f l w
          else
            let conn := newConn (listenerQueue l) m (listenerSerializer l)
                          (listenerQueue l) in
            let conn :=
              match ListenerResponseHandler l with
              | Some h => setRespHandler conn (Some h)
              | None => conn
              end in
            Some (Ok conn, l, w)
      end
  end.

(** *** transport.go *)

(** Transport.serializer *)
Definition transportSerializer (t : Transport) : Serializer :=
  match TransportSerializer t with
  | Some s => s
  | None => bodyOnlySerializer (mkBodyOnly false)
  end.

Definition statusLineOf (code : Z) : string :=
  "HTTP/1.1 " ++ Itoa code ++ " " ++ StatusText code ++ CRLF.

(** Transport.RoundTrip *)
Definition RoundTrip (t : Transport) (r : Request) (w : World)
  : result Response * World :=
  match Serialize (transportSerializer t) (Some r) with
  | Err e => (Err e, w)
  | Ok content =>
      let '(sent, w) := callSend content w in
      let built : result string :=
        match sent with
        | Err err =>
            match errors_As_APIError err with
            | None => Err err
            | Some (code, message) =>
                Ok (statusLineOf code
                    ++ Header_Write
                         [ ("Content-Type", ["text/plain"]);
                           ("Content-Length", [Itoa (len message)]);
                           ("SimpleMQ-Queue-Name", [transportQueue t]) ]
                    ++ CRLF ++ message)
            end
        | Ok m =>
            Ok (statusLineOf StatusAccepted
                ++ Header_Write
                     [ ("Content-Type", ["text/plain"]);
                       ("Content-Length", ["0"]);
                       ("SimpleMQ-Queue-Name", [transportQueue t]);
                       ("SimpleMQ-Message-ID", [ID m]);
                       ("SimpleMQ-Message-Created",
                        [formatRFC3339 E (CreatedTime m)]) ]
                ++ CRLF)
        end in
      match built with
      | Err e => (Err e, w)
      | Ok text =>
          match fst (ReadResponse text (Some r)) with
          | Err e => (Err e, w)
          | Ok resp => (Ok resp, w)
          end
      end
  end.

End Adapter.

(* ================================================================== *)
(** ** Header values and header lines, for the statements about
       Transport.RoundTrip *)

Fixpoint endsWith (p : ascii -> bool) (s : string) : bool :=
  match s with
  | EmptyString => false
  | String c EmptyString => p c
  | String _ r => endsWith p r
  end.

(** A header value that Header.Write writes as it is and that the reader
    of MIME headers accepts and returns as it is: bytes that are valid in
    a field value (no control byte but the tab), no blank at either end. *)
Definition headerSafe (v : string) : bool :=
  allChars validHeaderValueByte v
  && negb (startsWith isSpaceTab v) && negb (endsWith isSpaceTab v).

(** The lines "key: value\r\n" of a header. *)
Fixpoint renderLines (kvs : list (string * string)) : string :=
  match kvs with
  | [] => EmptyString
  | (k, v) :: kvs' => k ++ ": " ++ v ++ CRLF ++ renderLines kvs'
  end.

(** The header these lines are read as. *)
Definition headerOf (kvs : list (string * string)) : Header :=
  fold_left (fun h kv => Header_append h (canonicalize true (fst kv)) (snd kv)) kvs [].

Definition noLF (s : string) : bool := allChars (fun c => negb (Ascii.eqb c LF)) s.

(** A header line that is written and read back as it is. *)
Definition goodLine (kv : string * string) : bool :=
  ValidHeaderFieldName (fst kv) && headerSafe (snd kv).

(** A code that %d prints as three digits which Atoi reads back. *)
Definition threeDigits (code : Z) : bool :=
  match Itoa code with
  | String a (String b (String c EmptyString)) =>
      isDigit a && isDigit b && isDigit c
      && match Atoi (Itoa code) with
         | Some v => v =? code
         | None => false
         end
  | _ => false
  end.

(* ================================================================== *)
(** ** Sample runs

    A queue that grants leases of a fixed length, a message and streams on
    it, used to run the model on concrete inputs. *)

Fixpoint repeatChar (n : nat) (c : ascii) : string :=
  match n with
  | O => EmptyString
  | S n' => String c (repeatChar n' c)
  end.

Definition namedMessage (id : string) (vta : Z) : Message :=
  {| ID := id; Content := "aGVsbG8="; CreatedAt := 1000; UpdatedAt := 1000;
     ExpiresAt := 0; AcquiredAt := 2000; VisibilityTimeoutAt := vta |}.

Definition sampleMessage (vta : Z) : Message := namedMessage "m1" vta.

(** The clock shows one millisecond per interaction; every extend grants
    [lease] milliseconds from the time of the call; polls deliver the list
    [batches k] at interaction [k]; sends and deletes are answered by
    [sendReply] and [deleteReply]. *)
Definition leaseQueue (lease : Z) (batches : nat -> list Message)
  (sendReply : result Message) (deleteReply : option error) : Env :=
  {| wallClock := fun k => UnixMilli (Z.of_nat k);
     SendMessage := fun _ _ => sendReply;
     ReceiveMessages := fun k => Ok (batches k);
     DeleteMessage := fun _ _ => deleteReply;
     ExtendVisibilityTimeout := fun k _ => Ok (sampleMessage (Z.of_nat k + lease));
     formatRFC3339 := Itoa |}.

Definition sampleQueue : Env :=
  leaseQueue 30000 (fun _ => []) (Ok (sampleMessage 0)) None.

(** A stand-in for Request.Write: the request line and an empty header;
    the body is left at its end. *)
Definition sampleRequestWrite (r : Request) : result string * option Reader :=
  (Ok (Method r ++ " " ++ Path (ReqURL r) ++ " HTTP/1.1" ++ CRLF ++ CRLF),
   option_map (fun _ => mkReader EmptyString None) (ReqBody r)).

(** A stream on [sampleMessage vta] to which [response] has been written. *)
Definition sampleConn (vta : Z) (response : string) : Conn :=
  snd (Write response
         (newConn sampleQueue sampleRequestWrite "q1" (sampleMessage vta)
            (bodyOnlySerializer (mkBodyOnly false)) "q1")).

Definition startWorld : World := mkWorld 0 [].

(** A queue whose first poll delivers three messages, the first of them
    with a lease that is over, and whose later polls deliver nothing. *)
Definition pollQueue : Env :=
  leaseQueue 30000
    (fun k => match k with
              | O => [namedMessage "old" 0; namedMessage "m1" 30000;
                      namedMessage "m2" 30000]
              | S _ => []
              end)
    (Ok (sampleMessage 0)) None.

Definition sampleListener : Listener := mkListener "q1" [] None None.

(** A queue that answers every send with the API error [code], [message]. *)
Definition rejectQueue (code : Z) (message : string) : Env :=
  leaseQueue 30000 (fun _ => []) (Err (ErrAPI code message)) None.

Definition samplePost : Request :=
  mkRequest "POST" (mkURL "/api/endpoint") [] (Some (mkReader "hello" None)) 5.

Definition sampleHead : Request := mkRequest "HEAD" (mkURL "/") [] None 0.

Definition emptyResponse : Response :=
  mkResponse EmptyString 0 EmptyString 0 0 [] 0 false EmptyString.

(** The response a text parses to (the empty response when it does not). *)
Definition parsedResponse (text : string) : Response :=
  match fst (ReadResponseBuffered text None) with
  | Ok r => r
  | Err _ => emptyResponse
  end.

Definition response200 : string := "HTTP/1.1 200 OK" ++ CRLF ++ CRLF.

Definition response503 (retryAfter : string) : string :=
  "HTTP/1.1 503 Service Unavailable" ++ CRLF
  ++ "Retry-After: " ++ retryAfter ++ CRLF ++ CRLF.

(** A response of 4115 bytes: a header of 41 bytes, then a body whose last
    19 bytes, from offset 4096 on, read as a response of their own. *)
Definition response200Long : string :=
  "HTTP/1.1 200 OK" ++ CRLF ++ "Content-Length: 4074" ++ CRLF ++ CRLF
  ++ repeatChar 4055 "a" ++ response200.

(** The deletes in the log after two Close calls in a row. *)
Definition deletesOfTwoCloses (E : Env) (c : Conn) (between : Conn -> Conn)
  : list Event :=
  match Close E ReadResponseBuffered 0 c startWorld with
  | Some (_, c1, w1) =>
      match Close E ReadResponseBuffered 0 (between c1) w1 with
      | Some (_, _, w2) => deleteCalls (events w2)
      | None => []
      end
  | None => []
  end.

Definition setRespHeader (resp : Response) (h : Header) : Response :=
  mkResponse (Status resp) (StatusCode resp) (Proto resp) (ProtoMajor resp)
    (ProtoMinor resp) h (ContentLength resp) (Chunked resp) (RespBody resp).

(** An observer that takes the Retry-After header off the response, and
    one that sets it, as resp.Header.Del and resp.Header.Set do. *)
Definition dropRetryAfter : ResponseHandler :=
  fun resp _ => (None, setRespHeader resp (Header_Del (RespHeader resp) "Retry-After")).

Definition putRetryAfter (seconds : string) : ResponseHandler :=
  fun resp _ =>
    (None, setRespHeader resp
             (Header_append (Header_Del (RespHeader resp) "Retry-After")
                "Retry-After" seconds)).

(** A response with the status 503 and no Retry-After header. *)
Definition response503Plain : string :=
  "HTTP/1.1 503 Service Unavailable" ++ CRLF ++ CRLF.

(** What a Close came to: the error, the local lease deadline, the log. *)
Definition closeOutcome (x : option (option error * Conn * World))
  : option (option error * Z * list (nat * Event)) :=
  match x with
  | Some (r, c, w) => Some (r, VisibilityTimeoutAt (msg c), events w)
  | None => None
  end.

(* ================================================================== *)
(** ** Streams and calls, named for the statements below *)

(** The stream Accept builds on the message [m]:
    newConn(l.Addr(), *msg, l.serializer(), l.client, l.logger()), with the
    observer of the listener when it has one. *)
Definition acceptedConn (E : Env) (Request_Write : Request -> result string * option Reader)
  (l : Listener) (m : Message) : Conn :=
  let conn := newConn E Request_Write (listenerQueue l) m (listenerSerializer l)
                (listenerQueue l) in
  match ListenerResponseHandler l with
  | Some h => setRespHandler conn (Some h)
  | None => conn
  end.

(** The messages [ms], taken up one after the other from the interaction
    [t] on (taking a message up reads the clock once), are each found with
    a lease deadline that is not ahead. *)
Fixpoint expiredFrom (E : Env) (t : nat) (ms : list Message) : Prop :=
  match ms with
  | [] => True
  | m :: ms' =>
      VisibilityTimeoutTime m <= wallClock E t /\ expiredFrom E (S t) ms'
  end.

(** The entries a Close may add to the log for the message [id]. *)
Definition ownCall (id : string) (ev : nat * Event) : Prop :=
  snd ev = CancelRenewal \/ snd ev = CallDelete id \/ snd ev = CallExtend id.

(** A queue that answers every call with the error [e]. *)
Definition failingQueue (e : error) : Env :=
  {| wallClock := fun k => UnixMilli (Z.of_nat k);
     SendMessage := fun _ _ => Err e;
     ReceiveMessages := fun _ => Err e;
     DeleteMessage := fun _ _ => Some e;
     ExtendVisibilityTimeout := fun _ _ => Err e;
     formatRFC3339 := Itoa |}.

(** A serializer that refuses every request and every payload. *)
Definition refusingSerializer : Serializer :=
  {| Serialize := fun _ => Err (ErrOther "unsupported request");
     Deserialize := fun _ => Err (ErrOther "unsupported payload") |}.

(** A listener that holds one message with a lease up to [vta]. *)
Definition bufferedListener (vta : Z) : Listener :=
  mkListener "q1" [sampleMessage vta] None None.

(* ================================================================== *)
(** ** package simplemq: the client (client.go)

    The client talks to the queue service over HTTP.  What it gets from
    net/url, net/http and encoding/json is taken together as the
    [Libraries] it runs on; what is modelled is what the client itself
    does: the requests it builds and how it turns the replies into results
    and errors. *)

Fixpoint Header_replace (h : Header) (key value : string) : Header :=
  match h with
  | [] => [(key, [value])]
  | (k, vs) :: h' =>
      if String.eqb k key then (k, [value]) :: h'
      else (k, vs) :: Header_replace h' key value
  end.

(** Header.Set *)
Definition Header_Set (h : Header) (key value : string) : Header :=
  Header_replace h (CanonicalMIMEHeaderKey key) value.

Module simplemq.

Record Client : Type := mkClient {
  Endpoint : string;
  APIKey : string;
  Queue : string
}.

(** NewClient *)
Definition NewClient (apiKey queue : string) : Client :=
  mkClient EmptyString apiKey queue.

(** The request handed to http.Client.Do: whether its context is already
    cancelled, the method, the target, the header, the body (None: nil). *)
Record HTTPRequest : Type := mkHTTPRequest {
  ctxDone : bool;
  httpMethod : string;
  httpURL : string;
  httpHeader : Header;
  httpBody : option string
}.

(** What the client looks at in an http.Response. *)
Record HTTPResponse : Type := mkHTTPResponse {
  httpStatusCode : Z;
  httpRespBody : Reader
}.

Record Libraries : Type := mkLibraries {
  (** the error of url.Parse, if any *)
  url_Parse_error : string -> option error;
  (** u.JoinPath(p).String() for the parsed endpoint u *)
  url_JoinPath : string -> string -> string;
  (** the error of http.NewRequestWithContext for a method and a target *)
  http_NewRequest_error : string -> string -> option error;
  (** c.httpClient().Do *)
  http_Do : HTTPRequest -> result HTTPResponse;
  (** json.Marshal(map[string]string{"content": content}) *)
  json_Marshal_content : string -> result string;
  (** Decode into an APIError: the code and the message *)
  json_Decode_APIError : Reader -> result (Z * string);
  (** Decode into struct{ Message Message } *)
  json_Decode_message : Reader -> result Message;
  (** Decode into struct{ Messages []Message } *)
  json_Decode_messages : Reader -> result (list Message)
}.

Definition DefaultEndpoint : string := "https://simplemq.tk1b.api.sacloud.jp".

Section Client.

Variable L : Libraries.
Variable c : Client.

(** Client.endpointURL *)
Definition endpointURL (p : string) : result string :=
  let e := if isEmpty (Endpoint c) then DefaultEndpoint else Endpoint c in
  match url_Parse_error L e with
  | Some err => Err (ErrWrap "invalid endpoint URL" err)
  | None => Ok (url_JoinPath L e p)
  end.

(** Client.doRequest: the reply or the error, and the request that was
    handed to the HTTP client, if it came to that. *)
Definition doRequest (done : bool) (method path : string) (body : option string)
  : result HTTPResponse * option HTTPRequest :=
  match endpointURL path with
  | Err err => (Err err, None)
  | Ok url =>
      match http_NewRequest_error L method url with
      | Some err => (Err (ErrWrap "request creation failed" err), None)
      | None =>
          let h := Header_Set [] "Authorization" ("Bearer " ++ APIKey c) in
          let h := if String.eqb method "POST" || String.eqb method "PUT"
                   then Header_Set h "Content-Type" "application/json"
                   else h in
          let r := mkHTTPRequest done method url h body in
          match http_Do L r with
          | Err err => (Err (ErrWrap "request failed" err), Some r)
          | Ok resp => (Ok resp, Some r)
          end
      end
  end.

(** if resp.StatusCode != http.StatusOK { decode an APIError and return it } *)
Definition apiError (resp : HTTPResponse) : error :=
  match json_Decode_APIError L (httpRespBody resp) with
  | Err err => ErrWrap "decode error" err
  | Ok (code, message) => ErrAPI code message
  end.

(** Client.SendMessage *)
Definition SendMessage (done : bool) (content : string)
  : result Message * option HTTPRequest :=
  match json_Marshal_content L content with
  | Err err => (Err (ErrWrap "marshal error" err), None)
  | Ok body =>
      let '(r, sent) :=
        doRequest done "POST" ("/v1/queues/" ++ Queue c ++ "/messages") (Some body) in
      match r with
      | Err err => (Err err, sent)
      | Ok resp =>
          if negb (httpStatusCode resp =? 200) then (Err (apiError resp), sent)
          else match json_Decode_message L (httpRespBody resp) with
               | Err err => (Err (ErrWrap "decode error" err), sent)
               | Ok m => (Ok m, sent)
               end
      end
  end.

(** Client.ReceiveMessages *)
Definition ReceiveMessages (done : bool)
  : result (list Message) * option HTTPRequest :=
  let '(r, sent) :=
    doRequest done "GET" ("/v1/queues/" ++ Queue c ++ "/messages") None in
  match r with
  | Err err => (Err err, sent)
  | Ok resp =>
      if negb (httpStatusCode resp =? 200) then (Err (apiError resp), sent)
      else match json_Decode_messages L (httpRespBody resp) with
           | Err err => (Err (ErrWrap "decode error" err), sent)
           | Ok [] => (Ok [], sent)
           | Ok ms => (Ok ms, sent)
           end
  end.

(** Client.DeleteMessage *)
Definition DeleteMessage (done : bool) (id : string)
  : option error * option HTTPRequest :=
  let '(r, sent) :=
    doRequest done "DELETE" ("/v1/queues/" ++ Queue c ++ "/messages/" ++ id) None in
  match r with
  | Err err => (Some err, sent)
  | Ok resp =>
      if negb (httpStatusCode resp =? 200) then (Some (apiError resp), sent)
      else (None, sent)
  end.

(** Client.ExtendVisibilityTimeout *)
Definition ExtendVisibilityTimeout (done : bool) (id : string)
  : result Message * option HTTPRequest :=
  let '(r, sent) :=
    doRequest done "PUT" ("/v1/queues/" ++ Queue c ++ "/messages/" ++ id) None in
  match r with
  | Err err => (Err err, sent)
  | Ok resp =>
      if negb (httpStatusCode resp =? 200) then (Err (apiError resp), sent)
      else match json_Decode_message L (httpRespBody resp) with
           | Err err => (Err (ErrWrap "decode error" err), sent)
           | Ok m => (Ok m, sent)
           end
  end.

End Client.

End simplemq.

(** The queue as the adapter sees it through a client: at interaction [k]
    the client runs on the libraries [L k].  Transport.RoundTrip sends
    with the context of the request and the listener polls with its base
    context ([sendDone], [recvDone]: that context is already cancelled);
    Close and SetDeadline delete and extend with context.Background(). *)
Definition clientEnv (L : nat -> simplemq.Libraries) (c : simplemq.Client)
  (sendDone recvDone : bool) (clock : nat -> Z) (format : Z -> string) : Env :=
  {| wallClock := clock;
     SendMessage := fun k content => fst (simplemq.SendMessage (L k) c sendDone content);
     ReceiveMessages := fun k => fst (simplemq.ReceiveMessages (L k) c recvDone);
     DeleteMessage := fun k id => fst (simplemq.DeleteMessage (L k) c false id);
     ExtendVisibilityTimeout :=
       fun k id => fst (simplemq.ExtendVisibilityTimeout (L k) c false id);
     formatRFC3339 := format |}.

(* ================================================================== *)
(** ** The base context of a listener (baseContext, Listener.Close) *)

(** The fields BaseContext, baseCtx and baseCancel of a Listener.  A
    context is represented by whether it is done. *)
Record Scope : Type := mkScope {
  BaseContext : option bool;   (* None: nil; Some d: returns a context that is done iff d *)
  baseCtx : option bool;       (* None: nil *)
  baseCancel : bool            (* baseCancel != nil *)
}.

(** Listener.baseContext: the context, and the listener afterwards. *)
Definition baseContext (s : Scope) : bool * Scope :=
  match baseCtx s with
  | Some done => (done, s)
  | None =>
      let parent := match BaseContext s with
                    | Some done => done
                    | None => false      (* context.Background() *)
                    end in
      (parent, mkScope (BaseContext s) (Some parent) true)
  end.

(** Listener.Close: cancelling marks the base context as done. *)
Definition Listener_Close (s : Scope) : option error * Scope :=
  if baseCancel s
  then (None, mkScope (BaseContext s)
                (match baseCtx s with Some _ => Some true | None => None end) false)
  else (None, s).

(** Listener.Accept with its first line, ctx := l.baseContext(), for a
    listener whose client is [c] (so that its queue is the queue of [c])
    and runs on [L].  The context is looked at when Accept starts; a
    cancellation that comes while Accept polls shows as the failure of a
    poll. *)
Definition AcceptWithContext (L : nat -> simplemq.Libraries) (c : simplemq.Client)
  (clock : nat -> Z) (format : Z -> string)
  (Request_Write : Request -> result string * option Reader)
  (fuel : nat) (s : Scope) (l : Listener) (w : World)
  : option (result Conn * Listener * World) * Scope :=
  let '(done, s) := baseContext s in
  (Accept (clientEnv L c false done clock format) Request_Write fuel l w, s).

(* ================================================================== *)
(** ** package stub: the queue service in memory (stub.go)

    The two nested Go maps are association lists with at most one entry
    per key; the order of a list stands for one of the orders in which Go
    may iterate the map.  The clock, the identifier drawn by uuid.New and
    json.Unmarshal are inputs.  What a handler passes to
    json.NewEncoder(w).Encode is kept as a value. *)

Module stub.

Fixpoint lookup {A : Type} (k : string) (m : list (string * A)) : option A :=
  match m with
  | [] => None
  | (k', v) :: m' => if String.eqb k' k then Some v else lookup k m'
  end.

(** m[k] = v *)
Fixpoint insert {A : Type} (k : string) (v : A) (m : list (string * A))
  : list (string * A) :=
  match m with
  | [] => [(k, v)]
  | (k', v') :: m' =>
      if String.eqb k' k then (k', v) :: m' else (k', v') :: insert k v m'
  end.

(** delete(m, k) *)
Fixpoint remove {A : Type} (k : string) (m : list (string * A))
  : list (string * A) :=
  match m with
  | [] => []
  | (k', v') :: m' =>
      if String.eqb k' k then remove k m' else (k', v') :: remove k m'
  end.

Record Server : Type := mkServer {
  messages : list (string * list (string * Message));   (* queue -> id -> message *)
  counter : Z;
  apiKey : string
}.

(** The Server of NewServer. *)
Definition NewServer (key : string) : Server := mkServer [] 0 key.

(** Server.Reset *)
Definition Reset (s : Server) : Server := mkServer [] 0 (apiKey s).

(** Server.AddMessage at the time [now], with [id] the identifier drawn;
    the counter is a Go int, 64 bits wide. *)
Definition AddMessage (now : Z) (id : string) (queue content : string) (s : Server)
  : Message * Server :=
  let queueMsgs := match lookup queue (messages s) with
                   | Some q => q
                   | None => []
                   end in
  let msg := mkMessage id content now now 0 0 0 in
  (msg, mkServer (insert queue (insert id msg queueMsgs) (messages s))
          (wrap64 (counter s + 1)) (apiKey s)).

(** Server.GetMessage; None: nil *)
Definition GetMessage (queue id : string) (s : Server) : option Message :=
  match lookup queue (messages s) with
  | Some queueMsgs => lookup id queueMsgs
  | None => None
  end.

(** Server.GetQueueSize *)
Definition GetQueueSize (queue : string) (s : Server) : Z :=
  match lookup queue (messages s) with
  | Some queueMsgs => Z.of_nat (List.length queueMsgs)
  | None => 0
  end.

(** The messages of a queue, in the order of the association list. *)
Definition queueMessages (queue : string) (s : Server) : list Message :=
  match lookup queue (messages s) with
  | Some queueMsgs => map snd queueMsgs
  | None => []
  end.

(** What a handler encodes into the body of its reply. *)
Inductive Payload : Type :=
| NoPayload
| APIErrorPayload (code : Z) (message : string)      (* simplemq.APIError *)
| MessagePayload (m : Message)                       (* {message} *)
| ResultMessagePayload (m : Message)                 (* {result: success, message} *)
| ResultMessagesPayload (ms : list Message)          (* {result: success, messages} *)
| StatusPayload (status : string).                   (* {status} *)

(** A reply: the status (200 when the handler sets none), whether the
    handler set Content-Type: application/json, and the payload. *)
Record Reply : Type := mkReply {
  replyStatus : Z;
  replyJSON : bool;
  replyPayload : Payload
}.

(** Server.authMiddleware *)
Definition authMiddleware (next : Request -> Server -> Reply * Server)
  (r : Request) (s : Server) : Reply * Server :=
  let authHeader := Header_Get (ReqHeader r) "Authorization" in
  let expected := "Bearer " ++ apiKey s in
  if negb (String.eqb authHeader expected)
  then (mkReply 401 false (APIErrorPayload 401 "unauthorized"), s)
  else next r s.

(** strings.CutPrefix *)
Fixpoint cutPrefix (prefix s : string) : option string :=
  match prefix, s with
  | EmptyString, _ => Some s
  | String p prefix', String x s' =>
      if Ascii.eqb p x then cutPrefix prefix' s' else None
  | String _ _, EmptyString => None
  end.

(** The longest prefix without a slash, and what follows it. *)
Fixpoint segment (s : string) : string * string :=
  match s with
  | EmptyString => (EmptyString, EmptyString)
  | String x s' =>
      if Ascii.eqb x "/" then (EmptyString, s)
      else let '(seg, rest) := segment s' in (String x seg, rest)
  end.

(** A match of ^/v1/queues/([^/]+)/messages$: the queue. *)
Definition queueMessagesPattern (path : string) : option string :=
  match cutPrefix "/v1/queues/" path with
  | None => None
  | Some rest =>
      let '(queue, rest) := segment rest in
      if negb (isEmpty queue) && String.eqb rest "/messages" then Some queue else None
  end.

(** A match of ^/v1/queues/([^/]+)/messages/([^/]+)$: the queue and the
    identifier. *)
Definition queueMessageIDPattern (path : string) : option (string * string) :=
  match cutPrefix "/v1/queues/" path with
  | None => None
  | Some rest =>
      let '(queue, rest) := segment rest in
      if isEmpty queue then None
      else match cutPrefix "/messages/" rest with
           | None => None
           | Some rest =>
               let '(id, rest) := segment rest in
               if negb (isEmpty id) && isEmpty rest then Some (queue, id) else None
           end
  end.

(** The lease a receive grants: msg.VisibilityTimeoutAt = now + 30000;
    msg.AcquiredAt = now. *)
Definition acquire (now : Z) (m : Message) : Message :=
  mkMessage (ID m) (Content m) (CreatedAt m) (UpdatedAt m) (ExpiresAt m)
    now (wrap64 (now + 30000)).

(** The loop of handleReceiveMessages over one queue: the messages
    collected and the queue afterwards. *)
Fixpoint receiveLoop (now : Z) (queueMsgs : list (string * Message))
  : list Message * list (string * Message) :=
  match queueMsgs with
  | [] => ([], [])
  | (id, m) :: rest =>
      let '(got, rest') := receiveLoop now rest in
      if VisibilityTimeoutAt m <? now
      then (acquire now m :: got, (id, acquire now m) :: rest')
      else (got, (id, m) :: rest')
  end.

(** What a receive at the time [now] makes of a stored message: it is
    acquired when its lease was over, and left as it is otherwise. *)
Definition afterReceive (now : Z) (m : Message) : Message :=
  if VisibilityTimeoutAt m <? now then acquire now m else m.

Section Handlers.

(** time.Now().UnixMilli() *)
Variable now : Z.
(** uuid.New().String() *)
Variable newID : string.
(** json.Unmarshal(body, &reqBody): reqBody.Content *)
Variable json_Unmarshal_content : string -> result string.

(** Server.handleSendMessage *)
Definition handleSendMessage (r : Request) (queue : string) (s : Server)
  : Reply * Server :=
  match bodyBytes r with
  | Err _ => (mkReply 400 false (APIErrorPayload 400 "Invalid request body"), s)
  | Ok body =>
      match json_Unmarshal_content body with
      | Err _ => (mkReply 400 false (APIErrorPayload 400 "Invalid JSON"), s)
      | Ok content =>
          let '(msg, s) := AddMessage now newID queue content s in
          (mkReply 200 true (MessagePayload msg), s)
      end
  end.

(** Server.handleReceiveMessages *)
Definition handleReceiveMessages (queue : string) (s : Server) : Reply * Server :=
  match lookup queue (messages s) with
  | Some queueMsgs =>
      let '(got, queueMsgs') := receiveLoop now queueMsgs in
      (mkReply 200 true (ResultMessagesPayload got),
       mkServer (insert queue queueMsgs' (messages s)) (counter s) (apiKey s))
  | None => (mkReply 200 true (ResultMessagesPayload []), s)
  end.

Definition notFound : Reply := mkReply 404 false (APIErrorPayload 404 "Message not found").

(** Server.handleDeleteMessage *)
Definition handleDeleteMessage (queue id : string) (s : Server) : Reply * Server :=
  match lookup queue (messages s) with
  | Some queueMsgs =>
      match lookup id queueMsgs with
      | Some _ =>
          (mkReply 200 true (StatusPayload "deleted"),
           mkServer (insert queue (remove id queueMsgs) (messages s))
             (counter s) (apiKey s))
      | None => (notFound, s)
      end
  | None => (notFound, s)
  end.

(** Server.handleExtendVisibility *)
Definition handleExtendVisibility (queue id : string) (s : Server) : Reply * Server :=
  match lookup queue (messages s) with
  | Some queueMsgs =>
      match lookup id queueMsgs with
      | Some msg =>
          if now <? VisibilityTimeoutAt msg
          then (mkReply 409 false (APIErrorPayload 409 "Message is already acquired"), s)
          else
            let msg := withVisibilityTimeoutAt msg
                         (wrap64 (VisibilityTimeoutAt msg + 30000)) in
            (mkReply 200 true (ResultMessagePayload msg),
             mkServer (insert queue (insert id msg queueMsgs) (messages s))
               (counter s) (apiKey s))
      | None => (notFound, s)
      end
  | None => (notFound, s)
  end.

(** Server.handleRequests *)
Definition handleRequests (r : Request) (s : Server) : Reply * Server :=
  let path := Path (ReqURL r) in
  match queueMessagesPattern path with
  | Some queue =>
      if String.eqb (Method r) "POST" then handleSendMessage r queue s
      else if String.eqb (Method r) "GET" then handleReceiveMessages queue s
      else (mkReply 405 false NoPayload, s)
  | None =>
      match queueMessageIDPattern path with
      | Some (queue, id) =>
          if String.eqb (Method r) "DELETE" then handleDeleteMessage queue id s
          else if String.eqb (Method r) "PUT" then handleExtendVisibility queue id s
          else (mkReply 405 false NoPayload, s)
      | None => (mkReply 404 false NoPayload, s)
      end
  end.

End Handlers.

End stub.

(* ================================================================== *)
(** ** Sample runs of the client and of the stub *)

(** A stub holding two messages in the queue q1: the lease of "a" is
    over, the lease of "b" runs until 50000. *)
Definition sampleServer : stub.Server :=
  stub.mkServer
    [("q1", [("a", namedMessage "a" 0); ("b", namedMessage "b" 50000)])] 2 "secret".

(** A stand-in for json.Unmarshal: the body is the content. *)
Definition sampleUnmarshal (body : string) : result string := Ok body.

Definition noSlash (s : string) : bool := allChars (fun c => negb (Ascii.eqb c "/")) s.

(** Libraries for sample runs: every endpoint parses and is joined with
    the path by concatenation, every request can be built, the HTTP client
    fails a request whose context is cancelled with a cancellation and
    answers every other one with [reply]; the content is marshalled as it
    is, an error body decodes to [apiErr], a message body to the sample
    message and a list of messages to the empty list. *)
Definition sampleLibraries (reply : result simplemq.HTTPResponse)
  (apiErr : result (Z * string)) : simplemq.Libraries :=
  simplemq.mkLibraries
    (fun _ => None)
    (fun e p => e ++ p)
    (fun _ _ => None)
    (fun r => if simplemq.ctxDone r
              then Err (ErrWrap "Get" ErrContextCanceled)
              else reply)
    (fun content => Ok content)
    (fun _ => apiErr)
    (fun _ => Ok (sampleMessage 30000))
    (fun _ => Ok []).

Definition sampleClient : simplemq.Client := simplemq.mkClient "http://stub" "secret" "q1".

(** The reply of a service that answers 503 with an error body. *)
Definition reply503 : simplemq.HTTPResponse :=
  simplemq.mkHTTPResponse 503 (mkReader "{code:429,message:slow down}" None).

(* ================================================================== *)
(** * Properties *)

Example check_base64_1 :
  Base64.EncodeToString "{data:value}" = "e2RhdGE6dmFsdWV9"
  /\ Base64.EncodeToString "ab" = "YWI="
  /\ Base64.DecodeString "YWI=" = Some "ab"
  /\ Base64.DecodeString "YQ==" = Some "a"
  /\ Base64.DecodeString "{id:123}" = None
  /\ Atoi "-120" = Some (-120) /\ Itoa 1203 = "1203" /\ Itoa (-7) = "-7" /\ Itoa 0 = "0"
  /\ CanonicalMIMEHeaderKey "SimpleMQ-Message-ID" = "Simplemq-Message-Id".
Proof. repeat split; vm_compute; reflexivity. Qed.

(* ------------------------------------------------------------------ *)
(** ** Strings *)

Lemma append_nil_r (s : string) : s ++ "" = s.
Proof. induction s; simpl; congruence. Qed.

Lemma append_assoc (a b c : string) : (a ++ b) ++ c = a ++ (b ++ c).
Proof. induction a; simpl; congruence. Qed.

Lemma length_append (a b : string) :
  String.length (a ++ b) = (String.length a + String.length b)%nat.
Proof. induction a; simpl; congruence. Qed.

Lemma isEmpty_true (s : string) : isEmpty s = true -> s = "".
Proof. destruct s; simpl; congruence. Qed.

Lemma string_ind3 (P : string -> Prop) :
  P "" ->
  (forall x, P (String x "")) ->
  (forall x y, P (String x (String y ""))) ->
  (forall x y z r, P r -> P (String x (String y (String z r)))) ->
  forall s, P s.
Proof.
  intros H0 H1 H2 H3 s.
  assert (H : P s /\ (forall x, P (String x s))
              /\ (forall x y, P (String x (String y s)))).
  { induction s as [|c r IH].
    - auto.
    - destruct IH as (Hr & Hr1 & Hr2). repeat split; auto. }
  exact (proj1 H).
Qed.

(* ------------------------------------------------------------------ *)
(** ** base64: decoding an encoding gives the bytes back *)

Module Base64Facts.
Import Base64.

Lemma decodeMap_encodeSextet (s : sextet) : decodeMap (encodeSextet s) = Some s.
Proof.
  destruct s as [[[[[b5 b4] b3] b2] b1] b0].
  destruct b5, b4, b3, b2, b1, b0; vm_compute; reflexivity.
Qed.

Lemma encodeSextet_plain (s : sextet) :
  isNewline (encodeSextet s) = false /\ Ascii.eqb (encodeSextet s) padChar = false.
Proof.
  destruct s as [[[[[b5 b4] b3] b2] b1] b0].
  destruct b5, b4, b3, b2, b1, b0; vm_compute; split; reflexivity.
Qed.

Lemma decodeMap_padChar : decodeMap padChar = None.
Proof. vm_compute. reflexivity. Qed.

Lemma join4_split3 (x y z : ascii) :
  forall s1 s2 s3 s4, split3 x y z = (s1, s2, s3, s4) ->
  join4 s1 s2 s3 s4 = (x, y, z).
Proof.
  destruct x, y, z. simpl. intros s1 s2 s3 s4 H.
  injection H as <- <- <- <-. reflexivity.
Qed.

Lemma join4_split2 (x y : ascii) :
  forall s1 s2 s3 s4, split3 x y zeroByte = (s1, s2, s3, s4) ->
  exists z, join4 s1 s2 s3 zeroSextet = (x, y, z).
Proof.
  destruct x, y. simpl. intros s1 s2 s3 s4 H.
  injection H as <- <- <- <-. eexists. reflexivity.
Qed.

Lemma join4_split1 (x : ascii) :
  forall s1 s2 s3 s4, split3 x zeroByte zeroByte = (s1, s2, s3, s4) ->
  exists y z, join4 s1 s2 zeroSextet zeroSextet = (x, y, z).
Proof.
  destruct x. simpl. intros s1 s2 s3 s4 H.
  injection H as <- <- <- <-. do 2 eexists. reflexivity.
Qed.

Lemma decodeQuanta_encode (s : string) :
  decodeQuanta (EncodeToString s) = Some s.
Proof.
  induction s as [| x | x y | x y z r IH] using string_ind3.
  - reflexivity.
  - cbn [EncodeToString].
    destruct (split3 x zeroByte zeroByte) as [[[s1 s2] s3] s4] eqn:Hs.
    destruct (join4_split1 x _ _ _ _ Hs) as (y' & z' & Hj).
    cbn [decodeQuanta].
    rewrite !decodeMap_encodeSextet, decodeMap_padChar, Hj.
    reflexivity.
  - cbn [EncodeToString].
    destruct (split3 x y zeroByte) as [[[s1 s2] s3] s4] eqn:Hs.
    destruct (join4_split2 x y _ _ _ _ Hs) as (z' & Hj).
    cbn [decodeQuanta].
    rewrite !decodeMap_encodeSextet, decodeMap_padChar, Hj.
    reflexivity.
  - cbn [EncodeToString].
    destruct (split3 x y z) as [[[s1 s2] s3] s4] eqn:Hs.
    cbn [decodeQuanta].
    rewrite !decodeMap_encodeSextet, (join4_split3 x y z _ _ _ _ Hs), IH.
    reflexivity.
Qed.

Lemma encode_no_newline (s : string) :
  filterChars (fun c => negb (isNewline c)) (EncodeToString s) = EncodeToString s.
Proof.
  induction s as [| x | x y | x y z r IH] using string_ind3.
  - reflexivity.
  - cbn [EncodeToString].
    destruct (split3 x zeroByte zeroByte) as [[[s1 s2] s3] s4].
    cbn [filterChars].
    rewrite (proj1 (encodeSextet_plain s1)), (proj1 (encodeSextet_plain s2)).
    reflexivity.
  - cbn [EncodeToString].
    destruct (split3 x y zeroByte) as [[[s1 s2] s3] s4].
    cbn [filterChars].
    rewrite (proj1 (encodeSextet_plain s1)), (proj1 (encodeSextet_plain s2)),
      (proj1 (encodeSextet_plain s3)).
    reflexivity.
  - cbn [EncodeToString].
    destruct (split3 x y z) as [[[s1 s2] s3] s4].
    cbn [filterChars].
    rewrite (proj1 (encodeSextet_plain s1)), (proj1 (encodeSextet_plain s2)),
      (proj1 (encodeSextet_plain s3)), (proj1 (encodeSextet_plain s4)).
    cbn [negb]. rewrite IH. reflexivity.
Qed.

Lemma DecodeString_EncodeToString (s : string) :
  DecodeString (EncodeToString s) = Some s.
Proof.
  unfold DecodeString. rewrite encode_no_newline. apply decodeQuanta_encode.
Qed.

End Base64Facts.

(* ------------------------------------------------------------------ *)
(** ** The default serializer *)

Lemma NewRequest_POST_root (body : string) :
  NewRequest "POST" "/" body =
  Ok {| Method := "POST"; ReqURL := mkURL "/"; ReqHeader := [];
        ReqBody := Some (mkReader body None); ReqContentLength := len body |}.
Proof. reflexivity. Qed.

Lemma BodyOnly_Deserialize_eq (s : BodyOnlySerializer) (content : string) :
  BodyOnly_Deserialize s content =
  Ok {| Method := "POST"; ReqURL := mkURL "/"; ReqHeader := [];
        ReqBody := Some (mkReader (payloadOf s content) None);
        ReqContentLength := len (payloadOf s content) |}.
Proof. unfold BodyOnly_Deserialize. rewrite NewRequest_POST_root. reflexivity. Qed.

Lemma payloadOf_encoded (s : BodyOnlySerializer) (bs : string) :
  payloadOf s (if NoBase64 s then bs else Base64.EncodeToString bs) = bs.
Proof.
  unfold payloadOf. destruct (NoBase64 s); simpl.
  - reflexivity.
  - rewrite Base64Facts.DecodeString_EncodeToString. reflexivity.
Qed.

Lemma BodyOnly_Serialize_eq (s : BodyOnlySerializer) (r : Request) (bs : string) :
  bodyBytes r = Ok bs ->
  BodyOnly_Serialize s (Some r) =
  let encoded := if NoBase64 s then bs else Base64.EncodeToString bs in
  if maxPayload <? len encoded then Err ErrTooLarge else Ok encoded.
Proof.
  unfold bodyBytes, BodyOnly_Serialize. destruct (ReqBody r) as [body|].
  - intros ->. destruct (NoBase64 s); reflexivity.
  - intros H. injection H as <-. destruct (NoBase64 s); reflexivity.
Qed.

(** C8.  For a request whose body reads as [bs], let [encoded] be what the
    default serializer makes of it (the bytes themselves, or their base64
    form).  If [encoded] is at most 256 KiB, Serialize returns it and
    Deserialize of it, under the same configuration, is a request whose body
    is [bs] again; and Serialize fails with ErrTooLarge exactly when
    [encoded] is longer than 256 KiB. *)
Theorem serialize_deserialize_roundtrip
  (s : BodyOnlySerializer) (r : Request) (bs : string) :
  bodyBytes r = Ok bs ->
  let encoded := if NoBase64 s then bs else Base64.EncodeToString bs in
  (len encoded <= 256 * 1024 ->
     BodyOnly_Serialize s (Some r) = Ok encoded /\
     exists r', BodyOnly_Deserialize s encoded = Ok r' /\ bodyBytes r' = Ok bs)
  /\ (BodyOnly_Serialize s (Some r) = Err ErrTooLarge <-> 256 * 1024 < len encoded).
Proof.
  intros Hbody encoded.
  rewrite (BodyOnly_Serialize_eq s r bs Hbody). fold encoded.
  change maxPayload with (256 * 1024). cbv zeta.
  destruct (256 * 1024 <? len encoded) eqn:Hcmp.
  - apply Z.ltb_lt in Hcmp. split.
    + lia.
    + split; [intros _; exact Hcmp | reflexivity].
  - apply Z.ltb_ge in Hcmp. split.
    + intros _. split; [reflexivity|].
      eexists. split; [apply BodyOnly_Deserialize_eq|].
      unfold bodyBytes, ReadAll; simpl. unfold encoded.
      rewrite payloadOf_encoded. reflexivity.
    + split; [discriminate | lia].
Qed.

Lemma serialize_deserialize_roundtrip_witness :
  let r := mkRequest "POST" (mkURL "/api/items") []
             (Some (mkReader "{name:item,price:100}" None)) 21 in
  BodyOnly_Serialize (mkBodyOnly false) (Some r) = Ok "e25hbWU6aXRlbSxwcmljZToxMDB9"
  /\ exists r', BodyOnly_Deserialize (mkBodyOnly false) "e25hbWU6aXRlbSxwcmljZToxMDB9" = Ok r'
                /\ bodyBytes r' = Ok "{name:item,price:100}".
Proof.
  intro r.
  refine ((proj1 (serialize_deserialize_roundtrip (mkBodyOnly false) r
                    "{name:item,price:100}" eq_refl)) _).
  vm_compute. discriminate.
Defined.

Lemma BodyOnly_Deserialize_total (s : BodyOnlySerializer) (content : string) :
  exists r, BodyOnly_Deserialize s content = Ok r
            /\ bodyBytes r = Ok (payloadOf s content).
Proof. eexists. split; [apply BodyOnly_Deserialize_eq | reflexivity]. Qed.

(** C9, as stated, fails: content that is not valid base64 is not refused
    when base64 is in use; the request carries the content as it is.  No
    payload makes Deserialize fail. *)
Lemma deserialize_malformed_counterexample :
  Base64.DecodeString "{id:123}" = None
  /\ (exists r, BodyOnly_Deserialize (mkBodyOnly false) "{id:123}" = Ok r
                /\ bodyBytes r = Ok "{id:123}")
  /\ ~ (exists s content e, BodyOnly_Deserialize s content = Err e).
Proof.
  split; [vm_compute; reflexivity|]. split.
  - eexists. split; [apply BodyOnly_Deserialize_eq | vm_compute; reflexivity].
  - intros (s & content & e & H). rewrite BodyOnly_Deserialize_eq in H. discriminate.
Qed.

(** C9, amended.  Deserialize of the default serializer succeeds on every
    payload; when base64 is in use and the content is not valid base64, the
    body of the request is the content itself. *)
Theorem deserialize_never_fails (s : BodyOnlySerializer) (content : string) :
  exists r, BodyOnly_Deserialize s content = Ok r
    /\ (NoBase64 s = false -> Base64.DecodeString content = None ->
        bodyBytes r = Ok content).
Proof.
  destruct (BodyOnly_Deserialize_total s content) as (r & Hr & Hb).
  exists r. split; [exact Hr|].
  intros Hn Hd. rewrite Hb. unfold payloadOf. rewrite Hn, Hd. reflexivity.
Qed.

Lemma deserialize_never_fails_witness :
  exists r, BodyOnly_Deserialize (mkBodyOnly false) "{id:123}" = Ok r
    /\ bodyBytes r = Ok "{id:123}".
Proof.
  destruct (deserialize_never_fails (mkBodyOnly false) "{id:123}") as (r & Hr & Hb).
  exists r. split; [exact Hr|]. apply Hb; vm_compute; reflexivity.
Defined.

(** C10.  Whatever the payload, a request returned by Deserialize has the
    method POST, the path "/", no header, and the payload as its body,
    base64-decoded when base64 is in use and the content decodes.

    The stream built on a message writes that request, with the four
    SimpleMQ headers added and nothing else changed, and keeps it (with
    its body as the writing left it).  When the writing succeeds, the
    bytes it produced are the bytes of the stream, which Read hands out;
    when it fails, the stream has no bytes and holds the error.  Since
    Request.Write begins with the request line, the bytes of the stream
    begin with "POST / HTTP/1.1". *)
Theorem deserialize_is_post_root
  (s : BodyOnlySerializer) (content : string) (r : Request) :
  BodyOnly_Deserialize s content = Ok r ->
  Method r = "POST" /\ Path (ReqURL r) = "/" /\ ReqHeader r = []
  /\ bodyBytes r =
       Ok (if NoBase64 s then content
           else match Base64.DecodeString content with
                | Some decoded => decoded
                | None => content
                end)
  /\ forall (E : Env) (Request_Write : Request -> result string * option Reader)
            (addr queue : string) (m : Message),
       Content m = content ->
       let c := newConn E Request_Write addr m (bodyOnlySerializer s) queue in
       let written :=
         mkRequest "POST" (mkURL "/")
           [ ("Simplemq-Message-Id", [ID m]);
             ("Simplemq-Message-Created", [formatRFC3339 E (CreatedTime m)]);
             ("Simplemq-Message-Visibility-Timeout",
              [formatRFC3339 E (VisibilityTimeoutTime m)]);
             ("Simplemq-Queue-Name", [queue]) ]
           (ReqBody r) (ReqContentLength r) in
       req c = Some (setBody written (snd (Request_Write written)))
       /\ match fst (Request_Write written) with
          | Ok bytes =>
              reqBytes c = bytes /\ initErr c = None
              /\ (bytes <> "" ->
                  forall n, Read n c =
                    (Ok (takeStr n bytes), setReqBytes c (dropStr n bytes)))
          | Err e =>
              reqBytes c = "" /\ initErr c = Some e
              /\ forall n, Read n c =
                   (Err (ErrWrap "failed to initialize connection" e), c)
          end
       /\ ((forall q bytes,
              Path (ReqURL q) = "/" -> isEmpty (Method q) = false ->
              fst (Request_Write q) = Ok bytes ->
              exists rest, bytes = Method q ++ " / HTTP/1.1" ++ CRLF ++ rest) ->
           forall bytes, fst (Request_Write written) = Ok bytes ->
           exists rest, reqBytes c = "POST / HTTP/1.1" ++ CRLF ++ rest).
Proof.
  rewrite BodyOnly_Deserialize_eq. intros H. injection H as <-.
  split; [reflexivity|]. split; [reflexivity|]. split; [reflexivity|].
  split.
  { unfold bodyBytes, ReadAll, payloadOf; simpl. destruct (NoBase64 s); reflexivity. }
  intros E RW a q m Hm c written.
  cbn [ReqBody ReqContentLength] in written.
  assert (Hc : c =
               let '(w0, unread) := RW written in
               let c0 :=
                 setReq (setRenewal
                           (mkConn a m (bodyOnlySerializer s) q false false None ""
                              None None "" None) true true)
                   (Some (setBody written unread)) in
               match w0 with
               | Err e => setInitErr c0 (Some e)
               | Ok bytes => setReqBytes c0 bytes
               end).
  { unfold c, newConn, init.
    cbn [serializer setRenewal msg Deserialize bodyOnlySerializer].
    rewrite BodyOnly_Deserialize_eq, Hm. reflexivity. }
  clearbody c. subst c.
  destruct (RW written) as [[bytes|e] unread] eqn:Hrw; cbn [fst snd].
  - split; [reflexivity|]. split.
    + split; [reflexivity|]. split; [reflexivity|].
      intros Hne n. unfold Read. cbn [initErr extendErr reqBytes setReqBytes setReq].
      destruct bytes as [|ch bytes]; [congruence | reflexivity].
    + intros Hline bytes0 Hw. injection Hw as <-.
      destruct (Hline written bytes eq_refl eq_refl) as (rest & Hb).
      { rewrite Hrw. reflexivity. }
      exists rest. exact Hb.
  - split; [reflexivity|]. split.
    + split; [reflexivity|]. split; [reflexivity|]. intros n. reflexivity.
    + intros _ bytes0 Hw. discriminate Hw.
Qed.

Lemma deserialize_is_post_root_witness :
  BodyOnly_Deserialize (mkBodyOnly false) "aGVsbG8=" =
    Ok (mkRequest "POST" (mkURL "/") [] (Some (mkReader "hello" None)) 5)
  /\ bodyBytes (mkRequest "POST" (mkURL "/") [] (Some (mkReader "hello" None)) 5)
     = Ok "hello"
  /\ exists rest,
       reqBytes (newConn sampleQueue sampleRequestWrite "q1" (sampleMessage 30000)
                   (bodyOnlySerializer (mkBodyOnly false)) "q1")
       = "POST / HTTP/1.1" ++ CRLF ++ rest.
Proof.
  assert (H : BodyOnly_Deserialize (mkBodyOnly false) "aGVsbG8=" =
              Ok (mkRequest "POST" (mkURL "/") [] (Some (mkReader "hello" None)) 5))
    by (vm_compute; reflexivity).
  split; [exact H|].
  destruct (deserialize_is_post_root (mkBodyOnly false) "aGVsbG8=" _ H)
    as (_ & _ & _ & Hb & Hstream).
  split; [exact Hb|].
  destruct (Hstream sampleQueue sampleRequestWrite "q1" "q1" (sampleMessage 30000) eq_refl)
    as (_ & _ & Hline).
  apply (Hline (fun q bytes Hp Hm Hw =>
                  ex_intro _ CRLF
                    (eq_trans (eq_sym (f_equal (fun x => match x with Ok b => b | Err _ => bytes end) Hw))
                       (f_equal (fun p => Method q ++ " " ++ p ++ " HTTP/1.1" ++ CRLF ++ CRLF) Hp)))
               _ eq_refl).
Defined.

(* ------------------------------------------------------------------ *)
(** ** Machine integers and time *)

Lemma wrap64_id (z : Z) : minInt64 <= z <= maxInt64 -> wrap64 z = z.
Proof.
  unfold wrap64, minInt64, maxInt64. intros H.
  rewrite Z.mod_small; lia.
Qed.

Lemma Until_ltb (now t bound : Z) :
  minInt64 < bound <= maxInt64 ->
  (Until now t <? bound) = (t - now <? bound).
Proof.
  unfold Until, sat64, minInt64, maxInt64. intros H.
  destruct (t - now <? bound) eqn:Hc.
  - apply Z.ltb_lt in Hc. apply Z.ltb_lt. lia.
  - apply Z.ltb_ge in Hc. apply Z.ltb_ge. lia.
Qed.

Lemma Until_nonpos (now t : Z) : (Until now t <=? 0) = (t <=? now).
Proof.
  unfold Until, sat64, minInt64, maxInt64.
  destruct (t <=? now) eqn:Hc.
  - apply Z.leb_le in Hc. apply Z.leb_le. lia.
  - apply Z.leb_gt in Hc. apply Z.leb_gt. lia.
Qed.

Lemma seconds_bound (n : Z) :
  minInt64 <= n * Second <= maxInt64 -> minInt64 < n * Second <= maxInt64.
Proof. unfold minInt64, maxInt64, Second. lia. Qed.

(* ------------------------------------------------------------------ *)
(** ** Conn.Close *)

Local Open Scope list_scope.

Section CloseFacts.

Variable E : Env.
Variable readResponse : string -> option Request -> result Response * string.

Lemma isEmpty_false (s : string) : s <> "" -> isEmpty s = false.
Proof. destruct s; simpl; congruence. Qed.

Lemma filter_isDelete_stop (c : Conn) (w : World) :
  deleteCalls (stopEvents c w) = [] /\ extendCalls (stopEvents c w) = [].
Proof. unfold stopEvents. destruct (extendCancel c); split; reflexivity. Qed.

(** Close up to the point where the response has been parsed and
    observed. *)
Lemma Close_parsed (fuel : nat) (c : Conn) (w : World)
  (resp : Response) (rest : string) :
  respBuffer c <> "" ->
  readResponse (respBuffer c) (req c) = (Ok resp, rest) ->
  exists c0,
    (c0 = setRespBuffer (if extendCancel c then setRenewal c true false else c) rest)
    /\ Close E readResponse fuel c w =
       let w0 := mkWorld (tick w) (events w ++ stopEvents c w) in
       match fst (observe c resp) with
       | Some e => Some (Some (ErrWrap "failed to handle response" e), c0, w0)
       | None =>
           if (200 <=? StatusCode resp) && (StatusCode resp <? 300) then
             let '(r, w1) := callDelete E (ID (msg c)) w0 in
             match r with
             | Some e => Some (Some (ErrWrap "failed to delete message" e), c0, w1)
             | None => Some (None, c0, w1)
             end
           else
             let retryAfter :=
               Header_Get (RespHeader (snd (observe c resp))) "Retry-After" in
             if isEmpty retryAfter then Some (None, c0, w0)
             else match Atoi retryAfter with
                  | None => Some (None, c0, w0)
                  | Some seconds =>
                      match retryAfterLoop E fuel (wrap64 (seconds * Second)) c0 w0 with
                      | None => None
                      | Some (c1, w1) => Some (None, c1, w1)
                      end
                  end
       end.
Proof.
  intros Hne Hparse. eexists. split; [reflexivity|].
  assert (Hobs : forall c1, respHandler c1 = respHandler c -> req c1 = req c ->
                            observe c1 resp = observe c resp).
  { intros c1 Hh Hq. unfold observe. rewrite Hh, Hq. reflexivity. }
  unfold Close, stopRenewal, stopEvents.
  destruct (extendCancel c) eqn:Hc; cbn [respBuffer setRenewal req];
    rewrite (isEmpty_false _ Hne), Hparse; cbn zeta.
  - rewrite (Hobs (setRespBuffer (setRenewal c true false) rest) eq_refl eq_refl).
    destruct (observe c resp) as [[e|] resp1]; reflexivity.
  - destruct w as [t evs]; cbn [tick events]. rewrite app_nil_r.
    rewrite (Hobs (setRespBuffer c rest) eq_refl eq_refl).
    destruct (observe c resp) as [[e|] resp1]; reflexivity.
Qed.

(** C1.  A stream whose response buffer parses as a response with a status
    from 200 to 299, and whose observer (if any) reports no error: Close
    makes exactly one delete call, for the id of the bound message, and no
    extend call; it returns nil when the delete succeeds and the failure,
    wrapped, when it fails. *)
Theorem close_success_deletes_once
  (fuel : nat) (c : Conn) (w : World) (resp : Response) (rest : string) :
  respBuffer c <> "" ->
  readResponse (respBuffer c) (req c) = (Ok resp, rest) ->
  200 <= StatusCode resp <= 299 ->
  fst (observe c resp) = None ->
  exists c' w' new,
    Close E readResponse fuel c w =
      Some (match DeleteMessage E (tick w) (ID (msg c)) with
            | Some e => Some (ErrWrap "failed to delete message" e)
            | None => None
            end, c', w')
    /\ events w' = events w ++ new
    /\ new = stopEvents c w ++ [(tick w, CallDelete (ID (msg c)))]
    /\ deleteCalls new = [CallDelete (ID (msg c))]
    /\ extendCalls new = [].
Proof.
  intros Hne Hparse Hcode Hobs.
  destruct (Close_parsed fuel c w resp rest Hne Hparse) as (c0 & _ & ->).
  cbn zeta. rewrite Hobs.
  replace ((200 <=? StatusCode resp) && (StatusCode resp <? 300)) with true
    by (symmetry; apply andb_true_iff; split; [apply Z.leb_le | apply Z.ltb_lt]; lia).
  unfold callDelete, record; cbn [tick events].
  exists c0. eexists. exists (stopEvents c w ++ [(tick w, CallDelete (ID (msg c)))]).
  split; [destruct (DeleteMessage E (tick w) (ID (msg c))); reflexivity|].
  split; [cbn [events]; rewrite app_assoc; reflexivity|].
  split; [reflexivity|].
  unfold deleteCalls, extendCalls, stopEvents.
  destruct (extendCancel c); split; reflexivity.
Qed.

(** C4.  A stream with an observer that reports an error for the parsed
    response and the originating request: Close returns that error,
    wrapped, and makes no delete call (nor any other call), whatever the
    status of the response. *)
Theorem close_observer_error_keeps_message
  (fuel : nat) (c : Conn) (w : World) (resp : Response) (rest : string)
  (h : ResponseHandler) (e : error) :
  respBuffer c <> "" ->
  readResponse (respBuffer c) (req c) = (Ok resp, rest) ->
  respHandler c = Some h ->
  fst (h resp (req c)) = Some e ->
  exists c' w',
    Close E readResponse fuel c w =
      Some (Some (ErrWrap "failed to handle response" e), c', w')
    /\ events w' = events w ++ stopEvents c w
    /\ tick w' = tick w
    /\ deleteCalls (stopEvents c w) = []
    /\ extendCalls (stopEvents c w) = [].
Proof.
  intros Hne Hparse Hh He.
  destruct (Close_parsed fuel c w resp rest Hne Hparse) as (c0 & _ & ->).
  cbn zeta. unfold observe. rewrite Hh, He.
  do 2 eexists. split; [reflexivity|].
  cbn [events tick]. repeat split; apply filter_isDelete_stop.
Qed.

(** A Close that finds the response buffer empty. *)
Lemma Close_empty (fuel : nat) (c : Conn) (w : World) :
  respBuffer c = "" ->
  exists c',
    Close E readResponse fuel c w =
      Some (None, c', mkWorld (tick w) (events w ++ stopEvents c w))
    /\ respBuffer c' = "".
Proof.
  intros Hb. unfold Close, stopRenewal, stopEvents.
  destruct (extendCancel c); cbn [respBuffer setRenewal]; rewrite Hb; cbn [isEmpty].
  - eexists. split; [reflexivity | exact Hb].
  - exists c. destruct w as [t evs]; cbn [tick events]. rewrite app_nil_r.
    split; [reflexivity | exact Hb].
Qed.

End CloseFacts.

(* ------------------------------------------------------------------ *)
(** ** The two loops that extend the lease *)

Section ExtendLoops.

Variable E : Env.

Lemma callsEvery_calls (gap : nat) (id : string) (t k : nat) :
  extendCalls (callsEvery gap (CallExtend id) t k) = repeat (CallExtend id) k
  /\ deleteCalls (callsEvery gap (CallExtend id) t k) = [].
Proof.
  revert t. induction k as [|k IH]; intros t; [split; reflexivity|].
  destruct (IH (gap + t)%nat) as [He Hd].
  unfold extendCalls, deleteCalls in *. cbn. rewrite He, Hd. split; reflexivity.
Qed.

(** The loop of SetDeadline: at most [n] extend calls, one after the
    other; every reply but the last was a lease still short of the target;
    the loop ends with nil when the lease reaches the target or the budget
    is spent, and with the error when a call fails. *)
Lemma deadlineLoop_spec (n : nat) (t : Z) :
  forall (c : Conn) (w : World),
  exists (r : option error) (c' : Conn) (w' : World) (k : nat),
    deadlineLoop E n t c w = (r, c', w')
    /\ (k <= n)%nat
    /\ events w' = events w ++ callsEvery 1 (CallExtend (ID (msg c))) (tick w) k
    /\ tick w' = (tick w + k)%nat
    /\ ID (msg c') = ID (msg c)
    /\ renewing c' = renewing c
    /\ (k = 0%nat -> msg c' = msg c)
    /\ ((0 < k)%nat -> VisibilityTimeoutTime (msg c) < t)
    /\ (forall j, (S j < k)%nat ->
          exists m, ExtendVisibilityTimeout E (tick w + j) (ID (msg c)) = Ok m
                    /\ UnixMilli (VisibilityTimeoutAt m) < t)
    /\ match r with
       | None =>
           (t <= VisibilityTimeoutTime (msg c') \/ k = n)
           /\ ((0 < k)%nat ->
               exists m, ExtendVisibilityTimeout E (tick w + k - 1) (ID (msg c)) = Ok m
                         /\ VisibilityTimeoutAt (msg c') = VisibilityTimeoutAt m)
       | Some e =>
           exists e0, e = ErrWrap "failed to extend visibility timeout to deadline" e0
                      /\ (0 < k)%nat
                      /\ ExtendVisibilityTimeout E (tick w + k - 1) (ID (msg c)) = Err e0
       end.
Proof.
  induction n as [|n IH]; intros c w.
  - exists None, c, w, 0%nat. cbn [deadlineLoop callsEvery].
    rewrite app_nil_r, Nat.add_0_r.
    split; [reflexivity|]. split; [lia|]. split; [reflexivity|].
    split; [reflexivity|]. split; [reflexivity|]. split; [reflexivity|].
    split; [reflexivity|]. split; [lia|]. split; [intros j Hj; lia|].
    split; [right; reflexivity | lia].
  - cbn [deadlineLoop].
    destruct (VisibilityTimeoutTime (msg c) <? t) eqn:Hlt.
    + apply Z.ltb_lt in Hlt. unfold callExtend, record.
      destruct (ExtendVisibilityTimeout E (tick w) (ID (msg c))) as [m|e] eqn:Hr.
      * set (c2 := setMsg c (withVisibilityTimeoutAt (msg c) (VisibilityTimeoutAt m))).
        set (w2 := mkWorld (S (tick w)) (events w ++ [(tick w, CallExtend (ID (msg c)))])).
        destruct (IH c2 w2) as (r & c' & w' & k & Hrun & Hk & Hev & Htick & Hid & Hren
                                & Hzero & Hfirst & Hmid & Hend).
        exists r, c', w', (S k). rewrite Hrun.
        cbn [tick events msg ID setMsg withVisibilityTimeoutAt c2 w2] in *.
        split; [reflexivity|]. split; [lia|].
        split; [rewrite Hev, <- app_assoc; reflexivity|].
        split; [lia|]. split; [exact Hid|]. split; [exact Hren|].
        split; [discriminate|]. split; [intros _; exact Hlt|].
        split.
        { intros [|j] Hj.
          - rewrite Nat.add_0_r. exists m. split; [exact Hr|].
            apply Hfirst. lia.
          - destruct (Hmid j ltac:(lia)) as (m' & Hm' & Hlt').
            exists m'. split; [|exact Hlt'].
            rewrite <- Hm'. f_equal. lia. }
        destruct r as [e|].
        { destruct Hend as (e0 & -> & Hpos & Hfail). exists e0.
          split; [reflexivity|]. split; [lia|].
          rewrite <- Hfail. f_equal. lia. }
        { destruct Hend as [Hstop Hlast]. split.
          - destruct Hstop as [Hstop | ->]; [left; exact Hstop | right; reflexivity].
          - intros _. destruct k as [|k].
            + rewrite (Hzero eq_refl). exists m.
              split; [rewrite <- Hr; f_equal; lia | reflexivity].
            + destruct (Hlast ltac:(lia)) as (m' & Hm' & Hv). exists m'.
              split; [rewrite <- Hm'; f_equal; lia | exact Hv]. }
      * exists (Some (ErrWrap "failed to extend visibility timeout to deadline" e)),
          c, (mkWorld (S (tick w)) (events w ++ [(tick w, CallExtend (ID (msg c)))])), 1%nat.
        cbn [tick events callsEvery].
        split; [reflexivity|]. split; [lia|]. split; [reflexivity|].
        split; [lia|]. split; [reflexivity|]. split; [reflexivity|].
        split; [discriminate|]. split; [intros _; exact Hlt|].
        split; [intros j Hj; lia|].
        exists e. split; [reflexivity|]. split; [lia|].
        rewrite <- Hr. f_equal. lia.
    + apply Z.ltb_ge in Hlt.
      exists None, c, w, 0%nat. cbn [callsEvery].
      rewrite app_nil_r, Nat.add_0_r.
      split; [reflexivity|]. split; [lia|]. split; [reflexivity|].
      split; [reflexivity|]. split; [reflexivity|]. split; [reflexivity|].
      split; [reflexivity|]. split; [lia|]. split; [intros j Hj; lia|].
      split; [left; exact Hlt | lia].
Qed.

(** The loop of Close for Retry-After, when it returns: only extend calls,
    each after a look at the clock; every reply but the last was a lease
    still short of the bound when the clock was read next; the loop ends
    when the lease, at the last look at the clock, covers the bound, or
    when a call fails. *)
Lemma retryAfterLoop_spec (bound : Z) :
  minInt64 < bound <= maxInt64 ->
  forall (fuel : nat) (c c' : Conn) (w w' : World),
  retryAfterLoop E fuel bound c w = Some (c', w') ->
  exists k : nat,
    events w' = events w ++ callsEvery 2 (CallExtend (ID (msg c))) (S (tick w)) k
    /\ ID (msg c') = ID (msg c)
    /\ ((0 < k)%nat -> VisibilityTimeoutTime (msg c) - wallClock E (tick w) < bound)
    /\ (forall j, (S j < k)%nat ->
          exists m, ExtendVisibilityTimeout E (tick w + 2 * j + 1) (ID (msg c)) = Ok m
                    /\ UnixMilli (VisibilityTimeoutAt m)
                       - wallClock E (tick w + 2 * j + 2) < bound)
    /\ ((tick w' = (tick w + 2 * k + 1)%nat
         /\ bound <= VisibilityTimeoutTime (msg c') - wallClock E (tick w + 2 * k)
         /\ ((0 < k)%nat ->
             exists m, ExtendVisibilityTimeout E (tick w + 2 * k - 1) (ID (msg c)) = Ok m
                       /\ VisibilityTimeoutAt (msg c') = VisibilityTimeoutAt m)
         /\ (k = 0%nat -> msg c' = msg c))
        \/ ((0 < k)%nat /\ tick w' = (tick w + 2 * k)%nat
            /\ exists e, ExtendVisibilityTimeout E (tick w + 2 * k - 1) (ID (msg c)) = Err e)).
Proof.
  intros Hb. induction fuel as [|fuel IH]; intros c c' w w' Hrun; [discriminate|].
  cbn [retryAfterLoop] in Hrun. unfold Now in Hrun.
  rewrite (Until_ltb _ _ _ Hb) in Hrun.
  destruct (VisibilityTimeoutTime (msg c) - wallClock E (tick w) <? bound) eqn:Hlt.
  - apply Z.ltb_lt in Hlt. unfold callExtend, record in Hrun. cbn [tick events] in Hrun.
    destruct (ExtendVisibilityTimeout E (S (tick w)) (ID (msg c))) as [m|e] eqn:Hr.
    + apply IH in Hrun. destruct Hrun as (k & Hev & Hid & Hfirst & Hmid & Hend).
      cbn [tick events msg ID setMsg withVisibilityTimeoutAt VisibilityTimeoutTime
           VisibilityTimeoutAt] in *.
      exists (S k).
      split; [rewrite Hev, <- app_assoc; reflexivity|].
      split; [exact Hid|].
      split; [intros _; exact Hlt|].
      split.
      { intros [|j] Hj.
        - exists m. split; [rewrite <- Hr; f_equal; lia|].
          replace (tick w + 2 * 0 + 2)%nat with (S (S (tick w))) by lia.
          apply Hfirst. lia.
        - destruct (Hmid j ltac:(lia)) as (m' & Hm' & Hlt').
          exists m'. split; [rewrite <- Hm'; f_equal; lia|].
          replace (tick w + 2 * S j + 2)%nat with (S (S (tick w)) + 2 * j + 2)%nat by lia.
          exact Hlt'. }
      destruct Hend as [(Ht & Hreach & Hlast & Hzero) | (Hpos & Ht & e & He)].
      * left. split; [lia|].
        split; [replace (tick w + 2 * S k)%nat with (S (S (tick w)) + 2 * k)%nat by lia;
                exact Hreach|].
        split; [|discriminate].
        intros _. destruct k as [|k].
        -- rewrite (Hzero eq_refl). exists m.
           split; [rewrite <- Hr; f_equal; lia | reflexivity].
        -- destruct (Hlast ltac:(lia)) as (m' & Hm' & Hv). exists m'.
           split; [rewrite <- Hm'; f_equal; lia | exact Hv].
      * right. split; [lia|]. split; [lia|]. exists e.
        rewrite <- He. f_equal. lia.
    + injection Hrun as <- <-. exists 1%nat. cbn [tick events callsEvery].
      split; [reflexivity|]. split; [reflexivity|]. split; [intros _; exact Hlt|].
      split; [intros j Hj; lia|].
      right. split; [lia|]. split; [lia|]. exists e.
      rewrite <- Hr. f_equal. lia.
  - apply Z.ltb_ge in Hlt. injection Hrun as <- <-.
    exists 0%nat. cbn [tick events callsEvery]. rewrite app_nil_r.
    split; [reflexivity|]. split; [reflexivity|]. split; [lia|].
    split; [intros j Hj; lia|].
    left. split; [lia|].
    split; [replace (tick w + 2 * 0)%nat with (tick w) by lia; exact Hlt|].
    split; [lia | reflexivity].
Qed.

(** The loop returns as soon as a reply is a failure or a lease that
    covers the bound when the clock is read next: if the reply to the
    (j+1)-th call is one, j+2 rounds are enough. *)
Lemma retryAfterLoop_returns (bound : Z) :
  minInt64 < bound <= maxInt64 ->
  forall (j : nat) (c : Conn) (w : World),
  match ExtendVisibilityTimeout E (tick w + 2 * j + 1) (ID (msg c)) with
  | Err _ => True
  | Ok m => bound <= UnixMilli (VisibilityTimeoutAt m)
                     - wallClock E (tick w + 2 * j + 2)
  end ->
  exists c' w', retryAfterLoop E (j + 2) bound c w = Some (c', w').
Proof.
  intros Hb. induction j as [|j IH]; intros c w Hj.
  - cbn [Nat.add retryAfterLoop]. unfold Now. rewrite (Until_ltb _ _ _ Hb).
    destruct (_ <? bound); [|eauto].
    unfold callExtend, record. cbn [tick events].
    replace (tick w + 2 * 0 + 1)%nat with (S (tick w)) in Hj by lia.
    destruct (ExtendVisibilityTimeout E (S (tick w)) (ID (msg c))) as [m|e]; [|eauto].
    rewrite (Until_ltb _ _ _ Hb).
    cbn [tick events msg ID setMsg withVisibilityTimeoutAt VisibilityTimeoutTime
         VisibilityTimeoutAt].
    replace (tick w + 2 * 0 + 2)%nat with (S (S (tick w))) in Hj by lia.
    destruct (_ <? bound) eqn:Hlt; [|eauto].
    exfalso. apply Z.ltb_lt in Hlt. unfold VisibilityTimeoutTime in Hlt.
    cbn [withVisibilityTimeoutAt VisibilityTimeoutAt] in Hlt. lia.
  - replace (S j + 2)%nat with (S (j + 2)) by lia.
    cbn [retryAfterLoop]. unfold Now. rewrite (Until_ltb _ _ _ Hb).
    destruct (_ <? bound); [|eauto].
    unfold callExtend, record. cbn [tick events].
    destruct (ExtendVisibilityTimeout E (S (tick w)) (ID (msg c))) as [m|e]; [|eauto].
    apply IH.
    cbn [tick events msg ID setMsg withVisibilityTimeoutAt].
    replace (S (S (tick w)) + 2 * j + 1)%nat with (tick w + 2 * S j + 1)%nat by lia.
    replace (S (S (tick w)) + 2 * j + 2)%nat with (tick w + 2 * S j + 2)%nat by lia.
    exact Hj.
Qed.

End ExtendLoops.

(* ------------------------------------------------------------------ *)
(** ** Close and Retry-After, SetDeadline, repeated Close *)

Section LeaseFacts.

Variable E : Env.
Variable readResponse : string -> option Request -> result Response * string.

Lemma Atoi_nonempty (s : string) (n : Z) : Atoi s = Some n -> isEmpty s = false.
Proof. destruct s; [discriminate | reflexivity]. Qed.

(** C3, amended.  A stream closed with a parsed response whose status is
    not 2xx and whose observer (if any) reports no error.  The Retry-After
    value is the one the response carries when the observer has run.

    If the Retry-After value is not a number of seconds, Close returns nil
    and calls nothing.

    If it is the number [N], with N seconds representable as a Duration:
    whenever Close returns, it returns nil and it has made only extend
    calls for the message, each made because the lease did not yet cover N
    seconds at the look at the clock before it: the first because the
    lease the stream held fell short, every later one because the lease
    the call before it was granted fell short.  Each success sets the
    local deadline to the one returned, and without a call the lease is
    as it was.  In the end either the local lease deadline is at least N
    seconds after the last look at the clock (so at least N seconds after
    the close time, on a clock that does not go back), or the last extend
    call failed.  Close makes no bounded number of attempts: it returns as
    soon as a reply is a failure or a lease that covers N seconds at the
    next look at the clock. *)
Theorem close_retry_after
  (c : Conn) (w : World) (resp : Response) (rest : string) :
  respBuffer c <> "" ->
  readResponse (respBuffer c) (req c) = (Ok resp, rest) ->
  ~ (200 <= StatusCode resp <= 299) ->
  fst (observe c resp) = None ->
  let retryAfter := Header_Get (RespHeader (snd (observe c resp))) "Retry-After" in
  let id := ID (msg c) in
  (Atoi retryAfter = None ->
   forall fuel, exists c',
     Close E readResponse fuel c w
     = Some (None, c', mkWorld (tick w) (events w ++ stopEvents c w)))
  /\
  (forall N, Atoi retryAfter = Some N -> minInt64 <= N * Second <= maxInt64 ->
     (forall fuel r c' w',
        Close E readResponse fuel c w = Some (r, c', w') ->
        r = None
        /\ exists k,
             events w' = events w ++ stopEvents c w
                           ++ callsEvery 2 (CallExtend id) (S (tick w)) k
             /\ ((0 < k)%nat ->
                 VisibilityTimeoutTime (msg c) - wallClock E (tick w) < N * Second)
             /\ (forall j, (S j < k)%nat ->
                   exists m, ExtendVisibilityTimeout E (tick w + 2 * j + 1) id = Ok m
                             /\ UnixMilli (VisibilityTimeoutAt m)
                                - wallClock E (tick w + 2 * j + 2) < N * Second)
             /\ ((wallClock E (tick w + 2 * k) + N * Second
                    <= VisibilityTimeoutTime (msg c')
                  /\ ((forall i j, (i <= j)%nat -> wallClock E i <= wallClock E j) ->
                      wallClock E (tick w) + N * Second
                        <= VisibilityTimeoutTime (msg c'))
                  /\ ((0 < k)%nat ->
                      exists m,
                        ExtendVisibilityTimeout E (tick w + 2 * k - 1) id = Ok m
                        /\ VisibilityTimeoutAt (msg c') = VisibilityTimeoutAt m)
                  /\ (k = 0%nat -> msg c' = msg c))
                 \/ ((0 < k)%nat
                     /\ exists e, ExtendVisibilityTimeout E (tick w + 2 * k - 1) id = Err e)))
     /\ (forall j,
           match ExtendVisibilityTimeout E (tick w + 2 * j + 1) id with
           | Err _ => True
           | Ok m => wallClock E (tick w + 2 * j + 2) + N * Second
                       <= UnixMilli (VisibilityTimeoutAt m)
           end ->
           exists c' w', Close E readResponse (j + 2) c w = Some (None, c', w'))).
Proof.
  intros Hne Hparse Hcode Hobs retryAfter id.
  assert (Hnot2xx : (200 <=? StatusCode resp) && (StatusCode resp <? 300) = false).
  { apply andb_false_iff.
    destruct (200 <=? StatusCode resp) eqn:H1; [right | left; reflexivity].
    apply Z.leb_le in H1. apply Z.ltb_ge. lia. }
  assert (Hclose : forall fuel,
            exists c0, msg c0 = msg c /\
              Close E readResponse fuel c w =
              let w0 := mkWorld (tick w) (events w ++ stopEvents c w) in
              if isEmpty retryAfter then Some (None, c0, w0)
              else match Atoi retryAfter with
                   | None => Some (None, c0, w0)
                   | Some seconds =>
                       match retryAfterLoop E fuel (wrap64 (seconds * Second)) c0 w0 with
                       | None => None
                       | Some (c1, w1) => Some (None, c1, w1)
                       end
                   end).
  { intros fuel.
    destruct (Close_parsed E readResponse fuel c w resp rest Hne Hparse) as (c0 & Hc0 & ->).
    exists c0. split; [subst c0; destruct (extendCancel c); reflexivity|].
    cbn zeta. rewrite Hobs, Hnot2xx. reflexivity. }
  split.
  - intros Hnan fuel. destruct (Hclose fuel) as (c0 & _ & ->).
    exists c0. cbn zeta. rewrite Hnan. destruct (isEmpty retryAfter); reflexivity.
  - intros N HN Hrange.
    pose proof (seconds_bound N Hrange) as Hb.
    split.
    + intros fuel r c' w' Hrun.
      destruct (Hclose fuel) as (c0 & Hmsg & Heq). rewrite Heq in Hrun. clear Heq.
      cbn zeta in Hrun. rewrite (Atoi_nonempty _ _ HN), HN, (wrap64_id _ Hrange) in Hrun.
      destruct (retryAfterLoop E fuel (N * Second) c0 _) as [[c1 w1]|] eqn:Hloop;
        [|discriminate].
      injection Hrun as <- <- <-. split; [reflexivity|].
      destruct (retryAfterLoop_spec E (N * Second) Hb _ _ _ _ _ Hloop)
        as (k & Hev & _ & Hfirst & Hmid & Hend).
      cbn [tick events] in *. rewrite Hmsg in *. fold id in Hev, Hmid, Hend.
      exists k. split; [rewrite Hev, <- app_assoc; reflexivity|].
      split; [exact Hfirst|].
      split; [exact Hmid|].
      destruct Hend as [(_ & Hreach & Hlast & Hsame) | (Hpos & _ & He)].
      * left. split; [lia|]. split.
        { intros Hmono.
          pose proof (Hmono (tick w) (tick w + 2 * k)%nat ltac:(lia)). lia. }
        split; [exact Hlast | exact Hsame].
      * right. split; [exact Hpos | exact He].
    + intros j Hj.
      destruct (Hclose (j + 2)%nat) as (c0 & Hmsg & ->).
      cbn zeta. rewrite (Atoi_nonempty _ _ HN), HN, (wrap64_id _ Hrange).
      destruct (retryAfterLoop_returns E (N * Second) Hb j c0
                  (mkWorld (tick w) (events w ++ stopEvents c w))) as (c' & w' & ->).
      * cbn [tick]. rewrite Hmsg. fold id.
        destruct (ExtendVisibilityTimeout E (tick w + 2 * j + 1) id); [lia | exact I].
      * eauto.
Qed.


(** A Close that finds the response buffer empty returns nil and makes no
    delete and no extend call, and leaves the buffer empty; so, once a
    Close has left the buffer empty, every later Close does nothing as
    long as nothing is written. *)
Lemma close_on_drained_buffer
  (fuel1 fuel2 : nat) (c c1 : Conn) (w w1 : World) (r1 : option error) :
  Close E readResponse fuel1 c w = Some (r1, c1, w1) ->
  respBuffer c1 = "" ->
  exists c2 w2 new,
    Close E readResponse fuel2 c1 w1 = Some (None, c2, w2)
    /\ events w2 = events w1 ++ new
    /\ deleteCalls new = [] /\ extendCalls new = []
    /\ respBuffer c2 = "".
Proof.
  intros _ Hb.
  destruct (Close_empty E readResponse fuel2 c1 w1 Hb) as (c2 & Hrun & Hb2).
  exists c2, (mkWorld (tick w1) (events w1 ++ stopEvents c1 w1)), (stopEvents c1 w1).
  split; [exact Hrun|]. split; [reflexivity|].
  split; [apply filter_isDelete_stop|]. split; [apply filter_isDelete_stop | exact Hb2].
Qed.

End LeaseFacts.

(* ------------------------------------------------------------------ *)
(** ** Closing twice *)

Lemma dropStr_all (n : nat) (s : string) :
  (String.length s <= n)%nat -> dropStr n s = "".
Proof.
  revert n. induction s as [|ch s IH]; intros [|n] H; cbn in *; try reflexivity; try lia.
  apply IH. lia.
Qed.

(** The buffered reader takes a buffer of at most 4096 bytes whole. *)
Lemma ReadResponseBuffered_drains (text : string) (r : option Request) :
  (String.length text <= 4096)%nat -> snd (ReadResponseBuffered text r) = "".
Proof.
  intros H. unfold ReadResponseBuffered.
  destruct (ReadResponse text r) as [res rest]. cbn [snd].
  apply dropStr_all. unfold defaultBufSize. lia.
Qed.

Section CloseTwice.

Variable E : Env.
Variable readResponse : string -> option Request -> result Response * string.

Lemma retryAfterLoop_respBuffer (bound : Z) :
  forall (fuel : nat) (c c' : Conn) (w w' : World),
  retryAfterLoop E fuel bound c w = Some (c', w') -> respBuffer c' = respBuffer c.
Proof.
  induction fuel as [|fuel IH]; intros c c' w w' H; [discriminate|].
  cbn [retryAfterLoop] in H. unfold Now, callExtend in H.
  destruct (_ <? bound).
  - destruct (ExtendVisibilityTimeout E _ _).
    + apply IH in H. exact H.
    + injection H as <- _. reflexivity.
  - injection H as <- _. reflexivity.
Qed.

(** What Close leaves in the response buffer. *)
Lemma Close_respBuffer (fuel : nat) (c c' : Conn) (w w' : World) (r : option error) :
  Close E readResponse fuel c w = Some (r, c', w') ->
  respBuffer c' =
    if isEmpty (respBuffer c) then ""
    else snd (readResponse (respBuffer c) (req c)).
Proof.
  destruct (isEmpty (respBuffer c)) eqn:Hemp.
  - intros H.
    destruct (Close_empty E readResponse fuel c w (isEmpty_true _ Hemp)) as (c2 & Hrun & Hb).
    rewrite Hrun in H. inversion H; subst. exact Hb.
  - unfold Close, stopRenewal.
    set (c0 := if extendCancel c then setRenewal c true false else c).
    assert (Hb : respBuffer c0 = respBuffer c)
      by (unfold c0; destruct (extendCancel c); reflexivity).
    assert (Hq : req c0 = req c) by (unfold c0; destruct (extendCancel c); reflexivity).
    replace (if extendCancel c
             then (setRenewal c true false,
                   mkWorld (tick w) (events w ++ [(tick w, CancelRenewal)]))
             else (c, w))
      with (c0, if extendCancel c
                then mkWorld (tick w) (events w ++ [(tick w, CancelRenewal)]) else w)
      by (unfold c0; destruct (extendCancel c); reflexivity).
    rewrite Hb, Hq, Hemp.
    destruct (readResponse (respBuffer c) (req c)) as [parsed rest]. cbn [snd].
    intros H.
    repeat match type of H with
           | context [match ?x with _ => _ end] => destruct x eqn:?
           end;
      inversion H; subst; try reflexivity.
    match goal with
    | Hloop : retryAfterLoop _ _ _ _ _ = Some _ |- _ =>
        apply retryAfterLoop_respBuffer in Hloop; exact Hloop
    end.
Qed.

(** C2, amended.  With a buffered reader that takes a buffer of at most
    4096 bytes whole, a Close on a stream whose response is at most 4096
    bytes leaves the response buffer empty, and a further Close, with
    nothing written in between, returns nil and makes no delete and no
    extend call. *)
Theorem close_again_after_short_response
  (fuel1 fuel2 : nat) (c c1 : Conn) (w w1 : World) (r1 : option error) :
  (forall text r, (String.length text <= 4096)%nat -> snd (readResponse text r) = "") ->
  (String.length (respBuffer c) <= 4096)%nat ->
  Close E readResponse fuel1 c w = Some (r1, c1, w1) ->
  respBuffer c1 = ""
  /\ exists c2 w2 new,
       Close E readResponse fuel2 c1 w1 = Some (None, c2, w2)
       /\ events w2 = events w1 ++ new
       /\ deleteCalls new = [] /\ extendCalls new = []
       /\ respBuffer c2 = "".
Proof.
  intros Hdrain Hlen Hrun.
  assert (Hb : respBuffer c1 = "").
  { rewrite (Close_respBuffer _ _ _ _ _ _ Hrun).
    destruct (isEmpty (respBuffer c)); [reflexivity | apply Hdrain; exact Hlen]. }
  split; [exact Hb|].
  exact (close_on_drained_buffer E readResponse fuel1 fuel2 c c1 w w1 r1 Hrun Hb).
Qed.

End CloseTwice.

(** C2, as stated, fails: nothing in the stream records that it was
    closed.  A response of 4115 bytes whose bytes from offset 4096 on read
    as a response of their own is deleted for twice by two Close calls in
    a row; and so is any response when a second one is written between
    the two calls. *)
Lemma close_twice_deletes_twice_counterexample :
  deletesOfTwoCloses sampleQueue (sampleConn 3000 response200Long) (fun c => c)
    = [CallDelete "m1"; CallDelete "m1"]
  /\ deletesOfTwoCloses sampleQueue (sampleConn 3000 response200)
       (fun c => snd (Write response200 c))
     = [CallDelete "m1"; CallDelete "m1"].
Proof. split; vm_compute; reflexivity. Qed.

Lemma close_again_after_short_response_witness :
  exists c1 w1,
    Close sampleQueue ReadResponseBuffered 0 (sampleConn 3000 response200) startWorld
      = Some (None, c1, w1)
    /\ exists c2 w2 new,
         Close sampleQueue ReadResponseBuffered 0 c1 w1 = Some (None, c2, w2)
         /\ events w2 = events w1 ++ new
         /\ deleteCalls new = [] /\ extendCalls new = [] /\ respBuffer c2 = "".
Proof.
  destruct (Close sampleQueue ReadResponseBuffered 0 (sampleConn 3000 response200)
              startWorld) as [[[r1 c1] w1]|] eqn:Hrun; [|vm_compute in Hrun; discriminate].
  assert (Hr : r1 = None) by (vm_compute in Hrun; congruence).
  subst r1. exists c1, w1. split; [reflexivity|].
  refine (proj2 (close_again_after_short_response sampleQueue ReadResponseBuffered
                   0 0 (sampleConn 3000 response200) c1 startWorld w1 None
                   ReadResponseBuffered_drains _ Hrun)).
  vm_compute. lia.
Defined.

(* ------------------------------------------------------------------ *)
(** ** The properties of Close and SetDeadline on sample runs *)

Lemma close_success_deletes_once_witness :
  exists c' w',
    Close sampleQueue ReadResponseBuffered 0 (sampleConn 3000 response200) startWorld
      = Some (None, c', w')
    /\ deleteCalls (events w') = [CallDelete "m1"]
    /\ extendCalls (events w') = [].
Proof.
  destruct (close_success_deletes_once sampleQueue ReadResponseBuffered 0
              (sampleConn 3000 response200) startWorld
              (parsedResponse response200) "")
    as (c' & w' & new & Hrun & Hev & _ & Hdel & Hext).
  - vm_compute. discriminate.
  - vm_compute. reflexivity.
  - vm_compute. split; discriminate.
  - vm_compute. reflexivity.
  - exists c', w'. split; [exact Hrun|].
    rewrite Hev. split; [exact Hdel | exact Hext].
Defined.

Lemma close_observer_error_keeps_message_witness :
  exists c' w',
    Close sampleQueue ReadResponseBuffered 0
      (setRespHandler (sampleConn 3000 response200)
         (Some (fun resp _ => (Some (ErrOther "not now"), resp))))
      startWorld
    = Some (Some (ErrWrap "failed to handle response" (ErrOther "not now")), c', w')
    /\ deleteCalls (events w') = [].
Proof.
  destruct (close_observer_error_keeps_message sampleQueue ReadResponseBuffered 0
              (setRespHandler (sampleConn 3000 response200)
                 (Some (fun resp _ => (Some (ErrOther "not now"), resp))))
              startWorld (parsedResponse response200) ""
              (fun resp _ => (Some (ErrOther "not now"), resp)) (ErrOther "not now"))
    as (c' & w' & Hrun & Hev & _ & Hdel & _).
  - vm_compute. discriminate.
  - vm_compute. reflexivity.
  - reflexivity.
  - reflexivity.
  - exists c', w'. split; [exact Hrun|]. rewrite Hev. exact Hdel.
Defined.

(** Against a queue that grants 30 seconds from the time of each call, a
    lease never covers 60 seconds: the loop does not end. *)
Lemma sample_retry_loop_diverges (fuel : nat) :
  forall (c : Conn) (w : World),
  VisibilityTimeoutAt (msg c) - Z.of_nat (tick w) <= 30000 ->
  retryAfterLoop sampleQueue fuel (60 * Second) c w = None.
Proof.
  induction fuel as [|fuel IH]; intros c w Hinv; [reflexivity|].
  cbn [retryAfterLoop]. unfold Now.
  rewrite Until_ltb by (vm_compute; split; [reflexivity | discriminate]).
  replace (VisibilityTimeoutTime (msg c) - wallClock sampleQueue (tick w)
           <? 60 * Second) with true.
  2:{ symmetry. apply Z.ltb_lt.
      unfold VisibilityTimeoutTime, UnixMilli, Second. cbn [wallClock sampleQueue leaseQueue].
      unfold UnixMilli. lia. }
  unfold callExtend, record.
  cbn [ExtendVisibilityTimeout sampleQueue leaseQueue tick events].
  apply IH.
  cbn [msg setMsg withVisibilityTimeoutAt VisibilityTimeoutAt sampleMessage namedMessage tick].
  lia.
Qed.

(** C3, as stated, fails in two ways.  (1) A number of seconds that does
    not fit a Duration wraps around: with Retry-After: 9223372037 the bound
    is negative, Close returns nil without a single extend call, and the
    lease deadline (3 s) is not 9223372037 seconds after the close time.
    (2) The loop has no bound: against a queue that grants 30 seconds per
    extend, Retry-After: 60 is never covered and Close does not return,
    whatever the fuel. *)
Lemma close_retry_after_counterexample :
  (Atoi "9223372037" = Some 9223372037
   /\ closeOutcome
        (Close sampleQueue ReadResponseBuffered 1
           (sampleConn 3000 (response503 "9223372037")) startWorld)
      = Some (None, 3000, [(0%nat, CancelRenewal)])
   /\ UnixMilli 3000 < wallClock sampleQueue 0 + 9223372037 * Second)
  /\ forall fuel,
       Close sampleQueue ReadResponseBuffered fuel
         (sampleConn 3000 (response503 "60")) startWorld = None.
Proof.
  split.
  - split; [vm_compute; reflexivity|]. split; vm_compute; reflexivity.
  - intros fuel.
    destruct (Close_parsed sampleQueue ReadResponseBuffered fuel
                (sampleConn 3000 (response503 "60")) startWorld
                (parsedResponse (response503 "60")) "")
      as (c0 & Hc0 & ->).
    + vm_compute. discriminate.
    + vm_compute. reflexivity.
    + cbn zeta.
      change (observe (sampleConn 3000 (response503 "60"))
                (parsedResponse (response503 "60")))
        with (@None error, parsedResponse (response503 "60")).
      cbn [fst snd].
      replace (Header_Get (RespHeader (parsedResponse (response503 "60"))) "Retry-After")
        with "60" by (vm_compute; reflexivity).
      replace (StatusCode (parsedResponse (response503 "60"))) with 503
        by (vm_compute; reflexivity).
      cbn [Z.leb Z.ltb Z.compare Pos.compare Pos.compare_cont andb isEmpty].
      replace (Atoi "60") with (Some 60) by (vm_compute; reflexivity).
      replace (wrap64 (60 * Second)) with (60 * Second) by (vm_compute; reflexivity).
      rewrite sample_retry_loop_diverges; [reflexivity|].
      subst c0. vm_compute. discriminate.
Qed.

Lemma close_retry_after_witness :
  exists c' w',
    Close sampleQueue ReadResponseBuffered 2
      (sampleConn 3000 (response503 "5")) startWorld = Some (None, c', w').
Proof.
  destruct (close_retry_after sampleQueue ReadResponseBuffered
              (sampleConn 3000 (response503 "5")) startWorld
              (parsedResponse (response503 "5")) "") as [_ Hnum].
  - vm_compute. discriminate.
  - vm_compute. reflexivity.
  - vm_compute. intros [_ H]. apply H. reflexivity.
  - vm_compute. reflexivity.
  - destruct (Hnum 5) as [_ Hret].
    + vm_compute. reflexivity.
    + vm_compute. split; discriminate.
    + apply (Hret 0%nat). vm_compute. discriminate.
Defined.



(* ------------------------------------------------------------------ *)
(** ** The listener *)

Section AcceptFacts.

Variable E : Env.
Variable Request_Write : Request -> result string * option Reader.

Lemma deliveries_app (a b : list (nat * Event)) :
  deliveries E (a ++ b) = deliveries E a ++ deliveries E b.
Proof.
  induction a as [|[k ev] a IH]; [reflexivity|].
  cbn [app deliveries]. destruct ev; try exact IH.
  destruct (ReceiveMessages E k); [rewrite IH, app_assoc; reflexivity | exact IH].
Qed.

Lemma msg_newConn (a q : string) (m : Message) (s : Serializer) :
  msg (newConn E Request_Write a m s q) = m.
Proof.
  unfold newConn, init. cbn [serializer setRenewal msg].
  destruct (Deserialize s (Content m)); [|reflexivity].
  cbn. destruct (Request_Write _) as [[bytes|e] unread]; reflexivity.
Qed.

(** Listener.accept: the message returned is the first of the buffer
    followed by what the polls of this call delivered, and the rest of
    that sequence is the new buffer. *)
Lemma accept_spec (fuel : nat) :
  forall (l l' : Listener) (w w' : World) (res : result Message),
  accept E fuel l w = Some (res, l', w') ->
  exists evs,
    events w' = events w ++ evs
    /\ (tick w <= tick w')%nat
    /\ listenerQueue l' = listenerQueue l
    /\ ListenerSerializer l' = ListenerSerializer l
    /\ ListenerResponseHandler l' = ListenerResponseHandler l
    /\ match res with
       | Ok m => acceptedMessages l ++ deliveries E evs = m :: acceptedMessages l'
       | Err _ => acceptedMessages l ++ deliveries E evs = []
       end.
Proof.
  induction fuel as [|fuel IH]; intros l l' w w' res H.
  - cbn [accept] in H. destruct (acceptedMessages l) as [|m rest] eqn:Hbuf; [discriminate|].
    inversion H; subst. exists []. rewrite !app_nil_r. cbn. repeat split; lia.
  - cbn [accept] in H. destruct (acceptedMessages l) as [|m rest] eqn:Hbuf.
    + unfold callReceive, record in H.
      destruct (ReceiveMessages E (tick w)) as [ms|e] eqn:Hr.
      * apply IH in H. destruct H as (evs & Hev & Ht & Hq & Hs & Hh & Hres).
        cbn [tick events acceptedMessages setAccepted listenerQueue ListenerSerializer
             ListenerResponseHandler] in *.
        exists ((tick w, CallReceive) :: evs).
        split; [rewrite Hev, <- app_assoc; reflexivity|].
        split; [lia|]. split; [exact Hq|]. split; [exact Hs|]. split; [exact Hh|].
        cbn [deliveries]. rewrite Hr. try rewrite Hbuf in *. cbn [app] in *. exact Hres.
      * inversion H; subst. exists [(tick w, CallReceive)].
        cbn [tick events deliveries]. rewrite Hr. try rewrite Hbuf.
        repeat split; try lia; reflexivity.
    + inversion H; subst. exists []. rewrite !app_nil_r. cbn. repeat split; lia.
Qed.

(** A poll that fails ends accept; the polls before it delivered
    nothing. *)
Lemma accept_failed (fuel : nat) :
  forall (l l' : Listener) (w w' : World) (e : error),
  accept E fuel l w = Some (Err e, l', w') ->
  exists (evs : list (nat * Event)) (k : nat),
    events w' = events w ++ evs ++ [(k, CallReceive)]
    /\ (tick w <= k < tick w')%nat
    /\ ReceiveMessages E k = Err e
    /\ deliveries E evs = []
    /\ acceptedMessages l = [] /\ acceptedMessages l' = [].
Proof.
  induction fuel as [|fuel IH]; intros l l' w w' e H.
  - cbn [accept] in H. destruct (acceptedMessages l); discriminate.
  - cbn [accept] in H. destruct (acceptedMessages l) as [|m rest] eqn:Hbuf; [|discriminate].
    unfold callReceive, record in H.
    destruct (ReceiveMessages E (tick w)) as [ms|e0] eqn:Hr.
    + apply IH in H. destruct H as (evs & k & Hev & Hk & Hfail & Hdel & Hb1 & Hb2).
      cbn [tick events acceptedMessages setAccepted app] in *.
      exists ((tick w, CallReceive) :: evs), k.
      split; [rewrite Hev, <- app_assoc; reflexivity|].
      split; [lia|]. split; [exact Hfail|].
      split; [cbn [deliveries]; rewrite Hr, Hb1, Hdel; reflexivity|].
      split; [reflexivity | exact Hb2].
    + inversion H; subst. exists [], (tick w). cbn [tick events app deliveries].
      repeat split; try lia; assumption.
Qed.

(** The stream Accept builds does not depend on the buffer. *)
Lemma acceptedConn_setAccepted (l : Listener) (ms : list Message) (m : Message) :
  acceptedConn E Request_Write (setAccepted l ms) m = acceptedConn E Request_Write l m.
Proof. reflexivity. Qed.

(** Accept on a buffer that holds expired messages and then one whose
    lease is running. *)
Lemma Accept_drops (dropped : list Message) :
  forall (fuel : nat) (l : Listener) (w : World) (m : Message) (rest : list Message),
  acceptedMessages l = dropped ++ m :: rest ->
  expiredFrom E (tick w) dropped ->
  wallClock E (tick w + List.length dropped) < VisibilityTimeoutTime m ->
  (List.length dropped < fuel)%nat ->
  Accept E Request_Write fuel l w =
    Some (Ok (acceptedConn E Request_Write l m), setAccepted l rest,
          mkWorld (S (tick w + List.length dropped)) (events w)).
Proof.
  induction dropped as [|d ds IH]; intros fuel l w m rest Hb Hexp Hlive Hfuel;
    (destruct fuel as [|fuel]; [cbn [List.length] in Hfuel; lia|]).
  - cbn [app List.length] in *. rewrite Nat.add_0_r in *.
    cbn [Accept accept]. rewrite Hb. unfold Now. rewrite Until_nonpos.
    replace (VisibilityTimeoutTime m <=? wallClock E (tick w)) with false
      by (symmetry; apply Z.leb_gt; exact Hlive).
    reflexivity.
  - cbn [app List.length expiredFrom] in *. destruct Hexp as [Hd Hds].
    cbn [Accept accept]. rewrite Hb. unfold Now. rewrite Until_nonpos.
    replace (VisibilityTimeoutTime d <=? wallClock E (tick w)) with true
      by (symmetry; apply Z.leb_le; exact Hd).
    rewrite (IH fuel (setAccepted l (ds ++ m :: rest))
               (mkWorld (S (tick w)) (events w)) m rest).
    + cbn [tick events]. rewrite Nat.add_succ_r. reflexivity.
    + reflexivity.
    + exact Hds.
    + cbn [tick]. rewrite Nat.add_succ_r in Hlive. exact Hlive.
    + lia.
Qed.

(** Accept on a buffer that holds expired messages only: they are dropped
    and Accept goes on with an empty buffer. *)
Lemma Accept_drops_all (old : list Message) :
  forall (fuel : nat) (l : Listener) (w : World),
  acceptedMessages l = old ->
  expiredFrom E (tick w) old ->
  Accept E Request_Write (List.length old + fuel) l w =
    Accept E Request_Write fuel (setAccepted l [])
      (mkWorld (tick w + List.length old) (events w)).
Proof.
  induction old as [|d ds IH]; intros fuel l w Hb Hexp.
  - cbn [List.length Nat.add]. rewrite Nat.add_0_r, <- Hb.
    destruct l, w; reflexivity.
  - cbn [List.length Nat.add expiredFrom] in *. destruct Hexp as [Hd Hds].
    cbn [Accept accept]. rewrite Hb. unfold Now. rewrite Until_nonpos.
    replace (VisibilityTimeoutTime d <=? wallClock E (tick w)) with true
      by (symmetry; apply Z.leb_le; exact Hd).
    rewrite (IH fuel (setAccepted l ds) (mkWorld (S (tick w)) (events w)) eq_refl Hds).
    cbn [tick events]. rewrite Nat.add_succ_r. reflexivity.
Qed.

(** Accept on an empty buffer whose poll delivers messages goes on with
    these messages as its buffer. *)
Lemma Accept_polls (fuel : nat) (l : Listener) (w : World) (batch : list Message) :
  acceptedMessages l = [] ->
  batch <> [] ->
  ReceiveMessages E (tick w) = Ok batch ->
  Accept E Request_Write (S fuel) l w =
    Accept E Request_Write (S fuel) (setAccepted l batch)
      (mkWorld (S (tick w)) (events w ++ [(tick w, CallReceive)])).
Proof.
  intros Hb Hne Hr. destruct batch as [|b batch]; [congruence|].
  cbn [Accept accept]. rewrite Hb. unfold callReceive, record. rewrite Hr.
  cbn [app acceptedMessages setAccepted].
  destruct fuel; reflexivity.
Qed.

(** C6.  Accept hands out the messages in arrival order and never a
    message whose lease is over.

    When Accept returns a stream: of the messages in arrival order, those
    buffered followed by those the polls of this call delivered, the
    stream is bound to the first whose lease deadline was still ahead when
    it was taken up; the messages before it had a deadline that was not
    ahead when they were taken up and were dropped; the messages after it
    are the buffer, in the same order.

    When Accept returns an error, the last thing it did was a poll that
    failed, and the error is that failure (net.ErrClosed for a
    cancellation); every message it took up before was expired and
    dropped.  An expired message never ends Accept.

    Accept does return the stream: with a buffer that holds expired
    messages and then a message whose lease is running, it drops the
    former, without any call, and returns a stream on the latter; with a
    buffer of expired messages only, it drops them, polls, and, when the
    poll delivers expired messages followed by one whose lease is running,
    drops the former and returns a stream on the latter; in both cases the
    messages after it are the new buffer. *)
Theorem accept_hands_out_in_arrival_order
  (fuel : nat) (l : Listener) (w : World) :
  (forall (l' : Listener) (w' : World) (c : Conn),
     Accept E Request_Write fuel l w = Some (Ok c, l', w') ->
     exists (dropped : list Message) (evs : list (nat * Event)),
       events w' = events w ++ evs
       /\ acceptedMessages l ++ deliveries E evs
          = dropped ++ msg c :: acceptedMessages l'
       /\ Forall (fun m => exists k, (tick w <= k < tick w')%nat
                                     /\ VisibilityTimeoutTime m <= wallClock E k) dropped
       /\ (tick w < tick w')%nat
       /\ wallClock E (tick w' - 1) < VisibilityTimeoutTime (msg c))
  /\ (forall (l' : Listener) (w' : World) (e : error),
        Accept E Request_Write fuel l w = Some (Err e, l', w') ->
        exists (dropped : list Message) (evs : list (nat * Event)) (k : nat) (e0 : error),
          events w' = events w ++ evs ++ [(k, CallReceive)]
          /\ (tick w <= k < tick w')%nat
          /\ ReceiveMessages E k = Err e0
          /\ e = (if errors_Is_Canceled e0 then ErrNetClosed else e0)
          /\ acceptedMessages l ++ deliveries E evs = dropped
          /\ Forall (fun m => exists j, (tick w <= j < tick w')%nat
                                        /\ VisibilityTimeoutTime m <= wallClock E j) dropped
          /\ acceptedMessages l' = [])
  /\ (forall (dropped : list Message) (m : Message) (rest : list Message),
        acceptedMessages l = dropped ++ m :: rest ->
        expiredFrom E (tick w) dropped ->
        wallClock E (tick w + List.length dropped) < VisibilityTimeoutTime m ->
        (List.length dropped < fuel)%nat ->
        Accept E Request_Write fuel l w =
          Some (Ok (acceptedConn E Request_Write l m), setAccepted l rest,
                mkWorld (S (tick w + List.length dropped)) (events w)))
  /\ (forall (dropped : list Message) (m : Message) (rest : list Message),
        expiredFrom E (tick w) (acceptedMessages l) ->
        let t := (tick w + List.length (acceptedMessages l))%nat in
        ReceiveMessages E t = Ok (dropped ++ m :: rest) ->
        expiredFrom E (S t) dropped ->
        wallClock E (S t + List.length dropped) < VisibilityTimeoutTime m ->
        (List.length (acceptedMessages l) + List.length dropped < fuel)%nat ->
        Accept E Request_Write fuel l w =
          Some (Ok (acceptedConn E Request_Write l m), setAccepted l rest,
                mkWorld (S (S t + List.length dropped))
                  (events w ++ [(t, CallReceive)]))).
Proof.
  split; [|split; [|split]].
  - revert l w. induction fuel as [|fuel' IH]; intros l w l' w' c H; [discriminate|].
    cbn [Accept] in H.
    destruct (accept E (S fuel') l w) as [[[res l1] w1]|] eqn:Hacc; [|discriminate].
    destruct (accept_spec _ _ _ _ _ _ Hacc) as (evs1 & Hev1 & Ht1 & _ & _ & _ & Hres).
    destruct res as [m|e].
    2:{ destruct (errors_Is_Canceled e); discriminate. }
    unfold Now in H. rewrite Until_nonpos in H.
    destruct (VisibilityTimeoutTime m <=? wallClock E (tick w1)) eqn:Hexp.
    + apply Z.leb_le in Hexp. apply IH in H.
      destruct H as (dropped & evs2 & Hev2 & Hseq & Hdrop & Ht2 & Hlive).
      cbn [tick events] in *.
      exists (m :: dropped), (evs1 ++ evs2).
      split; [rewrite Hev2, Hev1, <- app_assoc; reflexivity|].
      split; [rewrite deliveries_app, app_assoc, Hres; cbn [app]; rewrite Hseq; reflexivity|].
      split.
      { constructor.
        - exists (tick w1). split; [lia | exact Hexp].
        - eapply Forall_impl; [|exact Hdrop].
          intros m0 (k & Hk & Hm0). exists k. split; [lia | exact Hm0]. }
      split; [lia | exact Hlive].
    + apply Z.leb_gt in Hexp.
      assert (Hc : msg c = m /\ l' = l1 /\ w' = mkWorld (S (tick w1)) (events w1)).
      { destruct (ListenerResponseHandler l1); inversion H; subst;
          (split; [|split; reflexivity]); cbn [msg setRespHandler]; apply msg_newConn. }
      destruct Hc as (Hm & -> & ->). cbn [tick events].
      exists [], evs1. rewrite Hm.
      split; [exact Hev1|]. split; [exact Hres|]. split; [constructor|].
      split; [lia|].
      replace (S (tick w1) - 1)%nat with (tick w1) by lia. exact Hexp.
  - revert l w. induction fuel as [|fuel' IH]; intros l w l' w' e H; [discriminate|].
    cbn [Accept] in H.
    destruct (accept E (S fuel') l w) as [[[res l1] w1]|] eqn:Hacc; [|discriminate].
    destruct res as [m|e0].
    + destruct (accept_spec _ _ _ _ _ _ Hacc) as (evs1 & Hev1 & Ht1 & _ & _ & _ & Hres).
      unfold Now in H. rewrite Until_nonpos in H.
      destruct (VisibilityTimeoutTime m <=? wallClock E (tick w1)) eqn:Hexp.
      * apply Z.leb_le in Hexp. apply IH in H.
        destruct H as (dropped & evs2 & k & e0 & Hev2 & Hk & Hfail & He & Hseq & Hdrop & Hb).
        cbn [tick events] in *.
        exists (m :: dropped), (evs1 ++ evs2), k, e0.
        split; [rewrite Hev2, Hev1, <- !app_assoc; reflexivity|].
        split; [lia|]. split; [exact Hfail|]. split; [exact He|].
        split; [rewrite deliveries_app, app_assoc, Hres; cbn [app]; rewrite Hseq;
                reflexivity|].
        split; [|exact Hb].
        constructor.
        { exists (tick w1). split; [lia | exact Hexp]. }
        eapply Forall_impl; [|exact Hdrop].
        intros m0 (j & Hj & Hm0). exists j. split; [lia | exact Hm0].
      * destruct (ListenerResponseHandler l1); discriminate.
    + destruct (accept_failed _ _ _ _ _ _ Hacc)
        as (evs & k & Hev & Hk & Hfail & Hdel & Hb1 & Hb2).
      assert (Hres : e = (if errors_Is_Canceled e0 then ErrNetClosed else e0)
                     /\ l' = l1 /\ w' = w1).
      { destruct (errors_Is_Canceled e0); inversion H; subst; repeat split. }
      destruct Hres as (-> & -> & ->).
      exists [], evs, k, e0.
      split; [exact Hev|]. split; [exact Hk|]. split; [exact Hfail|].
      split; [reflexivity|].
      split; [rewrite Hb1, Hdel; reflexivity|].
      split; [constructor | exact Hb2].
  - intros dropped m rest Hb Hexp Hlive Hfuel.
    exact (Accept_drops dropped fuel l w m rest Hb Hexp Hlive Hfuel).
  - intros dropped m rest Hold t Hpoll Hexp Hlive Hfuel.
    replace fuel
      with (List.length (acceptedMessages l)
            + S (fuel - List.length (acceptedMessages l) - 1))%nat by lia.
    rewrite (Accept_drops_all (acceptedMessages l) _ l w eq_refl Hold).
    fold t.
    rewrite (Accept_polls _ (setAccepted l []) (mkWorld t (events w))
               (dropped ++ m :: rest) eq_refl);
      [| destruct dropped; discriminate | exact Hpoll].
    rewrite (Accept_drops dropped _
               (setAccepted (setAccepted l []) (dropped ++ m :: rest))
               (mkWorld (S t) (events w ++ [(t, CallReceive)])) m rest
               eq_refl Hexp Hlive).
    + reflexivity.
    + lia.
Qed.

End AcceptFacts.

Lemma accept_hands_out_in_arrival_order_witness :
  Accept pollQueue sampleRequestWrite 2 sampleListener startWorld
    = Some (Ok (acceptedConn pollQueue sampleRequestWrite sampleListener
                  (namedMessage "m1" 30000)),
            setAccepted sampleListener [namedMessage "m2" 30000],
            mkWorld 3 [(0%nat, CallReceive)])
  /\ expiredFrom pollQueue 1 [namedMessage "old" 0].
Proof.
  assert (Hold : expiredFrom pollQueue 1 [namedMessage "old" 0])
    by (split; [vm_compute; discriminate | exact I]).
  split; [|exact Hold].
  refine (proj2 (proj2 (proj2 (accept_hands_out_in_arrival_order pollQueue
                                 sampleRequestWrite 2 sampleListener startWorld)))
            [namedMessage "old" 0] (namedMessage "m1" 30000) [namedMessage "m2" 30000]
            I eq_refl Hold _ _).
  - vm_compute. reflexivity.
  - cbn. lia.
Defined.

(* ------------------------------------------------------------------ *)
(** ** Decimal numbers *)

Local Open Scope string_scope.
Local Open Scope Z_scope.

Lemma byteVal_digitChar (d : Z) :
  0 <= d < 10 -> byteVal (digitChar d) = 48 + d /\ isDigit (digitChar d) = true.
Proof.
  intros H.
  assert (Hd : d = 0 \/ d = 1 \/ d = 2 \/ d = 3 \/ d = 4 \/ d = 5 \/ d = 6 \/ d = 7
               \/ d = 8 \/ d = 9) by lia.
  repeat (destruct Hd as [-> | Hd]; [split; reflexivity|]).
  subst d. split; reflexivity.
Qed.

Lemma digitsValue_app (ds rest : string) :
  allChars isDigit ds = true ->
  forall a, exists v,
    digitsValue a ds = Some v
    /\ digitsValue a (ds ++ rest) = digitsValue v rest.
Proof.
  induction ds as [|ch ds IH]; intros Hd a; cbn in *.
  - exists a. split; reflexivity.
  - apply andb_true_iff in Hd. destruct Hd as [Hc Hds]. rewrite Hc.
    apply IH. exact Hds.
Qed.

Lemma digitsOf_S (f : nat) (n : Z) (acc : string) :
  digitsOf (S f) n acc =
  if n <? 10 then String (digitChar (n mod 10)) acc
  else digitsOf f (n / 10) (String (digitChar (n mod 10)) acc).
Proof. reflexivity. Qed.

(** The digits of a number: [digitsOf] with enough fuel puts the decimal
    digits of [n] before [acc], and reading them back gives [n]. *)
Lemma digitsOf_spec (f : nat) :
  forall (n : Z) (acc : string),
  0 <= n < 10 ^ Z.of_nat (S f) ->
  exists ds,
    digitsOf (S f) n acc = ds ++ acc
    /\ allChars isDigit ds = true
    /\ ds <> ""
    /\ forall a, digitsValue a ds = Some (a * 10 ^ Z.of_nat (String.length ds) + n).
Proof.
  induction f as [|f IH]; intros n acc Hn.
  - change (10 ^ Z.of_nat 1) with 10 in Hn.
    rewrite digitsOf_S. replace (n <? 10) with true by (symmetry; apply Z.ltb_lt; lia).
    exists (String (digitChar (n mod 10)) "").
    rewrite (Z.mod_small n 10) by lia.
    destruct (byteVal_digitChar n ltac:(lia)) as [Hv Hd].
    split; [reflexivity|]. split; [cbn; rewrite Hd; reflexivity|].
    split; [discriminate|].
    intros a. cbn. rewrite Hd, Hv. f_equal. lia.
  - rewrite digitsOf_S. destruct (n <? 10) eqn:Hlt.
    + apply Z.ltb_lt in Hlt.
      exists (String (digitChar (n mod 10)) "").
      rewrite (Z.mod_small n 10) by lia.
      destruct (byteVal_digitChar n ltac:(lia)) as [Hv Hd].
      split; [reflexivity|]. split; [cbn; rewrite Hd; reflexivity|].
      split; [discriminate|].
      intros a. cbn. rewrite Hd, Hv. f_equal. lia.
    + apply Z.ltb_ge in Hlt.
      assert (Hq : 0 <= n / 10 < 10 ^ Z.of_nat (S f)).
      { split; [apply Z.div_pos; lia|].
        apply Z.div_lt_upper_bound; [lia|].
        replace (Z.of_nat (S (S f))) with (Z.of_nat (S f) + 1) in Hn by lia.
        rewrite Z.pow_add_r in Hn by lia. lia. }
      destruct (IH (n / 10) (String (digitChar (n mod 10)) acc) Hq)
        as (ds & Heq & Hall & Hne & Hval).
      pose proof (Z.mod_pos_bound n 10 ltac:(lia)) as Hm.
      destruct (byteVal_digitChar (n mod 10) Hm) as [Hv Hd].
      exists (ds ++ String (digitChar (n mod 10)) "").
      split; [rewrite Heq, append_assoc; reflexivity|].
      split.
      { clear - Hall Hd. induction ds as [|ch ds IHd]; cbn in *.
        - rewrite Hd. reflexivity.
        - apply andb_true_iff in Hall. destruct Hall as [-> Hall].
          cbn. apply IHd. exact Hall. }
      split; [destruct ds; discriminate|].
      intros a.
      destruct (digitsValue_app ds (String (digitChar (n mod 10)) "") Hall a)
        as (v & Hv1 & Hv2).
      rewrite Hv2. rewrite Hval in Hv1. injection Hv1 as <-.
      cbn. rewrite Hd, Hv. f_equal.
      rewrite length_append. cbn [String.length].
      replace (Z.of_nat (String.length ds + 1)) with (Z.of_nat (String.length ds) + 1) by lia.
      rewrite Z.pow_add_r by lia.
      pose proof (Z.div_mod n 10 ltac:(lia)). lia.
Qed.

Lemma Itoa_nonneg (n : Z) :
  0 <= n ->
  allChars isDigit (Itoa n) = true /\ Itoa n <> ""
  /\ digitsValue 0 (Itoa n) = Some n.
Proof.
  intros Hn. unfold Itoa. replace (n <? 0) with false by (symmetry; apply Z.ltb_ge; lia).
  assert (Hb : 0 <= n < 10 ^ Z.of_nat (S (Z.to_nat (Z.log2 n)))).
  { split; [lia|].
    destruct (Z.eq_dec n 0) as [->|Hnz]; [reflexivity|].
    pose proof (Z.log2_nonneg n) as Hl.
    pose proof (Z.log2_spec n ltac:(lia)) as [_ Hup].
    replace (Z.of_nat (S (Z.to_nat (Z.log2 n)))) with (Z.succ (Z.log2 n)) by lia.
    assert (2 ^ Z.succ (Z.log2 n) <= 10 ^ Z.succ (Z.log2 n))
      by (apply Z.pow_le_mono_l; lia).
    lia. }
  destruct (digitsOf_spec _ n "" Hb) as (ds & Heq & Hall & Hne & Hval).
  rewrite Heq, append_nil_r. split; [exact Hall|]. split; [exact Hne|].
  rewrite Hval. f_equal; lia.
Qed.

Lemma ParseUint63_Itoa (n : Z) :
  0 <= n <= maxInt64 -> ParseUint63 (Itoa n) = Some n.
Proof.
  intros Hn. destruct (Itoa_nonneg n ltac:(lia)) as (_ & Hne & Hval).
  unfold ParseUint63. rewrite Hval.
  destruct (Itoa n); [contradiction|]. cbn [isEmpty].
  replace (n <=? maxInt64) with true by (symmetry; apply Z.leb_le; lia).
  reflexivity.
Qed.

(** The three-digit status codes, by enumeration. *)
Lemma threeDigits_range (code : Z) : 100 <= code <= 999 -> threeDigits code = true.
Proof.
  intros H.
  assert (Hall : forallb threeDigits (map Z.of_nat (seq 100 900)) = true)
    by (vm_compute; reflexivity).
  rewrite forallb_forall in Hall. apply Hall.
  apply in_map_iff. exists (Z.to_nat code). split; [lia|].
  apply in_seq. lia.
Qed.

(* ------------------------------------------------------------------ *)
(** ** Lines *)

Ltac ascii_cases c :=
  destruct c as [[] [] [] [] [] [] [] []]; vm_compute; try reflexivity; try discriminate.

Lemma valid_not_newline (c : ascii) :
  validHeaderValueByte c = true -> Ascii.eqb c LF = false /\ Ascii.eqb c CR = false.
Proof. ascii_cases c; intros _; split; reflexivity. Qed.

Lemma token_plain (c : ascii) :
  isTokenChar c = true ->
  Ascii.eqb c LF = false /\ Ascii.eqb c ":" = false /\ isSpaceTab c = false
  /\ validHeaderValueByte c = true.
Proof. ascii_cases c; intros _; repeat split; reflexivity. Qed.

Lemma digit_plain (c : ascii) :
  isDigit c = true ->
  Ascii.eqb c LF = false /\ Ascii.eqb c " " = false /\ isASCIISpace c = false
  /\ validHeaderValueByte c = true /\ isSpaceTab c = false.
Proof. ascii_cases c; intros _; repeat split; reflexivity. Qed.

Lemma valid_space (c : ascii) :
  validHeaderValueByte c = true -> isASCIISpace c = isSpaceTab c.
Proof. ascii_cases c. Qed.

Lemma allChars_impl (p q : ascii -> bool) (s : string) :
  (forall c, p c = true -> q c = true) -> allChars p s = true -> allChars q s = true.
Proof.
  intros Hpq. induction s as [|c s IH]; cbn; [reflexivity|].
  intros H. apply andb_true_iff in H. destruct H as [Hc Hs].
  rewrite (Hpq c Hc), (IH Hs). reflexivity.
Qed.

Lemma allChars_app (p : ascii -> bool) (a b : string) :
  allChars p (a ++ b) = allChars p a && allChars p b.
Proof. induction a as [|c a IH]; cbn; [reflexivity|]. rewrite IH, andb_assoc. reflexivity. Qed.

Lemma splitLine_app (a b : string) :
  noLF a = true ->
  splitLine (a ++ b) = let '(l, o) := splitLine b in (a ++ l, o).
Proof.
  induction a as [|c a IH]; cbn; intros H.
  - destruct (splitLine b); reflexivity.
  - apply andb_true_iff in H. destruct H as [Hc Ha].
    apply negb_true_iff in Hc. rewrite Hc, (IH Ha).
    destruct (splitLine b); reflexivity.
Qed.

Lemma dropCR_app_CR (a : string) : dropCR (a ++ String CR "") = a.
Proof.
  induction a as [|c a IH]; [reflexivity|].
  cbn [append]. destruct a as [|c' a]; [reflexivity|].
  cbn [append] in *. cbn [dropCR]. cbn [dropCR] in IH. rewrite IH. reflexivity.
Qed.

Lemma readLine_crlf (l rest : string) :
  noLF l = true -> readLine (l ++ CRLF ++ rest) = Some (l, rest).
Proof.
  intros H. unfold readLine. rewrite (splitLine_app _ _ H).
  change (splitLine (CRLF ++ rest)) with (String CR "", Some rest).
  cbv iota beta. rewrite dropCR_app_CR.
  destruct l; reflexivity.
Qed.

Lemma trimLeft_id (p : ascii -> bool) (s : string) :
  startsWith p s = false -> trimLeft p s = s.
Proof. destruct s; cbn; [reflexivity|]. intros ->. reflexivity. Qed.

Lemma trimRight_id (p : ascii -> bool) (s : string) :
  endsWith p s = false -> trimRight p s = s.
Proof.
  induction s as [|c s IH]; [reflexivity|].
  cbn [endsWith trimRight]. destruct s as [|c' s].
  - intros ->. reflexivity.
  - intros H. rewrite (IH H). reflexivity.
Qed.

Lemma trimRight_app (p : ascii -> bool) (a b : string) :
  trimRight p b <> "" -> trimRight p (a ++ b) = a ++ trimRight p b.
Proof.
  intros Hb. induction a as [|c a IH]; [reflexivity|].
  cbn [append trimRight]. rewrite IH.
  destruct (a ++ trimRight p b) eqn:He; [|reflexivity].
  destruct a; cbn in He; [contradiction | discriminate].
Qed.

Lemma cut_app (sep : ascii) (k w : string) :
  allChars (fun c => negb (Ascii.eqb c sep)) k = true ->
  cut sep (k ++ String sep w) = Some (k, w).
Proof.
  induction k as [|c k IH]; cbn; intros H.
  - rewrite Ascii.eqb_refl. reflexivity.
  - apply andb_true_iff in H. destruct H as [Hc Hk].
    apply negb_true_iff in Hc. rewrite Hc, (IH Hk). reflexivity.
Qed.

Lemma startsWith_app (p : ascii -> bool) (a b : string) :
  a <> "" -> startsWith p (a ++ b) = startsWith p a.
Proof. destruct a; [contradiction | reflexivity]. Qed.

Lemma mapChars_id (f : ascii -> ascii) (p : ascii -> bool) (s : string) :
  (forall c, p c = true -> f c = c) -> allChars p s = true -> mapChars f s = s.
Proof.
  intros Hf. induction s as [|c s IH]; cbn; [reflexivity|].
  intros H. apply andb_true_iff in H. destruct H as [Hc Hs].
  rewrite (Hf c Hc), (IH Hs). reflexivity.
Qed.

(** *** Header values *)

Lemma headerSafe_parts (v : string) :
  headerSafe v = true ->
  allChars validHeaderValueByte v = true
  /\ startsWith isSpaceTab v = false /\ endsWith isSpaceTab v = false.
Proof.
  unfold headerSafe. intros H.
  apply andb_true_iff in H. destruct H as [H H3].
  apply andb_true_iff in H. destruct H as [H1 H2].
  apply negb_true_iff in H2, H3. auto.
Qed.

Lemma startsWith_ext (p q : ascii -> bool) (r : ascii -> bool) (s : string) :
  (forall c, r c = true -> p c = q c) -> allChars r s = true ->
  startsWith p s = startsWith q s.
Proof.
  intros Hpq. destruct s as [|c s]; cbn; [reflexivity|].
  intros H. apply andb_true_iff in H. apply Hpq. exact (proj1 H).
Qed.

Lemma endsWith_ext (p q : ascii -> bool) (r : ascii -> bool) (s : string) :
  (forall c, r c = true -> p c = q c) -> allChars r s = true ->
  endsWith p s = endsWith q s.
Proof.
  intros Hpq. induction s as [|c s IH]; [reflexivity|].
  cbn [allChars endsWith]. intros H. apply andb_true_iff in H. destruct H as [Hc Hs].
  destruct s as [|c' s]; [apply Hpq; exact Hc | apply IH; exact Hs].
Qed.

Lemma TrimString_safe (v : string) : headerSafe v = true -> TrimString v = v.
Proof.
  intros H. destruct (headerSafe_parts v H) as (Hall & Hs & He).
  unfold TrimString, trim. rewrite trimRight_id.
  - apply trimLeft_id.
    rewrite (startsWith_ext isASCIISpace isSpaceTab validHeaderValueByte v valid_space Hall).
    exact Hs.
  - rewrite (endsWith_ext isASCIISpace isSpaceTab validHeaderValueByte v valid_space Hall).
    exact He.
Qed.

(** Header.Write writes a safe value as it is. *)
Lemma headerSafe_written (v : string) :
  headerSafe v = true -> TrimString (headerNewlineToSpace v) = v.
Proof.
  intros H. destruct (headerSafe_parts v H) as (Hall & _ & _).
  assert (Hm : headerNewlineToSpace v = v).
  { unfold headerNewlineToSpace.
    apply (mapChars_id _ validHeaderValueByte); [|exact Hall].
    intros c Hc. destruct (valid_not_newline c Hc) as [-> ->]. reflexivity. }
  rewrite Hm. apply TrimString_safe. exact H.
Qed.

Lemma headerSafe_noLF (v : string) : headerSafe v = true -> noLF v = true.
Proof.
  intros H. destruct (headerSafe_parts v H) as (Hall & _ & _).
  unfold noLF. apply (allChars_impl validHeaderValueByte); [|exact Hall].
  intros c Hc. destruct (valid_not_newline c Hc) as [-> _]. reflexivity.
Qed.

Lemma digits_headerSafe (s : string) :
  allChars isDigit s = true -> headerSafe s = true.
Proof.
  intros H. unfold headerSafe.
  assert (H1 : allChars validHeaderValueByte s = true).
  { apply (allChars_impl isDigit); [|exact H]. intros c Hc. apply (digit_plain c Hc). }
  assert (H2 : allChars (fun c => negb (isSpaceTab c)) s = true).
  { apply (allChars_impl isDigit); [|exact H]. intros c Hc.
    destruct (digit_plain c Hc) as (_ & _ & _ & _ & ->). reflexivity. }
  rewrite H1. cbn [andb].
  assert (H3 : startsWith isSpaceTab s = false).
  { destruct s as [|c s]; [reflexivity|]. cbn in *.
    apply andb_true_iff in H2. destruct H2 as [Hc _]. apply negb_true_iff in Hc. exact Hc. }
  assert (H4 : endsWith isSpaceTab s = false).
  { clear - H2. induction s as [|c s IH]; [reflexivity|].
    cbn [allChars endsWith] in *. apply andb_true_iff in H2. destruct H2 as [Hc Hs].
    destruct s as [|c' s]; [apply negb_true_iff in Hc; exact Hc | apply IH; exact Hs]. }
  rewrite H3, H4. reflexivity.
Qed.

(** *** Header lines *)

Lemma ValidHeaderFieldName_parts (k : string) :
  ValidHeaderFieldName k = true -> k <> "" /\ allChars isTokenChar k = true.
Proof.
  unfold ValidHeaderFieldName. intros H. apply andb_true_iff in H. destruct H as [Hn Ht].
  split; [destruct k; [discriminate | discriminate] | exact Ht].
Qed.

Lemma key_facts (k : string) :
  ValidHeaderFieldName k = true ->
  k <> "" /\ noLF k = true
  /\ allChars (fun c => negb (Ascii.eqb c ":")) k = true
  /\ startsWith isSpaceTab k = false
  /\ canonicalMIMEHeaderKey k = Some (canonicalize true k).
Proof.
  intros H. destruct (ValidHeaderFieldName_parts k H) as [Hne Ht].
  split; [exact Hne|].
  split; [apply (allChars_impl isTokenChar); [|exact Ht];
          intros c Hc; destruct (token_plain c Hc) as (-> & _); reflexivity|].
  split; [apply (allChars_impl isTokenChar); [|exact Ht];
          intros c Hc; destruct (token_plain c Hc) as (_ & -> & _); reflexivity|].
  split.
  - destruct k as [|c k]; [contradiction|]. cbn in *.
    apply andb_true_iff in Ht. destruct Ht as [Hc _].
    apply (token_plain c Hc).
  - unfold canonicalMIMEHeaderKey.
    destruct k as [|c k]; [contradiction|]. cbn [isEmpty].
    rewrite Ht.
    rewrite (allChars_impl isTokenChar (fun c => isTokenChar c || Ascii.eqb c " ") _
               (fun c Hc => eq_trans (f_equal (fun b => b || Ascii.eqb c " ") Hc) eq_refl) Ht).
    reflexivity.
Qed.

(** The line "key: value", trimmed and cut at the colon. *)
Lemma header_line_cut (k v : string) :
  ValidHeaderFieldName k = true -> headerSafe v = true ->
  exists v1,
    cut ":" (trim isSpaceTab (k ++ ": " ++ v)) = Some (k, v1)
    /\ allChars validHeaderValueByte v1 = true
    /\ trimLeft isSpaceTab v1 = v
    /\ isEmpty (trim isSpaceTab (k ++ ": " ++ v)) = false.
Proof.
  intros Hk Hv.
  destruct (key_facts k Hk) as (Hne & _ & Hcolon & Hstart & _).
  destruct (headerSafe_parts v Hv) as (Hall & Hs & He).
  assert (Hleft : forall x, trimLeft isSpaceTab (k ++ x) = k ++ x).
  { intros x. apply trimLeft_id. rewrite startsWith_app by exact Hne. exact Hstart. }
  assert (Hnonempty : forall x, isEmpty (k ++ x) = false)
    by (intros x; destruct k; [contradiction | reflexivity]).
  unfold trim. destruct v as [|c v].
  - exists "".
    change (k ++ ": " ++ "") with (k ++ ": ").
    rewrite (trimRight_app isSpaceTab k ": ") by (cbn; discriminate).
    change (trimRight isSpaceTab ": ") with ":".
    rewrite Hleft, (cut_app ":" k "" Hcolon), Hnonempty. auto.
  - exists (" " ++ String c v).
    assert (Hr : trimRight isSpaceTab (String c v) = String c v)
      by (apply trimRight_id; exact He).
    rewrite (trimRight_app isSpaceTab k (": " ++ String c v)).
    + rewrite (trimRight_app isSpaceTab ": " (String c v)) by (rewrite Hr; discriminate).
      rewrite Hr, Hleft.
      change (k ++ ": " ++ String c v) with (k ++ String ":" (" " ++ String c v)).
      rewrite (cut_app ":" k _ Hcolon), Hnonempty.
      split; [reflexivity|]. split; [exact Hall|].
      split; [|reflexivity].
      change (trimLeft isSpaceTab (" " ++ String c v))
        with (trimLeft isSpaceTab (String c v)).
      apply trimLeft_id. exact Hs.
    + rewrite (trimRight_app isSpaceTab ": " (String c v)) by (rewrite Hr; discriminate).
      discriminate.
Qed.

Lemma renderLines_start (kvs : list (string * string)) (body : string) :
  forallb goodLine kvs = true ->
  startsWith isSpaceTab (renderLines kvs ++ CRLF ++ body) = false.
Proof.
  destruct kvs as [|[k v] kvs]; [reflexivity|].
  cbn [forallb renderLines]. intros H. apply andb_true_iff in H. destruct H as [Hkv _].
  unfold goodLine in Hkv. apply andb_true_iff in Hkv. destruct Hkv as [Hk _].
  destruct (key_facts k Hk) as (Hne & _ & _ & Hstart & _).
  rewrite append_assoc, startsWith_app by exact Hne. exact Hstart.
Qed.

Lemma contLines_none (fuel : nat) (buf rest : string) :
  startsWith isSpaceTab rest = false -> contLines fuel buf rest = (buf, rest).
Proof. intros H. destruct fuel; cbn [contLines]; [reflexivity | rewrite H; reflexivity]. Qed.

(** Reading back the lines that were rendered. *)
Lemma headerLines_rendered (kvs : list (string * string)) :
  forall (h : Header) (body : string) (fuel : nat),
  forallb goodLine kvs = true ->
  (List.length kvs < fuel)%nat ->
  headerLines fuel h (renderLines kvs ++ CRLF ++ body)
  = (Ok (fold_left (fun h kv => Header_append h (canonicalize true (fst kv)) (snd kv))
           kvs h), body).
Proof.
  induction kvs as [|[k v] kvs IH]; intros h body fuel Hgood Hfuel.
  - destruct fuel as [|fuel]; [cbn in Hfuel; lia|]. reflexivity.
  - destruct fuel as [|fuel]; [cbn in Hfuel; lia|].
    cbn [forallb] in Hgood. apply andb_true_iff in Hgood. destruct Hgood as [Hkv Hrest].
    pose proof Hkv as Hkv'. unfold goodLine in Hkv'. cbn [fst snd] in Hkv'.
    apply andb_true_iff in Hkv'. destruct Hkv' as [Hk Hv].
    destruct (key_facts k Hk) as (Hne & HkLF & _ & _ & Hcanon).
    cbn [renderLines fold_left fst snd].
    replace ((k ++ ": " ++ v ++ CRLF ++ renderLines kvs) ++ CRLF ++ body)
      with ((k ++ ": " ++ v) ++ CRLF ++ (renderLines kvs ++ CRLF ++ body))
      by (rewrite !append_assoc; reflexivity).
    cbn [headerLines]. unfold readContinuedLine.
    rewrite readLine_crlf.
    2:{ unfold noLF in *. rewrite !allChars_app, HkLF.
        fold (noLF v). rewrite (headerSafe_noLF v Hv). reflexivity. }
    destruct (header_line_cut k v Hk Hv) as (v1 & Hcut & Hvalid & Htrim & Hnonempty).
    assert (Hline : isEmpty (k ++ ": " ++ v) = false)
      by (destruct k; [contradiction | reflexivity]).
    rewrite Hline.
    change (k ++ ": " ++ v) with (k ++ String ":" (" " ++ v)) at 1.
    rewrite (cut_app ":" k (" " ++ v)).
    2:{ apply (key_facts k Hk). }
    rewrite (contLines_none _ _ _ (renderLines_start kvs body Hrest)).
    rewrite Hnonempty, Hcut, Hcanon, Hvalid, Htrim. cbn [negb].
    apply IH; [exact Hrest | cbn in Hfuel; lia].
Qed.

Lemma length_renderLines (kvs : list (string * string)) (rest : string) :
  (List.length kvs <= String.length (renderLines kvs ++ rest))%nat.
Proof.
  induction kvs as [|[k v] kvs IH]; [cbn; lia|].
  cbn [renderLines List.length]. rewrite !append_assoc, !length_append.
  rewrite !length_append in IH. cbn [String.length CRLF]. unfold CRLF. cbn [String.length].
  lia.
Qed.

Lemma readMIMEHeader_rendered (kvs : list (string * string)) (body : string) :
  forallb goodLine kvs = true ->
  readMIMEHeader (renderLines kvs ++ CRLF ++ body) = (Ok (headerOf kvs), body).
Proof.
  intros H. unfold readMIMEHeader. rewrite (renderLines_start kvs body H).
  apply headerLines_rendered; [exact H|].
  pose proof (length_renderLines kvs (CRLF ++ body)). lia.
Qed.

(** *** The status line *)

Lemma assocZ_noLF (code : Z) (l : list (Z * string)) :
  forallb (fun kv => noLF (snd kv)) l = true -> noLF (assocZ code l) = true.
Proof.
  induction l as [|[k v] l IH]; cbn; [reflexivity|].
  intros H. apply andb_true_iff in H. destruct H as [Hv Hl].
  destruct (code =? k); [exact Hv | apply IH; exact Hl].
Qed.

Lemma StatusText_noLF (code : Z) : noLF (StatusText code) = true.
Proof. apply assocZ_noLF. vm_compute. reflexivity. Qed.

Lemma statusLine_parsed (code : Z) (req : option Request) (rest : string) :
  100 <= code <= 999 ->
  readLine (statusLineOf code ++ rest)
    = Some ("HTTP/1.1 " ++ Itoa code ++ " " ++ StatusText code, rest)
  /\ parseStatusLine ("HTTP/1.1 " ++ Itoa code ++ " " ++ StatusText code)
     = Ok (mkStatusLine (Itoa code ++ " " ++ StatusText code) code "HTTP/1.1" 1 1).
Proof.
  intros Hcode. pose proof (threeDigits_range code Hcode) as H3.
  unfold threeDigits in H3.
  destruct (Itoa code) as [|a [|b [|c [|d s]]]] eqn:Hitoa; try discriminate.
  destruct (Atoi (String a (String b (String c "")))) as [n|] eqn:Hatoi;
    [|rewrite !andb_false_r in H3; discriminate].
  apply andb_true_iff in H3. destruct H3 as [H3 Hn]. apply Z.eqb_eq in Hn. subst n.
  apply andb_true_iff in H3. destruct H3 as [H3 Hc].
  apply andb_true_iff in H3. destruct H3 as [Ha Hb].
  destruct (digit_plain a Ha) as (Ha1 & Ha2 & _).
  destruct (digit_plain b Hb) as (Hb1 & Hb2 & _).
  destruct (digit_plain c Hc) as (Hc1 & Hc2 & _).
  split.
  - unfold statusLineOf. rewrite Hitoa.
    replace (("HTTP/1.1 " ++ String a (String b (String c "")) ++ " "
              ++ StatusText code ++ CRLF) ++ rest)
      with (("HTTP/1.1 " ++ String a (String b (String c "")) ++ " " ++ StatusText code)
            ++ CRLF ++ rest)
      by (rewrite !append_assoc; reflexivity).
    apply readLine_crlf.
    unfold noLF. rewrite !allChars_app. fold (noLF (StatusText code)).
    rewrite StatusText_noLF. cbn. rewrite Ha1, Hb1, Hc1. reflexivity.
  - unfold parseStatusLine.
    change (cut " " ("HTTP/1.1 " ++ String a (String b (String c "")) ++ " "
                     ++ StatusText code))
      with (Some ("HTTP/1.1", String a (String b (String c (String " " (StatusText code)))))).
    cbv iota beta.
    cbn [trimLeft]. rewrite (Ascii.eqb_sym " " a), Ha2.
    cbn [cut]. rewrite Ha2, Hb2, Hc2. cbn [Ascii.eqb Bool.eqb].
    change (Ascii.eqb " " " ") with true. cbv iota beta.
    cbn [String.length Nat.eqb negb]. rewrite Hatoi.
    replace (code <? 0) with false by (symmetry; apply Z.ltb_ge; lia).
    reflexivity.
Qed.

(** *** The response read back from a rendered text *)

Lemma ReadResponse_rendered
  (code : Z) (kvs : list (string * string)) (body : string) (req : option Request) :
  100 <= code <= 999 ->
  forallb goodLine kvs = true ->
  ReadResponse (statusLineOf code ++ renderLines kvs ++ CRLF ++ body) req
  = (match readTransfer code 1 1
             (match req with Some r => Method r | None => "GET" end)
             (fixPragmaCacheControl (headerOf kvs)) body with
     | Err e => Err e
     | Ok tr =>
         Ok {| Status := Itoa code ++ " " ++ StatusText code; StatusCode := code;
               Proto := "HTTP/1.1"; ProtoMajor := 1; ProtoMinor := 1;
               RespHeader := trHeader tr; ContentLength := trLength tr;
               Chunked := trChunked tr; RespBody := trBody tr |}
     end, body).
Proof.
  intros Hcode Hgood. unfold ReadResponse.
  destruct (statusLine_parsed code req (renderLines kvs ++ CRLF ++ body) Hcode)
    as [Hline Hparse].
  rewrite Hline, Hparse, (readMIMEHeader_rendered kvs body Hgood).
  cbn [slCode slMajor slMinor slStatus slProto].
  destruct (readTransfer _ _ _ _ _ _); reflexivity.
Qed.

Lemma readTransfer_plain
  (code : Z) (method : string) (h : Header) (cl : string) (n : Z) (body : string) :
  Header_lookup h "Transfer-Encoding" = [] ->
  Header_has h "Transfer-Encoding" = false ->
  Header_Del h "Transfer-Encoding" = h ->
  Header_lookup h "Content-Length" = [cl] ->
  parseContentLength [cl] = Ok n ->
  0 <= n ->
  let noBody := String.eqb method "HEAD" || negb (bodyAllowedForStatus code) in
  readTransfer code 1 1 method h body
  = Ok (mkTransfer h
          (if String.eqb method "HEAD" then n else if noBody then 0 else n)
          false
          (if noBody then "" else takeStr (Z.to_nat n) body)).
Proof.
  intros Hte Hhas Hdel Hcl Hparse Hn noBody. unfold readTransfer.
  rewrite Hhas, Hdel, Hcl, Hparse. cbn [negb]. fold noBody.
  destruct noBody; cbn [negb andb orb].
  - change (0 =? 0) with true. cbv iota. reflexivity.
  - destruct (String.eqb method "HEAD"); destruct (n =? 0) eqn:Hz.
    + apply Z.eqb_eq in Hz. subst n. reflexivity.
    + apply Z.eqb_neq in Hz. replace (0 <? n) with true by (symmetry; apply Z.ltb_lt; lia).
      reflexivity.
    + apply Z.eqb_eq in Hz. subst n. reflexivity.
    + apply Z.eqb_neq in Hz. replace (0 <? n) with true by (symmetry; apply Z.ltb_lt; lia).
      reflexivity.
Qed.

Lemma parseContentLength_Itoa (n : Z) :
  0 <= n <= maxInt64 -> parseContentLength [Itoa n] = Ok n.
Proof.
  intros Hn. destruct (Itoa_nonneg n ltac:(lia)) as (Hd & Hne & _).
  unfold parseContentLength.
  rewrite (TrimString_safe _ (digits_headerSafe _ Hd)), (ParseUint63_Itoa n Hn).
  destruct (Itoa n); [contradiction | reflexivity].
Qed.

Lemma takeStr_len (s : string) : takeStr (Z.to_nat (len s)) s = s.
Proof.
  unfold len. rewrite Nat2Z.id.
  induction s as [|c s IH]; cbn; [reflexivity | rewrite IH; reflexivity].
Qed.

(* ------------------------------------------------------------------ *)
(** ** Transport.RoundTrip *)

Lemma Header_Write_accepted (q id created : string) :
  headerSafe q = true -> headerSafe id = true -> headerSafe created = true ->
  Header_Write
    [ ("Content-Type", ["text/plain"]); ("Content-Length", ["0"]);
      ("SimpleMQ-Queue-Name", [q]); ("SimpleMQ-Message-ID", [id]);
      ("SimpleMQ-Message-Created", [created]) ]
  = renderLines
      [ ("Content-Length", "0"); ("Content-Type", "text/plain");
        ("SimpleMQ-Message-Created", created); ("SimpleMQ-Message-ID", id);
        ("SimpleMQ-Queue-Name", q) ].
Proof.
  intros Hq Hid Hc.
  change (Header_Write
            [ ("Content-Type", ["text/plain"]); ("Content-Length", ["0"]);
              ("SimpleMQ-Queue-Name", [q]); ("SimpleMQ-Message-ID", [id]);
              ("SimpleMQ-Message-Created", [created]) ])
    with ("Content-Length: 0" ++ CRLF ++ "Content-Type: text/plain" ++ CRLF
          ++ ("SimpleMQ-Message-Created" ++ ": "
              ++ TrimString (headerNewlineToSpace created) ++ CRLF)
          ++ ("SimpleMQ-Message-ID" ++ ": "
              ++ TrimString (headerNewlineToSpace id) ++ CRLF)
          ++ ("SimpleMQ-Queue-Name" ++ ": "
              ++ TrimString (headerNewlineToSpace q) ++ CRLF)).
  rewrite (headerSafe_written q Hq), (headerSafe_written id Hid),
    (headerSafe_written created Hc).
  cbn [renderLines]. rewrite !append_assoc. rewrite append_nil_r. reflexivity.
Qed.

Lemma Header_Write_rejected (q cl : string) :
  headerSafe q = true -> headerSafe cl = true ->
  Header_Write
    [ ("Content-Type", ["text/plain"]); ("Content-Length", [cl]);
      ("SimpleMQ-Queue-Name", [q]) ]
  = renderLines
      [ ("Content-Length", cl); ("Content-Type", "text/plain");
        ("SimpleMQ-Queue-Name", q) ].
Proof.
  intros Hq Hcl.
  change (Header_Write
            [ ("Content-Type", ["text/plain"]); ("Content-Length", [cl]);
              ("SimpleMQ-Queue-Name", [q]) ])
    with (("Content-Length" ++ ": " ++ TrimString (headerNewlineToSpace cl) ++ CRLF)
          ++ "Content-Type: text/plain" ++ CRLF
          ++ ("SimpleMQ-Queue-Name" ++ ": "
              ++ TrimString (headerNewlineToSpace q) ++ CRLF)).
  rewrite (headerSafe_written q Hq), (headerSafe_written cl Hcl).
  cbn [renderLines]. rewrite !append_assoc. rewrite append_nil_r. reflexivity.
Qed.

Section RoundTripFacts.

Variable E : Env.

(** C5, amended.  A serialization failure is returned as it is, nothing is
    sent.  Otherwise the payload is sent once, and, for a queue name that
    is a safe header value:
    - if the send succeeds (with an id and a creation time that print as
      safe header values), the result is a response with status 202, an
      empty body, and headers carrying the queue name, the id and the
      creation time;
    - if the send fails with an API error whose code is a three-digit
      number, the result is a response with that status, the content type
      text/plain, the queue name, and the error message as its body,
      except that the body is empty for a HEAD request and for a status
      that allows no body (1xx, 204, 304);
    - if the send fails with any other error, that error is returned. *)
Theorem round_trip_synthesizes_response (t : Transport) (r : Request) (w : World) :
  (forall e, Serialize (transportSerializer t) (Some r) = Err e ->
             RoundTrip E t r w = (Err e, w))
  /\
  (forall content,
     Serialize (transportSerializer t) (Some r) = Ok content ->
     headerSafe (transportQueue t) = true ->
     let w' := mkWorld (S (tick w)) (events w ++ [(tick w, CallSend content)])%list in
     let reply := SendMessage E (tick w) content in
     (forall m,
        reply = Ok m ->
        headerSafe (ID m) = true ->
        headerSafe (formatRFC3339 E (CreatedTime m)) = true ->
        exists resp,
          RoundTrip E t r w = (Ok resp, w')
          /\ StatusCode resp = 202 /\ RespBody resp = "" /\ ContentLength resp = 0
          /\ Header_Get (RespHeader resp) "SimpleMQ-Queue-Name" = transportQueue t
          /\ Header_Get (RespHeader resp) "SimpleMQ-Message-ID" = ID m
          /\ Header_Get (RespHeader resp) "SimpleMQ-Message-Created"
             = formatRFC3339 E (CreatedTime m))
     /\ (forall err code message,
           reply = Err err ->
           errors_As_APIError err = Some (code, message) ->
           100 <= code <= 999 ->
           len message <= maxInt64 ->
           exists resp,
             RoundTrip E t r w = (Ok resp, w')
             /\ StatusCode resp = code
             /\ RespBody resp
                = (if String.eqb (Method r) "HEAD" || negb (bodyAllowedForStatus code)
                   then "" else message)
             /\ Header_Get (RespHeader resp) "Content-Type" = "text/plain"
             /\ Header_Get (RespHeader resp) "SimpleMQ-Queue-Name" = transportQueue t)
     /\ (forall err,
           reply = Err err ->
           errors_As_APIError err = None ->
           RoundTrip E t r w = (Err err, w'))).
Proof.
  split.
  - intros e He. unfold RoundTrip. rewrite He. reflexivity.
  - intros content Hser Hq w' reply. unfold RoundTrip. rewrite Hser.
    unfold callSend, record. fold reply. fold w'.
    split; [|split].
    + intros m Hm Hid Hcreated. rewrite Hm.
      rewrite (Header_Write_accepted _ _ _ Hq Hid Hcreated).
      replace (statusLineOf StatusAccepted ++ renderLines _ ++ CRLF)
        with (statusLineOf 202
              ++ renderLines
                   [ ("Content-Length", "0"); ("Content-Type", "text/plain");
                     ("SimpleMQ-Message-Created", formatRFC3339 E (CreatedTime m));
                     ("SimpleMQ-Message-ID", ID m);
                     ("SimpleMQ-Queue-Name", transportQueue t) ]
              ++ CRLF ++ "")
        by (rewrite append_nil_r; reflexivity).
      rewrite ReadResponse_rendered.
      2:{ lia. }
      2:{ cbn [forallb]. unfold goodLine. cbn [fst snd]. rewrite Hq, Hid, Hcreated.
          reflexivity. }
      cbn [fst].
      rewrite (readTransfer_plain 202 (Method r) _ "0" 0 "");
        [| reflexivity | reflexivity | reflexivity | reflexivity | reflexivity | lia].
      eexists. split; [reflexivity|].
      cbn [StatusCode RespBody ContentLength RespHeader trHeader trLength trBody].
      split; [reflexivity|].
      split; [destruct (_ || _); reflexivity|].
      split; [destruct (String.eqb _ _); [|destruct (_ || _)]; reflexivity|].
      repeat split; reflexivity.
    + intros err code message Herr Has Hcode Hlen. rewrite Herr, Has.
      assert (Hn : 0 <= len message <= maxInt64) by (unfold len in *; lia).
      destruct (Itoa_nonneg (len message) ltac:(lia)) as (Hd & _ & _).
      rewrite (Header_Write_rejected _ _ Hq (digits_headerSafe _ Hd)).
      rewrite ReadResponse_rendered.
      2:{ exact Hcode. }
      2:{ cbn [forallb]. unfold goodLine. cbn [fst snd].
          rewrite Hq, (digits_headerSafe _ Hd). reflexivity. }
      cbn [fst].
      rewrite (readTransfer_plain code (Method r) _ (Itoa (len message)) (len message)
                 message);
        [| reflexivity | reflexivity | reflexivity | reflexivity
         | apply parseContentLength_Itoa; exact Hn | lia].
      eexists. split; [reflexivity|].
      cbn [StatusCode RespBody ContentLength RespHeader trHeader trLength trBody].
      split; [reflexivity|].
      split; [rewrite takeStr_len; reflexivity|].
      split; reflexivity.
    + intros err Herr Has. rewrite Herr, Has. reflexivity.
Qed.

End RoundTripFacts.

(** C5, as stated, fails for some structured errors.  (1) An API error
    whose code does not print as three digits, here 0 with an empty
    message (what an error body without these fields decodes to), yields
    no response: the status line that is built does not parse and
    RoundTrip returns that error.  (2) For a HEAD request the response
    read back has no body, whatever the error message. *)
Lemma round_trip_structured_error_counterexample :
  fst (RoundTrip (rejectQueue 0 "") (mkTransport "q1" None) samplePost startWorld)
    = Err (ErrOther "malformed HTTP status code")
  /\ option_map (fun resp => (StatusCode resp, RespBody resp))
       (match fst (RoundTrip (rejectQueue 401 "unauthorized") (mkTransport "q1" None)
                     sampleHead startWorld) with
        | Ok resp => Some resp
        | Err _ => None
        end)
     = Some (401, "").
Proof. split; vm_compute; reflexivity. Qed.

Lemma round_trip_synthesizes_response_witness :
  exists resp w',
    RoundTrip (rejectQueue 401 "unauthorized") (mkTransport "q1" None) samplePost startWorld
      = (Ok resp, w')
    /\ StatusCode resp = 401 /\ RespBody resp = "unauthorized"
    /\ Header_Get (RespHeader resp) "SimpleMQ-Queue-Name" = "q1".
Proof.
  destruct (round_trip_synthesizes_response (rejectQueue 401 "unauthorized")
              (mkTransport "q1" None) samplePost startWorld) as [_ H].
  destruct (H "aGVsbG8=") as (_ & Hrej & _).
  - vm_compute. reflexivity.
  - vm_compute. reflexivity.
  - destruct (Hrej (ErrAPI 401 "unauthorized") 401 "unauthorized")
      as (resp & Hrun & Hcode & Hbody & _ & Hq).
    + reflexivity.
    + reflexivity.
    + lia.
    + vm_compute. discriminate.
    + exists resp. eexists. split; [exact Hrun|].
      split; [exact Hcode|]. split; [exact Hbody | exact Hq].
Defined.

(* ================================================================== *)
(** * Further properties of the adapter *)

(** ** Conn.Read and Conn.Write *)

Lemma takeStr_dropStr (n : nat) (s : string) : takeStr n s ++ dropStr n s = s.
Proof.
  revert n. induction s as [|ch s IH]; intros [|n]; cbn; try reflexivity.
  rewrite IH. reflexivity.
Qed.

Lemma takeStr_length (n : nat) (s : string) :
  String.length (takeStr n s) = Nat.min n (String.length s).
Proof.
  revert n. induction s as [|ch s IH]; intros [|n]; cbn; try reflexivity.
  rewrite IH. reflexivity.
Qed.

(** X1. On a stream with no latched error and unread request bytes, a
    Read into a slice of length n returns the next min(n, unread) bytes,
    keeps the rest for later reads and touches nothing else; once a Read
    has taken the last byte, every further Read returns net.ErrClosed and
    changes nothing. *)
Theorem read_hands_out_request_bytes (n : nat) (c : Conn) :
  initErr c = None -> extendErr c = None -> reqBytes c <> "" ->
  exists s c',
    Read n c = (Ok s, c')
    /\ s ++ reqBytes c' = reqBytes c
    /\ String.length s = Nat.min n (String.length (reqBytes c))
    /\ c' = setReqBytes c (reqBytes c')
    /\ ((String.length (reqBytes c) <= n)%nat ->
        forall k, Read k c' = (Err ErrNetClosed, c')).
Proof.
  intros Hi He Hb.
  exists (takeStr n (reqBytes c)), (setReqBytes c (dropStr n (reqBytes c))).
  unfold Read. rewrite Hi, He, (isEmpty_false _ Hb).
  split; [reflexivity|]. cbn [reqBytes setReqBytes].
  split; [apply takeStr_dropStr|].
  split; [apply takeStr_length|].
  split; [reflexivity|].
  intros Hall k. cbn [initErr extendErr reqBytes setReqBytes].
  rewrite Hi, He, (dropStr_all _ _ Hall). reflexivity.
Qed.

Lemma read_hands_out_request_bytes_witness :
  exists s c',
    Read 4 (sampleConn 30000 "") = (Ok s, c')
    /\ s ++ reqBytes c' = reqBytes (sampleConn 30000 "")
    /\ String.length s = Nat.min 4 (String.length (reqBytes (sampleConn 30000 "")))
    /\ c' = setReqBytes (sampleConn 30000 "") (reqBytes c')
    /\ ((String.length (reqBytes (sampleConn 30000 "")) <= 4)%nat ->
        forall k, Read k c' = (Err ErrNetClosed, c')).
Proof.
  apply (read_hands_out_request_bytes 4 (sampleConn 30000 ""));
    vm_compute; congruence.
Defined.

(** X2. Two writes on a stream with no latched renewal error leave the
    response buffer holding what it held followed by the bytes of the
    first and then of the second write, report the lengths written, and
    change nothing else: what Close parses is the concatenation of the
    writes. *)
Theorem writes_accumulate (a b : string) (c : Conn) :
  extendErr c = None ->
  exists c1 c2,
    Write a c = (Ok (len a), c1)
    /\ Write b c1 = (Ok (len b), c2)
    /\ respBuffer c2 = respBuffer c ++ a ++ b
    /\ c2 = setRespBuffer c (respBuffer c2).
Proof.
  intros He.
  assert (Hnil : forall s, s ++ "" = s).
  { induction s as [|ch s IH]; cbn; [reflexivity | rewrite IH; reflexivity]. }
  assert (Hassoc : forall s t u : string, (s ++ t) ++ u = s ++ t ++ u).
  { induction s as [|ch s IH]; intros t u; cbn; [reflexivity | rewrite IH; reflexivity]. }
  unfold Write. rewrite He.
  destruct a as [|x a]; destruct b as [|y b]; cbn [isEmpty].
  - exists c, c. rewrite He. cbn. rewrite Hnil. destruct c; repeat split.
  - exists c, (setRespBuffer c (respBuffer c ++ String y b)). rewrite He.
    repeat split.
  - exists (setRespBuffer c (respBuffer c ++ String x a)),
           (setRespBuffer c (respBuffer c ++ String x a)).
    cbn [extendErr setRespBuffer]. rewrite He. cbn [respBuffer]. rewrite Hnil.
    repeat split.
  - exists (setRespBuffer c (respBuffer c ++ String x a)),
           (setRespBuffer c (respBuffer c ++ String x a ++ String y b)).
    cbn [extendErr setRespBuffer respBuffer]. rewrite He. rewrite Hassoc.
    repeat split.
Qed.

Lemma writes_accumulate_witness :
  exists c1 c2,
    Write "HTTP/1.1 " (sampleConn 30000 "") = (Ok (len "HTTP/1.1 "), c1)
    /\ Write "200 OK" c1 = (Ok (len "200 OK"), c2)
    /\ respBuffer c2 = respBuffer (sampleConn 30000 "") ++ "HTTP/1.1 " ++ "200 OK"
    /\ c2 = setRespBuffer (sampleConn 30000 "") (respBuffer c2).
Proof.
  apply (writes_accumulate "HTTP/1.1 " "200 OK" (sampleConn 30000 "")).
  vm_compute. reflexivity.
Defined.

(** ** The renewal of the lease in the background *)

(** X3. When a renewal is answered with an error that is not a
    cancellation, the error is latched and the renewal stops: the lease
    held locally is unchanged, every later Write and every later Read (of a
    stream that initialised) fails with that error wrapped as
    "failed to extend visibility timeout" and changes nothing, and a
    further firing of the timer does nothing. *)
Theorem renewal_failure_is_latched (E : Env) (c : Conn) (w : World) (e : error) :
  renewing c = true ->
  ExtendVisibilityTimeout E (tick w) (ID (msg c)) = Err e ->
  errors_Is_Canceled e = false ->
  exists c',
    renewalFire E c w = (c', mkWorld (S (tick w))
                               (events w ++ [(tick w, CallExtend (ID (msg c)))])%list)
    /\ extendErr c' = Some e /\ renewing c' = false /\ msg c' = msg c
    /\ (forall b, Write b c' =
          (Err (ErrWrap "failed to extend visibility timeout" e), c'))
    /\ (forall n, initErr c = None ->
          Read n c' = (Err (ErrWrap "failed to extend visibility timeout" e), c'))
    /\ (forall w2, renewalFire E c' w2 = (c', w2)).
Proof.
  intros Hr He Hc.
  exists (setRenewal (setExtendErr c (Some e)) (extendCancel c) false).
  unfold renewalFire at 1. rewrite Hr. unfold callExtend, record. rewrite He, Hc.
  split; [reflexivity|]. split; [reflexivity|]. split; [reflexivity|].
  split; [reflexivity|]. split; [intros b; reflexivity|].
  split.
  - intros n Hi. unfold Read. cbn [initErr setRenewal setExtendErr extendErr].
    rewrite Hi. reflexivity.
  - intros w2. reflexivity.
Qed.

Lemma renewal_failure_is_latched_witness :
  exists c',
    renewalFire (failingQueue (ErrAPI 409 "Message is already acquired"))
      (sampleConn 30000 "") startWorld
    = (c', mkWorld 1 [(0%nat, CallExtend "m1")])
    /\ extendErr c' = Some (ErrAPI 409 "Message is already acquired")
    /\ (forall b, Write b c' =
          (Err (ErrWrap "failed to extend visibility timeout"
                  (ErrAPI 409 "Message is already acquired")), c')).
Proof.
  destruct (renewal_failure_is_latched
              (failingQueue (ErrAPI 409 "Message is already acquired"))
              (sampleConn 30000 "") startWorld
              (ErrAPI 409 "Message is already acquired"))
    as (c' & Hrun & Herr & _ & _ & Hw & _); try reflexivity.
  exists c'. split; [exact Hrun|]. split; [exact Herr | exact Hw].
Defined.

(** X4. A renewal that succeeds, or that is answered with a cancellation,
    latches no error: Read and Write go on as before.  After a success the
    stream holds the deadline the queue returned, with the identifier and
    the content of its message unchanged, and the renewal goes on; after a
    cancellation the lease is unchanged and the renewal has stopped. *)
Theorem renewal_without_failure_keeps_stream (E : Env) (c : Conn) (w : World) :
  renewing c = true ->
  match ExtendVisibilityTimeout E (tick w) (ID (msg c)) with
  | Ok _ => True
  | Err e => errors_Is_Canceled e = true
  end ->
  let c' := fst (renewalFire E c w) in
  extendErr c' = extendErr c
  /\ (forall b, fst (Write b c') = fst (Write b c))
  /\ (forall n, fst (Read n c') = fst (Read n c))
  /\ ID (msg c') = ID (msg c) /\ Content (msg c') = Content (msg c)
  /\ match ExtendVisibilityTimeout E (tick w) (ID (msg c)) with
     | Ok m => VisibilityTimeoutAt (msg c') = VisibilityTimeoutAt m
               /\ renewing c' = true
     | Err _ => msg c' = msg c /\ renewing c' = false
     end.
Proof.
  intros Hr Hans. unfold renewalFire. rewrite Hr. unfold callExtend.
  destruct (ExtendVisibilityTimeout E (tick w) (ID (msg c))) as [m|e].
  - cbn [fst]. unfold Read, Write.
    cbn [setMsg extendErr initErr reqBytes msg withVisibilityTimeoutAt ID Content
         VisibilityTimeoutAt renewing].
    split; [reflexivity|]. split.
    + intros b. destruct (extendErr c); [reflexivity|].
      destruct (isEmpty b); reflexivity.
    + split.
      * intros n. destruct (initErr c); [reflexivity|].
        destruct (extendErr c); [reflexivity|].
        destruct (isEmpty (reqBytes c)); reflexivity.
      * repeat split; assumption.
  - rewrite Hans. cbn [fst]. unfold Read, Write.
    cbn [setRenewal extendErr initErr reqBytes msg renewing].
    split; [reflexivity|]. split.
    + intros b. destruct (extendErr c); [reflexivity|].
      destruct (isEmpty b); reflexivity.
    + split.
      * intros n. destruct (initErr c); [reflexivity|].
        destruct (extendErr c); [reflexivity|].
        destruct (isEmpty (reqBytes c)); reflexivity.
      * repeat split.
Qed.

Lemma renewal_without_failure_keeps_stream_witness :
  let c := sampleConn 30000 "" in
  let c' := fst (renewalFire sampleQueue c startWorld) in
  extendErr c' = extendErr c
  /\ (forall b, fst (Write b c') = fst (Write b c))
  /\ (forall n, fst (Read n c') = fst (Read n c))
  /\ ID (msg c') = ID (msg c) /\ Content (msg c') = Content (msg c)
  /\ match ExtendVisibilityTimeout sampleQueue (tick startWorld) (ID (msg c)) with
     | Ok m => VisibilityTimeoutAt (msg c') = VisibilityTimeoutAt m
               /\ renewing c' = true
     | Err _ => msg c' = msg c /\ renewing c' = false
     end.
Proof.
  apply (renewal_without_failure_keeps_stream sampleQueue (sampleConn 30000 "")
           startWorld).
  - reflexivity.
  - exact I.
Defined.

(** ** What Close does and never does *)

Section CloseCalls.

Variable E : Env.
Variable readResponse : string -> option Request -> result Response * string.

(** The log of the Retry-After loop, whatever the bound. *)
Lemma retryAfterLoop_log (bound : Z) :
  forall (fuel : nat) (c c' : Conn) (w w' : World),
  retryAfterLoop E fuel bound c w = Some (c', w') ->
  exists k : nat,
    events w' = (events w ++ callsEvery 2 (CallExtend (ID (msg c))) (S (tick w)) k)%list
    /\ ID (msg c') = ID (msg c).
Proof.
  induction fuel as [|fuel IH]; intros c c' w w' H; [discriminate|].
  cbn [retryAfterLoop] in H. unfold Now, callExtend, record in H. cbn [tick events] in H.
  destruct (_ <? bound).
  - destruct (ExtendVisibilityTimeout E _ _) as [m|e].
    + apply IH in H. destruct H as (k & Hev & Hid). exists (S k).
      cbn [events tick setMsg msg withVisibilityTimeoutAt ID] in Hev, Hid.
      rewrite Hev, <- app_assoc. cbn [callsEvery app Nat.add].
      split; [reflexivity | exact Hid].
    + injection H as <- <-. exists 1%nat. cbn [events callsEvery].
      split; reflexivity.
  - injection H as <- <-. exists 0%nat. cbn [events callsEvery].
    rewrite app_nil_r. split; reflexivity.
Qed.

Lemma callsEvery_only (gap : nat) (ev : Event) (P : nat * Event -> Prop) :
  (forall t, P (t, ev)) -> forall t k, Forall P (callsEvery gap ev t k).
Proof.
  intros HP t k. revert t. induction k as [|k IH]; intros t; cbn; constructor.
  - apply HP.
  - apply IH.
Qed.

Lemma stopEvents_own (id : string) (c : Conn) (w : World) :
  Forall (ownCall id) (stopEvents c w).
Proof.
  unfold stopEvents. destruct (extendCancel c); repeat constructor.
Qed.

(** X5. Whatever Close is given and however it ends, every call it makes
    to the queue is a delete or an extend for the message of the stream:
    it never sends and never polls.  It makes no delete, or exactly one
    and then no extend; and it makes that delete only when the buffered
    response parsed, the observer accepted it and its status is from 200
    to 299.  The stream stays bound to the same message. *)
Theorem close_touches_only_its_message
  (fuel : nat) (c c' : Conn) (w w' : World) (r : option error) :
  Close E readResponse fuel c w = Some (r, c', w') ->
  exists new,
    events w' = (events w ++ new)%list
    /\ Forall (ownCall (ID (msg c))) new
    /\ ID (msg c') = ID (msg c)
    /\ (deleteCalls new = []
        \/ (deleteCalls new = [CallDelete (ID (msg c))]
            /\ extendCalls new = []
            /\ exists resp,
                 fst (readResponse (respBuffer c) (req c)) = Ok resp
                 /\ 200 <= StatusCode resp <= 299
                 /\ fst (observe c resp) = None)).
Proof.
  intros H.
  destruct (isEmpty (respBuffer c)) eqn:Hemp.
  - destruct (Close_empty E readResponse fuel c w (isEmpty_true _ Hemp))
      as (c2 & Hrun & _).
    rewrite Hrun in H. inversion H; subst. clear H.
    exists (stopEvents c w). cbn [events].
    split; [reflexivity|]. split; [apply stopEvents_own|].
    split.
    + revert Hrun. unfold Close, stopRenewal.
      destruct (extendCancel c); cbn [respBuffer setRenewal]; rewrite Hemp;
        intros Hrun; inversion Hrun; reflexivity.
    + left. apply filter_isDelete_stop.
  - assert (Hne : respBuffer c <> "") by (intros Heq; rewrite Heq in Hemp; discriminate).
    destruct (readResponse (respBuffer c) (req c)) as [[resp|e] rest] eqn:Hparse.
    + destruct (Close_parsed E readResponse fuel c w resp rest Hne Hparse)
        as (c0 & Hc0 & Hrun).
      rewrite Hrun in H. clear Hrun. cbn zeta in H.
      assert (Hid0 : ID (msg c0) = ID (msg c))
        by (rewrite Hc0; destruct (extendCancel c); reflexivity).
      destruct (observe c resp) as [[eo|] resp1] eqn:Hobs; cbn [fst snd] in H.
      { inversion H; subst c' w' r. exists (stopEvents c w). cbn [events].
        split; [reflexivity|]. split; [apply stopEvents_own|].
        split; [exact Hid0|]. left. apply filter_isDelete_stop. }
      destruct ((200 <=? StatusCode resp) && (StatusCode resp <? 300)) eqn:Hcode.
      { unfold callDelete, record in H. cbn [tick events] in H.
        apply andb_true_iff in Hcode. destruct Hcode as [Hlo Hhi].
        apply Z.leb_le in Hlo. apply Z.ltb_lt in Hhi.
        exists (stopEvents c w ++ [(tick w, CallDelete (ID (msg c)))])%list.
        assert (Hev : events w' =
                      (events w ++ stopEvents c w ++ [(tick w, CallDelete (ID (msg c)))])%list
                      /\ c' = c0).
        { destruct (DeleteMessage E (tick w) (ID (msg c)));
            inversion H; subst; cbn [events]; rewrite <- app_assoc; split; reflexivity. }
        destruct Hev as [Hev ->].
        split; [exact Hev|].
        split.
        { apply Forall_app. split; [apply stopEvents_own|].
          constructor; [right; left; reflexivity | constructor]. }
        split; [exact Hid0|].
        right. unfold deleteCalls, extendCalls, stopEvents.
        destruct (extendCancel c); cbn; (split; [reflexivity|]); (split; [reflexivity|]);
          exists resp; (split; [reflexivity|]);
          (split; [lia | rewrite Hobs; reflexivity]). }
      destruct (isEmpty (Header_Get (RespHeader resp1) "Retry-After")).
      { inversion H; subst c' w' r. exists (stopEvents c w). cbn [events].
        split; [reflexivity|]. split; [apply stopEvents_own|].
        split; [exact Hid0|]. left. apply filter_isDelete_stop. }
      destruct (Atoi (Header_Get (RespHeader resp1) "Retry-After")) as [seconds|].
      2:{ inversion H; subst c' w' r. exists (stopEvents c w). cbn [events].
          split; [reflexivity|]. split; [apply stopEvents_own|].
          split; [exact Hid0|]. left. apply filter_isDelete_stop. }
      destruct (retryAfterLoop E fuel (wrap64 (seconds * Second)) c0
                  (mkWorld (tick w) (events w ++ stopEvents c w)%list))
        as [[c1 w1]|] eqn:Hloop; [|discriminate].
      inversion H; subst c' w' r.
      apply retryAfterLoop_log in Hloop. destruct Hloop as (k & Hev & Hid).
      cbn [events tick] in Hev. rewrite Hid0 in Hev.
      exists (stopEvents c w ++ callsEvery 2 (CallExtend (ID (msg c))) (S (tick w)) k)%list.
      split; [rewrite Hev, app_assoc; reflexivity|].
      split.
      { apply Forall_app. split; [apply stopEvents_own|].
        apply callsEvery_only. intros t. right; right; reflexivity. }
      split; [congruence|].
      left. unfold deleteCalls. rewrite map_app, filter_app.
      destruct (filter_isDelete_stop c w) as [Hd _]. unfold deleteCalls in Hd.
      rewrite Hd. cbn [app].
      exact (proj2 (callsEvery_calls 2 (ID (msg c)) (S (tick w)) k)).
    + revert H. unfold Close, stopRenewal.
      destruct (extendCancel c); cbn [respBuffer setRenewal req];
        rewrite Hemp, Hparse; intros H; inversion H; subst.
      * exists [(tick w, CancelRenewal)]. cbn [events].
        split; [reflexivity|].
        split; [repeat constructor|]. split; [reflexivity|]. left. reflexivity.
      * exists []. rewrite app_nil_r.
        split; [reflexivity|]. split; [constructor|]. split; [reflexivity|].
        left. reflexivity.
Qed.

(** X6. Close on a buffered response that does not parse returns the
    parse error wrapped as "failed to serialize response"; on a response
    accepted by the observer whose status is outside 200 to 299 and whose
    Retry-After header, read when the observer has run (the observer is
    handed the response and may set or remove the header), is absent or is
    not a decimal integer (an HTTP date, say) it returns nil.  In both
    cases it makes no call to the queue and the lease is left as it is. *)
Theorem close_leaves_message_to_expire (fuel : nat) (c : Conn) (w : World) :
  respBuffer c <> "" ->
  match fst (readResponse (respBuffer c) (req c)) with
  | Err _ => True
  | Ok resp =>
      fst (observe c resp) = None
      /\ ~ (200 <= StatusCode resp <= 299)
      /\ Atoi (Header_Get (RespHeader (snd (observe c resp))) "Retry-After") = None
  end ->
  exists c',
    Close E readResponse fuel c w =
      Some (match fst (readResponse (respBuffer c) (req c)) with
            | Err e => Some (ErrWrap "failed to serialize response" e)
            | Ok _ => None
            end, c', mkWorld (tick w) (events w ++ stopEvents c w)%list)
    /\ msg c' = msg c
    /\ deleteCalls (stopEvents c w) = [] /\ extendCalls (stopEvents c w) = [].
Proof.
  intros Hne Hcase.
  destruct (readResponse (respBuffer c) (req c)) as [[resp|e] rest] eqn:Hparse;
    cbn [fst] in *.
  - destruct Hcase as (Hobs & Hcode & Hatoi).
    destruct (Close_parsed E readResponse fuel c w resp rest Hne Hparse)
      as (c0 & Hc0 & ->).
    cbn zeta. rewrite Hobs.
    replace ((200 <=? StatusCode resp) && (StatusCode resp <? 300)) with false.
    2:{ symmetry. apply andb_false_iff.
        destruct (Z.leb_spec 200 (StatusCode resp)); [|left; reflexivity].
        right. apply Z.ltb_ge. lia. }
    exists c0. rewrite Hatoi.
    split; [destruct (isEmpty _); reflexivity|].
    split; [rewrite Hc0; destruct (extendCancel c); reflexivity|].
    apply filter_isDelete_stop.
  - exists (setRespBuffer (if extendCancel c then setRenewal c true false else c) rest).
    split; [|split; [destruct (extendCancel c); reflexivity | apply filter_isDelete_stop]].
    unfold Close, stopRenewal, stopEvents.
    destruct (extendCancel c); cbn [respBuffer setRenewal req];
      rewrite (isEmpty_false _ Hne), Hparse.
    + reflexivity.
    + destruct w as [t evs]; cbn [tick events]. rewrite app_nil_r. reflexivity.
Qed.

End CloseCalls.

Lemma close_touches_only_its_message_witness :
  exists r c' w',
    Close sampleQueue ReadResponseBuffered 5 (sampleConn 3000 (response503 "10")) startWorld
      = Some (r, c', w')
    /\ exists new,
         events w' = (events startWorld ++ new)%list
         /\ Forall (ownCall "m1") new
         /\ ID (msg c') = "m1"
         /\ (deleteCalls new = []
             \/ (deleteCalls new = [CallDelete "m1"]
                 /\ extendCalls new = []
                 /\ exists resp,
                      fst (ReadResponseBuffered
                             (respBuffer (sampleConn 3000 (response503 "10")))
                             (req (sampleConn 3000 (response503 "10")))) = Ok resp
                      /\ 200 <= StatusCode resp <= 299
                      /\ fst (observe (sampleConn 3000 (response503 "10")) resp) = None)).
Proof.
  destruct (Close sampleQueue ReadResponseBuffered 5 (sampleConn 3000 (response503 "10"))
              startWorld) as [[[r c'] w']|] eqn:Hrun; [|vm_compute in Hrun; discriminate].
  exists r, c', w'. split; [reflexivity|].
  exact (close_touches_only_its_message sampleQueue ReadResponseBuffered 5
           (sampleConn 3000 (response503 "10")) c' startWorld w' r Hrun).
Defined.

Lemma close_leaves_message_to_expire_witness :
  exists c',
    Close sampleQueue ReadResponseBuffered 0
      (setRespHandler (sampleConn 3000 (response503 "10")) (Some dropRetryAfter))
      startWorld =
      Some (None, c', mkWorld 0 [(0%nat, CancelRenewal)])
    /\ msg c' = sampleMessage 3000.
Proof.
  destruct (close_leaves_message_to_expire sampleQueue ReadResponseBuffered 0
              (setRespHandler (sampleConn 3000 (response503 "10")) (Some dropRetryAfter))
              startWorld)
    as (c' & Hrun & Hmsg & _).
  - vm_compute. discriminate.
  - vm_compute. split; [reflexivity|]. split; [|reflexivity].
    intros [_ H]. apply H. reflexivity.
  - exists c'. split; [exact Hrun | exact Hmsg].
Defined.

(** The header Close reads is the one the observer leaves: a response
    without Retry-After on which the observer sets Retry-After: 10 makes
    Close extend the lease, and a response with Retry-After: 10 from which
    the observer removes it makes Close call nothing. *)
Example close_reads_header_after_observer :
  option_map (fun x => extendCalls (events (snd x)))
    (Close sampleQueue ReadResponseBuffered 5
       (setRespHandler (sampleConn 3000 response503Plain) (Some (putRetryAfter "10")))
       startWorld)
  = Some [CallExtend "m1"]
  /\ option_map (fun x => extendCalls (events (snd x)))
       (Close sampleQueue ReadResponseBuffered 5
          (setRespHandler (sampleConn 3000 (response503 "10")) (Some dropRetryAfter))
          startWorld)
     = Some [].
Proof. split; vm_compute; reflexivity. Qed.

(** ** The listener: the buffer, failed polls, streams that do not
       initialise *)

Section AcceptEdges.

Variable E : Env.
Variable Request_Write : Request -> result string * option Reader.
Variable readResponse : string -> option Request -> result Response * string.

(** The fields of a new stream that init does not depend on. *)
Lemma newConn_fields (a q : string) (m : Message) (s : Serializer) :
  let c := newConn E Request_Write a m s q in
  addr c = a /\ clientQueue c = q /\ serializer c = s /\ respHandler c = None
  /\ respBuffer c = "" /\ extendErr c = None /\ extendCancel c = true.
Proof.
  unfold newConn, init. cbn [serializer setRenewal msg].
  destruct (Deserialize s (Content m)); [|repeat split].
  cbn. destruct (Request_Write _) as [[bytes|e] unread]; repeat split.
Qed.

Lemma acceptedConn_fields (l : Listener) (m : Message) :
  let c := acceptedConn E Request_Write l m in
  msg c = m /\ addr c = listenerQueue l /\ clientQueue c = listenerQueue l
  /\ serializer c = listenerSerializer l
  /\ respHandler c = ListenerResponseHandler l
  /\ respBuffer c = "" /\ extendErr c = None /\ extendCancel c = true.
Proof.
  unfold acceptedConn.
  pose proof (newConn_fields (listenerQueue l) (listenerQueue l) m (listenerSerializer l))
    as (Ha & Hq & Hs & Hh & Hb & He & Hc).
  pose proof (msg_newConn E Request_Write (listenerQueue l) (listenerQueue l) m
                (listenerSerializer l)) as Hm.
  destruct (ListenerResponseHandler l); cbn [setRespHandler msg addr clientQueue
    serializer respHandler respBuffer extendErr extendCancel];
    repeat split; assumption.
Qed.

Lemma setAccepted_same (l : Listener) :
  setAccepted l (acceptedMessages l) = l.
Proof. destruct l; reflexivity. Qed.

(** Polls that deliver nothing, then one that fails. *)
Lemma accept_empty_polls (l : Listener) (e : error) :
  acceptedMessages l = [] ->
  forall (k fuel : nat) (w : World),
  (forall j, (j < k)%nat -> ReceiveMessages E (tick w + j) = Ok []) ->
  ReceiveMessages E (tick w + k) = Err e ->
  (k < fuel)%nat ->
  accept E fuel l w =
    Some (Err e, l,
          mkWorld (S (tick w + k))
            (events w ++ callsEvery 1 CallReceive (tick w) (S k))%list).
Proof.
  intros Hb. induction k as [|k IH]; intros fuel w Hempty Hfail Hfuel.
  - destruct fuel as [|fuel]; [lia|].
    cbn [accept]. rewrite Hb. unfold callReceive, record.
    rewrite Nat.add_0_r in Hfail. rewrite Hfail, Nat.add_0_r. reflexivity.
  - destruct fuel as [|fuel]; [lia|].
    cbn [accept]. rewrite Hb. unfold callReceive, record.
    rewrite <- (Nat.add_0_r (tick w)) at 1. rewrite (Hempty 0%nat) by lia.
    cbn [app]. rewrite <- Hb, setAccepted_same.
    rewrite (IH fuel (mkWorld (S (tick w)) (events w ++ [(tick w, CallReceive)])%list)).
    + cbn [tick events]. rewrite <- app_assoc. cbn [app callsEvery Nat.add].
      rewrite Nat.add_succ_r. reflexivity.
    + intros j Hj. cbn [tick]. rewrite Nat.add_succ_l, <- Nat.add_succ_r.
      apply Hempty. lia.
    + cbn [tick]. rewrite Nat.add_succ_l, <- Nat.add_succ_r. exact Hfail.
    + lia.
Qed.

(** X7. Accept on an empty buffer, when the polls deliver nothing until
    one of them fails: Accept returns no stream, and its error is
    net.ErrClosed when the failure is (or wraps) a cancellation of the
    context and the failure itself otherwise.  The listener is unchanged
    and the polls are the only calls made. *)
Theorem accept_poll_failure
  (k fuel : nat) (l : Listener) (w : World) (e : error) :
  acceptedMessages l = [] ->
  (forall j, (j < k)%nat -> ReceiveMessages E (tick w + j) = Ok []) ->
  ReceiveMessages E (tick w + k) = Err e ->
  (k < fuel)%nat ->
  Accept E Request_Write fuel l w =
    Some (Err (if errors_Is_Canceled e then ErrNetClosed else e), l,
          mkWorld (S (tick w + k))
            (events w ++ callsEvery 1 CallReceive (tick w) (S k))%list).
Proof.
  intros Hb Hempty Hfail Hfuel.
  destruct fuel as [|fuel]; [lia|].
  cbn [Accept].
  rewrite (accept_empty_polls l e Hb k (S fuel) w Hempty Hfail Hfuel).
  destruct (errors_Is_Canceled e); reflexivity.
Qed.

(** X8. Accept serves the buffer before it polls.  When the first
    buffered message has a lease that is still running, Accept returns a
    stream bound to it without any call to the queue: the stream has the
    queue name as its address, the serializer and the observer of the
    listener, an empty response buffer and no latched renewal error; the
    message leaves the buffer.  When its lease is over the message is
    dropped, again without any call, and Accept goes on with the rest. *)
Theorem accept_serves_buffer_first
  (fuel : nat) (l : Listener) (w : World) (m : Message) (rest : list Message) :
  acceptedMessages l = m :: rest ->
  (wallClock E (tick w) < VisibilityTimeoutTime m ->
    exists c,
     Accept E Request_Write (S fuel) l w =
       Some (Ok c, setAccepted l rest, mkWorld (S (tick w)) (events w))
     /\ msg c = m /\ addr c = listenerQueue l /\ clientQueue c = listenerQueue l
     /\ serializer c = listenerSerializer l
     /\ respHandler c = ListenerResponseHandler l
     /\ respBuffer c = "" /\ extendErr c = None)
  /\ (VisibilityTimeoutTime m <= wallClock E (tick w) ->
      Accept E Request_Write (S fuel) l w =
        Accept E Request_Write fuel (setAccepted l rest)
          (mkWorld (S (tick w)) (events w))).
Proof.
  intros Hb. split; intros Hlease.
  - exists (acceptedConn E Request_Write (setAccepted l rest) m).
    split.
    + cbn [Accept accept]. rewrite Hb. unfold Now. rewrite Until_nonpos.
      replace (VisibilityTimeoutTime m <=? wallClock E (tick w)) with false
        by (symmetry; apply Z.leb_gt; exact Hlease).
      reflexivity.
    + pose proof (acceptedConn_fields (setAccepted l rest) m) as H.
      cbn zeta in H. destruct H as (Hm & Ha & Hq & Hs & Hh & Hbuf & He & _).
      repeat split; assumption.
  - cbn [Accept accept]. rewrite Hb. unfold Now. rewrite Until_nonpos.
    replace (VisibilityTimeoutTime m <=? wallClock E (tick w)) with true
      by (symmetry; apply Z.leb_le; exact Hlease).
    reflexivity.
Qed.

(** X9. A message whose content the serializer cannot turn into a
    request still yields a stream: no renewal is started for it, every
    Read returns the serializer's error wrapped as
    "failed to initialize connection" and changes nothing, and a Close
    returns nil and makes no call, so that the message stays in the queue
    until its lease runs out. *)
Theorem undecodable_message_stream
  (a q : string) (m : Message) (s : Serializer) (e : error) :
  Deserialize s (Content m) = Err e ->
  let c := newConn E Request_Write a m s q in
  initErr c = Some e /\ renewing c = false /\ req c = None /\ reqBytes c = ""
  /\ (forall n, Read n c = (Err (ErrWrap "failed to initialize connection" e), c))
  /\ (forall fuel w,
        Close E readResponse fuel c w =
          Some (None, c, mkWorld (tick w) (events w ++ [(tick w, CancelRenewal)])%list)).
Proof.
  intros Hd. unfold newConn, init. cbn [serializer setRenewal msg]. rewrite Hd.
  cbn zeta. repeat split.
Qed.

(** X10. The way of a request through the listener: when the first
    buffered message has a running lease, the stream Accept returns for
    it, once a response has been written to it that parses with a status
    from 200 to 299 and that the observer accepts, makes on Close exactly
    one delete call, for the identifier of that message, and no extend
    call. *)
Theorem accepted_stream_acknowledges_its_message
  (fuel fuel' : nat) (l : Listener) (w : World) (m : Message) (rest : list Message)
  (text : string) (resp : Response) (left : string) :
  acceptedMessages l = m :: rest ->
  wallClock E (tick w) < VisibilityTimeoutTime m ->
  text <> "" ->
  readResponse text (req (acceptedConn E Request_Write l m)) = (Ok resp, left) ->
  200 <= StatusCode resp <= 299 ->
  (forall h, ListenerResponseHandler l = Some h ->
             fst (h resp (req (acceptedConn E Request_Write l m))) = None) ->
  exists c l' w1 c1 c2 w2 err,
    Accept E Request_Write (S fuel) l w = Some (Ok c, l', w1)
    /\ Write text c = (Ok (len text), c1)
    /\ Close E readResponse fuel' c1 w1 = Some (err, c2, w2)
    /\ deleteCalls (skipn (List.length (events w)) (events w2)) = [CallDelete (ID m)]
    /\ extendCalls (skipn (List.length (events w)) (events w2)) = []
    /\ (DeleteMessage E (tick w1) (ID m) = None -> err = None).
Proof.
  intros Hb Hlease Hne Hparse Hcode Hobs.
  pose proof (acceptedConn_fields (setAccepted l rest) m) as H.
  cbn zeta in H. destruct H as (Hm & _ & _ & _ & Hh & Hbuf & He & Hcan).
  set (c := acceptedConn E Request_Write (setAccepted l rest) m) in *.
  set (c1 := setRespBuffer c (respBuffer c ++ text)).
  assert (Hreq : req c = req (acceptedConn E Request_Write l m)).
  { unfold c, acceptedConn. cbn [setAccepted listenerQueue ListenerResponseHandler].
    unfold listenerSerializer. cbn [ListenerSerializer].
    destruct (ListenerResponseHandler l); reflexivity. }
  assert (Hacc : Accept E Request_Write (S fuel) l w =
                 Some (Ok c, setAccepted l rest, mkWorld (S (tick w)) (events w))).
  { cbn [Accept accept]. rewrite Hb. unfold Now. rewrite Until_nonpos.
    replace (VisibilityTimeoutTime m <=? wallClock E (tick w)) with false
      by (symmetry; apply Z.leb_gt; exact Hlease).
    reflexivity. }
  assert (Hw : Write text c = (Ok (len text), c1)).
  { unfold Write. rewrite He, (isEmpty_false _ Hne). reflexivity. }
  assert (Hb1 : respBuffer c1 = text) by (unfold c1; cbn; rewrite Hbuf; reflexivity).
  assert (Hid : ID (msg c1) = ID m) by (unfold c1; cbn; rewrite Hm; reflexivity).
  assert (Hstop : stopEvents c1 (mkWorld (S (tick w)) (events w))
                  = [(S (tick w), CancelRenewal)]).
  { unfold stopEvents, c1. cbn [extendCancel setRespBuffer]. rewrite Hcan. reflexivity. }
  assert (Hobs1 : fst (observe c1 resp) = None).
  { unfold observe. cbn [c1 respHandler setRespBuffer req]. rewrite Hh.
    cbn [ListenerResponseHandler setAccepted].
    destruct (ListenerResponseHandler l) as [h|] eqn:Hl; [|reflexivity].
    rewrite Hreq. apply (Hobs h eq_refl). }
  destruct (Close_parsed E readResponse fuel' c1 (mkWorld (S (tick w)) (events w))
              resp left) as (c2 & _ & Hrun).
  - rewrite Hb1. exact Hne.
  - rewrite Hb1. cbn [c1 req setRespBuffer]. rewrite Hreq. exact Hparse.
  - cbn zeta in Hrun. rewrite Hobs1, Hstop, Hid in Hrun.
    replace ((200 <=? StatusCode resp) && (StatusCode resp <? 300)) with true in Hrun
      by (symmetry; apply andb_true_iff; split; [apply Z.leb_le | apply Z.ltb_lt]; lia).
    unfold callDelete, record in Hrun. cbn [tick events] in Hrun.
    exists c, (setAccepted l rest), (mkWorld (S (tick w)) (events w)), c1, c2.
    exists (mkWorld (S (S (tick w)))
              ((events w ++ [(S (tick w), CancelRenewal)])
               ++ [(S (tick w), CallDelete (ID m))])%list).
    exists (match DeleteMessage E (S (tick w)) (ID m) with
            | Some e => Some (ErrWrap "failed to delete message" e)
            | None => None
            end).
    split; [exact Hacc|]. split; [exact Hw|].
    split; [rewrite Hrun; destruct (DeleteMessage E (S (tick w)) (ID m)); reflexivity|].
    cbn [events tick]. rewrite <- app_assoc, skipn_app, skipn_all, Nat.sub_diag.
    cbn [skipn app]. split; [reflexivity|]. split; [reflexivity|].
    intros ->. reflexivity.
Qed.

End AcceptEdges.

Lemma accept_poll_failure_witness :
  Accept (failingQueue (ErrWrap "request failed" ErrContextCanceled)) sampleRequestWrite
    1 sampleListener startWorld
  = Some (Err ErrNetClosed, sampleListener, mkWorld 1 [(0%nat, CallReceive)]).
Proof.
  apply (accept_poll_failure
           (failingQueue (ErrWrap "request failed" ErrContextCanceled))
           sampleRequestWrite 0 1 sampleListener startWorld
           (ErrWrap "request failed" ErrContextCanceled)).
  - reflexivity.
  - intros j Hj. lia.
  - reflexivity.
  - lia.
Defined.

Lemma accept_serves_buffer_first_witness :
  exists c,
    Accept sampleQueue sampleRequestWrite 1 (bufferedListener 30000) startWorld =
      Some (Ok c, setAccepted (bufferedListener 30000) [], mkWorld 1 [])
    /\ msg c = sampleMessage 30000 /\ addr c = "q1".
Proof.
  destruct (accept_serves_buffer_first sampleQueue sampleRequestWrite 0
              (bufferedListener 30000) startWorld (sampleMessage 30000) [])
    as [Hlive _]; [reflexivity|].
  destruct Hlive as (c & Hrun & Hm & Ha & _); [vm_compute; reflexivity|].
  exists c. split; [exact Hrun|]. split; [exact Hm | exact Ha].
Defined.

Lemma undecodable_message_stream_witness :
  let c := newConn sampleQueue sampleRequestWrite "q1" (sampleMessage 30000)
             refusingSerializer "q1" in
  initErr c = Some (ErrOther "unsupported payload")
  /\ renewing c = false /\ req c = None /\ reqBytes c = ""
  /\ (forall n, Read n c =
        (Err (ErrWrap "failed to initialize connection"
                (ErrOther "unsupported payload")), c))
  /\ (forall fuel w,
        Close sampleQueue ReadResponseBuffered fuel c w =
          Some (None, c, mkWorld (tick w) (events w ++ [(tick w, CancelRenewal)])%list)).
Proof.
  apply (undecodable_message_stream sampleQueue sampleRequestWrite ReadResponseBuffered
           "q1" "q1" (sampleMessage 30000) refusingSerializer
           (ErrOther "unsupported payload")).
  reflexivity.
Defined.

Lemma accepted_stream_acknowledges_its_message_witness :
  exists c l' w1 c1 c2 w2,
    Accept sampleQueue sampleRequestWrite 1 (bufferedListener 30000) startWorld
      = Some (Ok c, l', w1)
    /\ Write response200 c = (Ok (len response200), c1)
    /\ Close sampleQueue ReadResponseBuffered 0 c1 w1 = Some (None, c2, w2)
    /\ deleteCalls (events w2) = [CallDelete "m1"]
    /\ extendCalls (events w2) = [].
Proof.
  destruct (accepted_stream_acknowledges_its_message sampleQueue sampleRequestWrite
              ReadResponseBuffered 0 0 (bufferedListener 30000) startWorld
              (sampleMessage 30000) [] response200 (parsedResponse response200) "")
    as (c & l' & w1 & c1 & c2 & w2 & err & Hacc & Hw & Hclose & Hdel & Hext & Herr).
  - reflexivity.
  - vm_compute. reflexivity.
  - vm_compute. discriminate.
  - vm_compute. reflexivity.
  - vm_compute. split; discriminate.
  - intros h Hh. discriminate Hh.
  - exists c, l', w1, c1, c2, w2.
    split; [exact Hacc|]. split; [exact Hw|].
    rewrite (Herr eq_refl) in Hclose. split; [exact Hclose|].
    split; [exact Hdel | exact Hext].
Defined.

(** ** The default serializer: sizes, and what a payload depends on *)

Lemma len_String (ch : ascii) (s : string) : len (String ch s) = 1 + len s.
Proof. unfold len. cbn [String.length]. lia. Qed.

(** base64 makes four characters of every three bytes, the last group
    padded. *)
Lemma EncodeToString_len (s : string) :
  len (Base64.EncodeToString s) = 4 * ((len s + 2) / 3).
Proof.
  induction s as [| x | x y | x y z r IH] using string_ind3.
  - reflexivity.
  - cbn [Base64.EncodeToString].
    destruct (Base64.split3 x Base64.zeroByte Base64.zeroByte) as [[[s1 s2] s3] s4].
    reflexivity.
  - cbn [Base64.EncodeToString].
    destruct (Base64.split3 x y Base64.zeroByte) as [[[s1 s2] s3] s4].
    reflexivity.
  - cbn [Base64.EncodeToString].
    destruct (Base64.split3 x y z) as [[[s1 s2] s3] s4].
    rewrite !len_String, IH.
    replace (1 + (1 + (1 + len r)) + 2) with (len r + 2 + 1 * 3) by lia.
    rewrite Z.div_add by lia. lia.
Qed.

(** The base64 form of a body exceeds 256 KiB exactly when the body
    exceeds 192 KiB. *)
Lemma encoded_too_large (bs : string) :
  (maxPayload <? len (Base64.EncodeToString bs)) = (196608 <? len bs).
Proof.
  rewrite EncodeToString_len. change maxPayload with 262144.
  assert (Hlen : 0 <= len bs) by (unfold len; lia).
  destruct (196608 <? len bs) eqn:Hc.
  - apply Z.ltb_lt in Hc. apply Z.ltb_lt.
    assert (65537 <= (len bs + 2) / 3); [|lia].
    replace 65537 with ((196609 + 2) / 3) by reflexivity.
    apply Z.div_le_mono; lia.
  - apply Z.ltb_ge in Hc. apply Z.ltb_ge.
    assert ((len bs + 2) / 3 <= 65536); [|lia].
    replace 65536 with ((196608 + 2) / 3) by reflexivity.
    apply Z.div_le_mono; lia.
Qed.

(** X11. The limit of the default serializer in bytes of the body: with
    base64 in use a body of at most 196608 bytes (192 KiB) is serialized to
    its base64 form and a longer one is refused with ErrTooLarge; without
    base64 the limit is 262144 bytes (256 KiB) and the payload is the body
    itself. *)
Theorem serialize_body_size_limit
  (s : BodyOnlySerializer) (r : Request) (bs : string) :
  bodyBytes r = Ok bs ->
  let limit := if NoBase64 s then 262144 else 196608 in
  (len bs <= limit ->
   BodyOnly_Serialize s (Some r) =
     Ok (if NoBase64 s then bs else Base64.EncodeToString bs))
  /\ (limit < len bs -> BodyOnly_Serialize s (Some r) = Err ErrTooLarge).
Proof.
  intros Hbody limit. rewrite (BodyOnly_Serialize_eq s r bs Hbody). cbv zeta.
  unfold limit. change maxPayload with 262144.
  destruct (NoBase64 s).
  - split; intros H.
    + replace (262144 <? len bs) with false by (symmetry; apply Z.ltb_ge; lia).
      reflexivity.
    + replace (262144 <? len bs) with true by (symmetry; apply Z.ltb_lt; lia).
      reflexivity.
  - rewrite encoded_too_large.
    split; intros H.
    + replace (196608 <? len bs) with false by (symmetry; apply Z.ltb_ge; lia).
      reflexivity.
    + replace (196608 <? len bs) with true by (symmetry; apply Z.ltb_lt; lia).
      reflexivity.
Qed.

Lemma serialize_body_size_limit_witness :
  BodyOnly_Serialize (mkBodyOnly false) (Some samplePost) = Ok "aGVsbG8=".
Proof.
  refine (proj1 (serialize_body_size_limit (mkBodyOnly false) samplePost "hello"
                   eq_refl) _).
  vm_compute. discriminate.
Defined.

(** X12. The payload the default serializer makes of a request depends on
    the bytes of its body and on nothing else: two requests whose bodies
    read the same (a nil body reads as an empty one) get the same payload
    or the same error, whatever their methods, targets and headers. *)
Theorem serialize_depends_on_body_only
  (s : BodyOnlySerializer) (r1 r2 : Request) :
  bodyBytes r1 = bodyBytes r2 ->
  BodyOnly_Serialize s (Some r1) = BodyOnly_Serialize s (Some r2).
Proof.
  assert (H : forall r,
             BodyOnly_Serialize s (Some r) =
             match bodyBytes r with
             | Err e => Err e
             | Ok bs =>
                 let encoded := if NoBase64 s then bs else Base64.EncodeToString bs in
                 if maxPayload <? len encoded then Err ErrTooLarge else Ok encoded
             end).
  { intros r. destruct (bodyBytes r) as [bs|e] eqn:Hb.
    - apply BodyOnly_Serialize_eq. exact Hb.
    - unfold bodyBytes in Hb. unfold BodyOnly_Serialize.
      destruct (ReqBody r); [rewrite Hb; reflexivity | discriminate]. }
  intros Heq. rewrite (H r1), (H r2), Heq. reflexivity.
Qed.

Lemma serialize_depends_on_body_only_witness :
  BodyOnly_Serialize (mkBodyOnly false) (Some sampleHead)
  = BodyOnly_Serialize (mkBodyOnly false)
      (Some (mkRequest "PUT" (mkURL "/items/1") [("Accept", ["text/plain"])]
               (Some (mkReader "" None)) 0)).
Proof.
  apply (serialize_depends_on_body_only (mkBodyOnly false) sampleHead
           (mkRequest "PUT" (mkURL "/items/1") [("Accept", ["text/plain"])]
              (Some (mkReader "" None)) 0)).
  reflexivity.
Defined.

(** ** From the transport to the stream of the listener *)

Section ThroughTheQueue.

Variable E : Env.
Variable Request_Write : Request -> result string * option Reader.

(** X13. Transport.RoundTrip with the default serializer: a request whose
    body has more than 196608 bytes is refused with ErrTooLarge and one
    whose body cannot be read with the read error, in both cases before
    anything is sent; every other request is sent exactly once, as the
    base64 form of its body. *)
Theorem round_trip_sends_encoded_body (t : Transport) (r : Request) (w : World) :
  TransportSerializer t = None ->
  match bodyBytes r with
  | Err e => RoundTrip E t r w = (Err e, w)
  | Ok bs =>
      if 196608 <? len bs then RoundTrip E t r w = (Err ErrTooLarge, w)
      else snd (RoundTrip E t r w) =
             mkWorld (S (tick w))
               (events w ++ [(tick w, CallSend (Base64.EncodeToString bs))])%list
  end.
Proof.
  intros Ht. unfold RoundTrip, transportSerializer. rewrite Ht.
  cbn [Serialize bodyOnlySerializer].
  destruct (bodyBytes r) as [bs|e] eqn:Hb.
  - rewrite (BodyOnly_Serialize_eq (mkBodyOnly false) r bs Hb).
    cbn [NoBase64]. cbv zeta. rewrite encoded_too_large.
    destruct (196608 <? len bs) eqn:Hc.
    + reflexivity.
    + unfold callSend, record.
      destruct (SendMessage E (tick w) (Base64.EncodeToString bs)) as [m|err].
      * destruct (fst (ReadResponse _ _)); reflexivity.
      * destruct (errors_As_APIError err) as [[code message]|]; [|reflexivity].
        destruct (fst (ReadResponse _ _)); reflexivity.
  - unfold bodyBytes in Hb. unfold BodyOnly_Serialize.
    destruct (ReqBody r); [rewrite Hb; reflexivity | discriminate].
Qed.

End ThroughTheQueue.

Lemma round_trip_sends_encoded_body_witness :
  snd (RoundTrip sampleQueue (mkTransport "q1" None) samplePost startWorld)
  = mkWorld 1 [(0%nat, CallSend "aGVsbG8=")].
Proof.
  exact (round_trip_sends_encoded_body sampleQueue (mkTransport "q1" None) samplePost
           startWorld eq_refl).
Defined.

Section BodyThroughTheQueue.

Variable E E' : Env.
Variable Request_Write : Request -> result string * option Reader.

(** X14. From one end to the other with the default serializers: the
    content that Transport.RoundTrip sends for a request with a body of at
    most 196608 bytes is such that the stream the listener builds on a
    message with that content has as its bytes, which Read hands out,
    what Request.Write makes of a POST request for "/" whose body is the
    body of the original request, byte for byte, and whose headers are the
    four SimpleMQ headers; the method, the target and the headers of the
    original request do not travel.  When that writing fails the stream
    has no bytes and holds the error. *)
Theorem body_travels_through_the_queue
  (t : Transport) (l : Listener) (r : Request) (bs : string) (w : World) :
  TransportSerializer t = None ->
  ListenerSerializer l = None ->
  bodyBytes r = Ok bs ->
  len bs <= 196608 ->
  exists content,
    events (snd (RoundTrip E t r w)) = (events w ++ [(tick w, CallSend content)])%list
    /\ forall m, Content m = content ->
         let c := acceptedConn E' Request_Write l m in
         let written :=
           mkRequest "POST" (mkURL "/")
             [ ("Simplemq-Message-Id", [ID m]);
               ("Simplemq-Message-Created", [formatRFC3339 E' (CreatedTime m)]);
               ("Simplemq-Message-Visibility-Timeout",
                [formatRFC3339 E' (VisibilityTimeoutTime m)]);
               ("Simplemq-Queue-Name", [listenerQueue l]) ]
             (Some (mkReader bs None)) (len bs) in
         bodyBytes written = Ok bs
         /\ Header_Get (ReqHeader written) "SimpleMQ-Message-ID" = ID m
         /\ Header_Get (ReqHeader written) "SimpleMQ-Queue-Name" = listenerQueue l
         /\ match fst (Request_Write written) with
            | Ok bytes =>
                reqBytes c = bytes /\ initErr c = None
                /\ (bytes <> "" ->
                    forall n, Read n c =
                      (Ok (takeStr n bytes), setReqBytes c (dropStr n bytes)))
            | Err e =>
                reqBytes c = "" /\ initErr c = Some e
                /\ forall n, Read n c =
                     (Err (ErrWrap "failed to initialize connection" e), c)
            end.
Proof.
  intros Ht Hl Hb Hlen.
  exists (Base64.EncodeToString bs). split.
  - unfold RoundTrip, transportSerializer. rewrite Ht.
    cbn [Serialize bodyOnlySerializer].
    rewrite (BodyOnly_Serialize_eq (mkBodyOnly false) r bs Hb).
    cbn [NoBase64]. cbv zeta. rewrite encoded_too_large.
    replace (196608 <? len bs) with false by (symmetry; apply Z.ltb_ge; lia).
    unfold callSend, record.
    destruct (SendMessage E (tick w) (Base64.EncodeToString bs)) as [m|err].
    + destruct (fst (ReadResponse _ _)); reflexivity.
    + destruct (errors_As_APIError err) as [[code message]|]; [|reflexivity].
      destruct (fst (ReadResponse _ _)); reflexivity.
  - intros m Hm c written.
    split; [reflexivity|]. split; [reflexivity|]. split; [reflexivity|].
    set (c0 := newConn E' Request_Write (listenerQueue l) m
                 (bodyOnlySerializer (mkBodyOnly false)) (listenerQueue l)).
    assert (Hc : c = match ListenerResponseHandler l with
                     | Some h => setRespHandler c0 (Some h)
                     | None => c0
                     end).
    { unfold c, c0, acceptedConn, listenerSerializer. rewrite Hl. reflexivity. }
    assert (Hc0 : c0 =
                  let '(w0, unread) := Request_Write written in
                  let c1 :=
                    setReq (setRenewal
                              (mkConn (listenerQueue l) m
                                 (bodyOnlySerializer (mkBodyOnly false))
                                 (listenerQueue l) false false None ""
                                 None None "" None) true true)
                      (Some (setBody written unread)) in
                  match w0 with
                  | Err e => setInitErr c1 (Some e)
                  | Ok bytes => setReqBytes c1 bytes
                  end).
    { unfold c0, newConn, init.
      cbn [serializer setRenewal msg Deserialize bodyOnlySerializer].
      rewrite BodyOnly_Deserialize_eq, Hm.
      pose proof (payloadOf_encoded (mkBodyOnly false) bs) as Hp.
      cbn [NoBase64] in Hp. rewrite Hp. reflexivity. }
    clearbody c c0. subst c c0.
    destruct (Request_Write written) as [[bytes|e] unread]; cbn [fst];
      destruct (ListenerResponseHandler l) as [h|].
    + split; [reflexivity|]. split; [reflexivity|].
      intros Hne n. unfold Read. cbn. destruct bytes; [congruence | reflexivity].
    + split; [reflexivity|]. split; [reflexivity|].
      intros Hne n. unfold Read. cbn. destruct bytes; [congruence | reflexivity].
    + split; [reflexivity|]. split; [reflexivity|]. intros n. reflexivity.
    + split; [reflexivity|]. split; [reflexivity|]. intros n. reflexivity.
Qed.

End BodyThroughTheQueue.

Lemma body_travels_through_the_queue_witness :
  exists content,
    events (snd (RoundTrip sampleQueue (mkTransport "q1" None) samplePost startWorld))
    = [(0%nat, CallSend content)]
    /\ forall m, Content m = content ->
         reqBytes (acceptedConn sampleQueue sampleRequestWrite sampleListener m)
         = "POST / HTTP/1.1" ++ CRLF ++ CRLF
         /\ initErr (acceptedConn sampleQueue sampleRequestWrite sampleListener m) = None.
Proof.
  destruct (body_travels_through_the_queue sampleQueue sampleQueue sampleRequestWrite
              (mkTransport "q1" None) sampleListener samplePost "hello" startWorld
              eq_refl eq_refl eq_refl)
    as (content & Hev & Hstream).
  - vm_compute. discriminate.
  - exists content. split; [exact Hev|]. intros m Hm.
    destruct (Hstream m Hm) as (_ & _ & _ & Hb & Hi & _).
    split; [exact Hb | exact Hi].
Defined.

(** ** No renewal after Close or SetDeadline *)

Section RenewalStopped.

Variable E : Env.
Variable readResponse : string -> option Request -> result Response * string.

Lemma retryAfterLoop_renewing (bound : Z) :
  forall (fuel : nat) (c c' : Conn) (w w' : World),
  retryAfterLoop E fuel bound c w = Some (c', w') -> renewing c' = renewing c.
Proof.
  induction fuel as [|fuel IH]; intros c c' w w' H; [discriminate|].
  cbn [retryAfterLoop] in H. unfold Now, callExtend in H.
  destruct (_ <? bound).
  - destruct (ExtendVisibilityTimeout E _ _).
    + apply IH in H. exact H.
    + injection H as <- _. reflexivity.
  - injection H as <- _. reflexivity.
Qed.

Lemma Close_renewing (fuel : nat) (c c' : Conn) (w w' : World) (r : option error) :
  extendCancel c = true ->
  Close E readResponse fuel c w = Some (r, c', w') ->
  renewing c' = false.
Proof.
  intros Hc. unfold Close, stopRenewal. rewrite Hc. cbn [respBuffer setRenewal req].
  destruct (isEmpty (respBuffer c)).
  - intros H. inversion H; subst. reflexivity.
  - destruct (readResponse (respBuffer c) (req c)) as [parsed rest].
    intros H.
    repeat match type of H with
           | context [match ?x with _ => _ end] => destruct x eqn:?
           end;
      inversion H; subst; try reflexivity.
    match goal with
    | Hloop : retryAfterLoop _ _ _ _ _ = Some _ |- _ =>
        apply retryAfterLoop_renewing in Hloop; exact Hloop
    end.
Qed.

(** X15. Close and SetDeadline end the renewal in the background for
    good.  On a stream whose renewal can be cancelled (every stream made by
    newConn) a Close, however it ends, and a SetDeadline, even with the
    zero time or a time in the past, leave a stream on which a later firing
    of the renewal timer makes no call and changes nothing: from then on
    the lease is extended only by the calls of SetDeadline and Close
    themselves. *)
Theorem no_renewal_after_close_or_deadline (c : Conn) :
  extendCancel c = true ->
  (forall fuel w r c' w',
     Close E readResponse fuel c w = Some (r, c', w') ->
     renewing c' = false /\ forall w2, renewalFire E c' w2 = (c', w2))
  /\ (forall t w,
        let c' := snd (fst (SetDeadline E t c w)) in
        renewing c' = false /\ forall w2, renewalFire E c' w2 = (c', w2)).
Proof.
  intros Hc.
  assert (Hfire : forall c', renewing c' = false ->
                             forall w2, renewalFire E c' w2 = (c', w2)).
  { intros c' Hr w2. unfold renewalFire. rewrite Hr. reflexivity. }
  split.
  - intros fuel w r c' w' Hrun.
    pose proof (Close_renewing fuel c c' w w' r Hc Hrun) as Hr.
    split; [exact Hr | apply Hfire; exact Hr].
  - intros t w c'.
    assert (Hr : renewing c' = false).
    { unfold c', SetDeadline, stopRenewal. rewrite Hc.
      destruct (t =? zeroTime); [reflexivity|].
      unfold Now. cbn [tick events].
      destruct (_ <=? 0); [reflexivity|].
      destruct (deadlineLoop_spec E maxAttempts t (setRenewal c true false)
                  (mkWorld (S (tick w)) (events w ++ [(tick w, CancelRenewal)])))
        as (r & c1 & w1 & k & Hrun & _ & _ & _ & _ & Hren & _).
      rewrite Hrun. cbn [fst snd]. rewrite Hren. reflexivity. }
    split; [exact Hr | apply Hfire; exact Hr].
Qed.

End RenewalStopped.

Lemma no_renewal_after_close_or_deadline_witness :
  let c' := snd (fst (SetDeadline sampleQueue zeroTime (sampleConn 30000 "") startWorld)) in
  renewing (sampleConn 30000 "") = true
  /\ renewing c' = false
  /\ forall w2, renewalFire sampleQueue c' w2 = (c', w2).
Proof.
  intros c'. split; [reflexivity|].
  exact (proj2 (no_renewal_after_close_or_deadline sampleQueue ReadResponseBuffered
                  (sampleConn 30000 "") eq_refl) zeroTime startWorld).
Defined.

(** ** The queue service in memory *)

Lemma stub_lookup_insert {A : Type} (k k' : string) (v : A) (m : list (string * A)) :
  stub.lookup k' (stub.insert k v m) = if String.eqb k k' then Some v else stub.lookup k' m.
Proof.
  induction m as [|[k0 v0] m IH]; cbn [stub.insert stub.lookup].
  - reflexivity.
  - destruct (String.eqb k0 k) eqn:H0; cbn [stub.lookup].
    + apply String.eqb_eq in H0. subst k0.
      destruct (String.eqb k k'); reflexivity.
    + rewrite IH. destruct (String.eqb k0 k') eqn:H1; [|reflexivity].
      apply String.eqb_eq in H1. subst k0. rewrite String.eqb_sym, H0. reflexivity.
Qed.

Lemma stub_lookup_remove {A : Type} (k k' : string) (m : list (string * A)) :
  stub.lookup k' (stub.remove k m) = if String.eqb k k' then None else stub.lookup k' m.
Proof.
  induction m as [|[k0 v0] m IH]; cbn [stub.remove stub.lookup].
  - destruct (String.eqb k k'); reflexivity.
  - destruct (String.eqb k0 k) eqn:H0.
    + rewrite IH. apply String.eqb_eq in H0. subst k0.
      destruct (String.eqb k k'); reflexivity.
    + cbn [stub.lookup]. rewrite IH. destruct (String.eqb k0 k') eqn:H1; [|reflexivity].
      apply String.eqb_eq in H1. subst k0. rewrite String.eqb_sym, H0. reflexivity.
Qed.

Lemma stub_lookup_In {A : Type} (k : string) (v : A) (m : list (string * A)) :
  stub.lookup k m = Some v -> In v (map snd m).
Proof.
  induction m as [|[k0 v0] m IH]; cbn [stub.lookup map snd]; [discriminate|].
  destruct (String.eqb k0 k).
  - intros H. injection H as ->. left. reflexivity.
  - intros H. right. apply IH. exact H.
Qed.

(** stub.GetMessage after a queue has been stored back. *)
Lemma GetMessage_stored (queue queue' id : string) (q : list (string * Message))
  (s : stub.Server) :
  stub.GetMessage queue' id (stub.mkServer (stub.insert queue q (stub.messages s)) (stub.counter s) (stub.apiKey s)) =
  if String.eqb queue queue' then stub.lookup id q else stub.GetMessage queue' id s.
Proof.
  unfold stub.GetMessage. cbn [stub.messages]. rewrite stub_lookup_insert.
  destruct (String.eqb queue queue'); reflexivity.
Qed.

(** What the loop of a receive collects and what it leaves. *)
Lemma receiveLoop_got (now : Z) (q : list (string * Message)) :
  fst (stub.receiveLoop now q) =
  map (stub.acquire now) (filter (fun m => VisibilityTimeoutAt m <? now) (map snd q)).
Proof.
  induction q as [|[id m] q IH]; [reflexivity|].
  cbn [stub.receiveLoop map snd filter].
  destruct (stub.receiveLoop now q) as [got rest]. cbn [fst] in IH.
  destruct (VisibilityTimeoutAt m <? now); cbn [fst map]; rewrite IH; reflexivity.
Qed.

Lemma receiveLoop_left (now : Z) (q : list (string * Message)) :
  snd (stub.receiveLoop now q) = map (fun e => (fst e, stub.afterReceive now (snd e))) q.
Proof.
  induction q as [|[id m] q IH]; [reflexivity|].
  cbn [stub.receiveLoop map snd fst]. unfold stub.afterReceive at 1.
  destruct (stub.receiveLoop now q) as [got rest]. cbn [snd] in IH.
  destruct (VisibilityTimeoutAt m <? now); cbn [snd]; rewrite IH; reflexivity.
Qed.

Lemma stub_lookup_map {A B : Type} (f : A -> B) (k : string) (m : list (string * A)) :
  stub.lookup k (map (fun e => (fst e, f (snd e))) m) = option_map f (stub.lookup k m).
Proof.
  induction m as [|[k0 v0] m IH]; [reflexivity|].
  cbn [map stub.lookup fst snd]. destruct (String.eqb k0 k); [reflexivity | exact IH].
Qed.

Lemma acquire_deadline (now : Z) (m : Message) :
  minInt64 <= now + 30000 <= maxInt64 ->
  VisibilityTimeoutAt (stub.acquire now m) = now + 30000.
Proof. intros H. cbn. apply wrap64_id. exact H. Qed.

Lemma queueMessages_stored (queue : string) (q : list (string * Message))
  (s : stub.Server) :
  stub.queueMessages queue
    (stub.mkServer (stub.insert queue q (stub.messages s)) (stub.counter s)
       (stub.apiKey s))
  = map snd q.
Proof.
  unfold stub.queueMessages. cbn [stub.messages].
  rewrite stub_lookup_insert, String.eqb_refl. reflexivity.
Qed.

(** A receive, in terms of the messages of the queue. *)
Lemma handleReceiveMessages_eq (now : Z) (queue : string) (s : stub.Server) :
  exists s',
    stub.handleReceiveMessages now queue s =
      (stub.mkReply 200 true
         (stub.ResultMessagesPayload
            (map (stub.acquire now)
               (filter (fun m => VisibilityTimeoutAt m <? now)
                  (stub.queueMessages queue s)))), s')
    /\ stub.queueMessages queue s' = map (stub.afterReceive now) (stub.queueMessages queue s)
    /\ (forall id, stub.GetMessage queue id s'
                   = option_map (stub.afterReceive now) (stub.GetMessage queue id s)).
Proof.
  unfold stub.handleReceiveMessages, stub.queueMessages, stub.GetMessage.
  destruct (stub.lookup queue (stub.messages s)) as [q|] eqn:Hq.
  - pose proof (receiveLoop_got now q) as Hg.
    pose proof (receiveLoop_left now q) as Hl.
    destruct (stub.receiveLoop now q) as [got q']. cbn [fst snd] in Hg, Hl. subst got q'.
    eexists. split; [reflexivity|]. cbn [stub.messages].
    rewrite stub_lookup_insert, String.eqb_refl.
    split.
    + rewrite map_map. cbn [snd]. rewrite map_map. reflexivity.
    + intros id. apply stub_lookup_map.
  - exists s. rewrite Hq. cbn [filter map]. split; [reflexivity|].
    split; [reflexivity|]. intros id. reflexivity.
Qed.

(** X16. Two receives on a queue of the stub, the second at most 30
    seconds after the first.  The first delivers the messages whose lease
    was over, each acquired at the time of the call with a lease of 30
    seconds; the second delivers, acquired anew, those whose lease was
    still running at the first receive and is over at the second, and so
    none of the messages the first receive delivered. *)
Theorem stub_receive_grants_exclusive_leases
  (now now' : Z) (queue : string) (s : stub.Server) :
  minInt64 <= now + 30000 <= maxInt64 ->
  now' <= now + 30000 ->
  exists got1 s1 got2 s2,
    stub.handleReceiveMessages now queue s
      = (stub.mkReply 200 true (stub.ResultMessagesPayload got1), s1)
    /\ stub.handleReceiveMessages now' queue s1
       = (stub.mkReply 200 true (stub.ResultMessagesPayload got2), s2)
    /\ (forall m', In m' got1 <->
          exists m, In m (stub.queueMessages queue s)
                    /\ VisibilityTimeoutAt m < now
                    /\ m' = stub.acquire now m)
    /\ (forall m', In m' got1 ->
          VisibilityTimeoutAt m' = now + 30000 /\ AcquiredAt m' = now)
    /\ (forall m', In m' got2 <->
          exists m, In m (stub.queueMessages queue s)
                    /\ now <= VisibilityTimeoutAt m < now'
                    /\ m' = stub.acquire now' m).
Proof.
  intros Hrange Hsoon.
  destruct (handleReceiveMessages_eq now queue s) as (s1 & H1 & Hq1 & _).
  destruct (handleReceiveMessages_eq now' queue s1) as (s2 & H2 & _ & _).
  do 4 eexists. split; [exact H1|]. split; [exact H2|].
  assert (Hfirst : forall m',
            In m' (map (stub.acquire now)
                     (filter (fun m => VisibilityTimeoutAt m <? now)
                        (stub.queueMessages queue s))) <->
            exists m, In m (stub.queueMessages queue s)
                      /\ VisibilityTimeoutAt m < now /\ m' = stub.acquire now m).
  { intros m'. rewrite in_map_iff. split.
    - intros (m & Hm & Hin). apply filter_In in Hin. destruct Hin as [Hin Hv].
      apply Z.ltb_lt in Hv. exists m. repeat split; auto.
    - intros (m & Hin & Hv & Hm). exists m. split; [auto|].
      apply filter_In. split; [exact Hin | apply Z.ltb_lt; exact Hv]. }
  split; [exact Hfirst|].
  split.
  { intros m' Hin. apply Hfirst in Hin. destruct Hin as (m & _ & _ & ->).
    split; [apply acquire_deadline; exact Hrange | reflexivity]. }
  intros m'. rewrite Hq1, in_map_iff. split.
  - intros (x & Hm & Hin). apply filter_In in Hin. destruct Hin as [Hin Hv].
    apply in_map_iff in Hin. destruct Hin as (m & Hx & Hin). subst x.
    apply Z.ltb_lt in Hv. unfold stub.afterReceive in *.
    destruct (VisibilityTimeoutAt m <? now) eqn:Hvis.
    + rewrite (acquire_deadline now m Hrange) in Hv. lia.
    + apply Z.ltb_ge in Hvis. exists m. repeat split; auto; lia.
  - intros (m & Hin & Hv & Hm). exists m. split; [auto|].
    apply filter_In. split.
    + apply in_map_iff. exists m. split; [|exact Hin].
      unfold stub.afterReceive.
      replace (VisibilityTimeoutAt m <? now) with false
        by (symmetry; apply Z.ltb_ge; lia).
      reflexivity.
    + apply Z.ltb_lt. lia.
Qed.

(** X17. Extending a lease on the stub.  For an identifier the queue
    does not hold the reply is 404 and nothing changes; while the lease of
    the message is still running the reply is 409 and nothing changes;
    otherwise the deadline of the message is moved 30 seconds on from the
    old deadline (not from the time of the call), the reply carries the
    message with the new deadline, and no other message changes. *)
Theorem stub_extend_moves_an_expired_lease
  (now : Z) (queue id : string) (s : stub.Server) :
  match stub.GetMessage queue id s with
  | None => stub.handleExtendVisibility now queue id s = (stub.notFound, s)
  | Some m =>
      if now <? VisibilityTimeoutAt m then
        stub.handleExtendVisibility now queue id s =
          (stub.mkReply 409 false (stub.APIErrorPayload 409 "Message is already acquired"),
           s)
      else
        let m' := withVisibilityTimeoutAt m (wrap64 (VisibilityTimeoutAt m + 30000)) in
        exists s',
          stub.handleExtendVisibility now queue id s =
            (stub.mkReply 200 true (stub.ResultMessagePayload m'), s')
          /\ stub.GetMessage queue id s' = Some m'
          /\ (forall queue' id', queue' <> queue \/ id' <> id ->
                stub.GetMessage queue' id' s' = stub.GetMessage queue' id' s)
  end.
Proof.
  unfold stub.GetMessage, stub.handleExtendVisibility.
  destruct (stub.lookup queue (stub.messages s)) as [q|] eqn:Hq; [|reflexivity].
  destruct (stub.lookup id q) as [m|] eqn:Hm; [|reflexivity].
  destruct (now <? VisibilityTimeoutAt m); [reflexivity|].
  cbn zeta. eexists. split; [reflexivity|]. cbn [stub.messages].
  split.
  - rewrite stub_lookup_insert, String.eqb_refl.
    rewrite stub_lookup_insert, String.eqb_refl. reflexivity.
  - intros queue' id' Hne. rewrite stub_lookup_insert.
    destruct (String.eqb queue queue') eqn:Hqq; [|reflexivity].
    apply String.eqb_eq in Hqq. subst queue'. rewrite Hq.
    rewrite stub_lookup_insert.
    destruct (String.eqb id id') eqn:Hii; [|reflexivity].
    apply String.eqb_eq in Hii. subst id'. destruct Hne; congruence.
Qed.

Lemma handleExtendVisibility_running
  (now : Z) (queue id : string) (s : stub.Server) (m : Message) :
  stub.GetMessage queue id s = Some m ->
  now < VisibilityTimeoutAt m ->
  stub.handleExtendVisibility now queue id s =
    (stub.mkReply 409 false (stub.APIErrorPayload 409 "Message is already acquired"), s).
Proof.
  unfold stub.GetMessage, stub.handleExtendVisibility.
  destruct (stub.lookup queue (stub.messages s)) as [q|]; [|discriminate].
  intros -> Hlt.
  replace (now <? VisibilityTimeoutAt m) with true
    by (symmetry; apply Z.ltb_lt; exact Hlt).
  reflexivity.
Qed.

(** X18. On the stub a lease cannot be extended while it runs: after a
    receive has delivered a message, every extend for it that comes less
    than 30 seconds after the receive is answered 409 and changes
    nothing. *)
Theorem stub_refuses_extend_during_lease
  (now now' : Z) (queue id : string) (s : stub.Server) (m : Message) :
  minInt64 <= now + 30000 <= maxInt64 ->
  stub.GetMessage queue id s = Some m ->
  VisibilityTimeoutAt m < now ->
  now' < now + 30000 ->
  let s1 := snd (stub.handleReceiveMessages now queue s) in
  stub.GetMessage queue id s1 = Some (stub.acquire now m)
  /\ stub.handleExtendVisibility now' queue id s1 =
       (stub.mkReply 409 false (stub.APIErrorPayload 409 "Message is already acquired"),
        s1).
Proof.
  intros Hrange Hget Hvis Hsoon.
  destruct (handleReceiveMessages_eq now queue s) as (s1 & H1 & _ & Hg).
  rewrite H1. cbn [snd].
  assert (Hget1 : stub.GetMessage queue id s1 = Some (stub.acquire now m)).
  { rewrite Hg, Hget. cbn [option_map]. unfold stub.afterReceive.
    replace (VisibilityTimeoutAt m <? now) with true
      by (symmetry; apply Z.ltb_lt; exact Hvis).
    reflexivity. }
  split; [exact Hget1|].
  apply (handleExtendVisibility_running now' queue id s1 (stub.acquire now m) Hget1).
  rewrite (acquire_deadline now m Hrange). exact Hsoon.
Qed.

Lemma stub_refuses_extend_during_lease_witness :
  let s1 := snd (stub.handleReceiveMessages 1000 "q1" sampleServer) in
  stub.GetMessage "q1" "a" s1 = Some (stub.acquire 1000 (namedMessage "a" 0))
  /\ stub.handleExtendVisibility 28000 "q1" "a" s1 =
       (stub.mkReply 409 false (stub.APIErrorPayload 409 "Message is already acquired"),
        s1).
Proof.
  apply (stub_refuses_extend_during_lease 1000 28000 "q1" "a" sampleServer
           (namedMessage "a" 0)).
  - vm_compute. split; discriminate.
  - reflexivity.
  - reflexivity.
  - reflexivity.
Defined.

Lemma stub_receive_grants_exclusive_leases_witness :
  exists got1 s1 got2 s2,
    stub.handleReceiveMessages 1000 "q1" sampleServer
      = (stub.mkReply 200 true (stub.ResultMessagesPayload got1), s1)
    /\ stub.handleReceiveMessages 2000 "q1" s1
       = (stub.mkReply 200 true (stub.ResultMessagesPayload got2), s2)
    /\ (forall m', In m' got1 <->
          exists m, In m (stub.queueMessages "q1" sampleServer)
                    /\ VisibilityTimeoutAt m < 1000
                    /\ m' = stub.acquire 1000 m)
    /\ (forall m', In m' got1 ->
          VisibilityTimeoutAt m' = 1000 + 30000 /\ AcquiredAt m' = 1000)
    /\ (forall m', In m' got2 <->
          exists m, In m (stub.queueMessages "q1" sampleServer)
                    /\ 1000 <= VisibilityTimeoutAt m < 2000
                    /\ m' = stub.acquire 2000 m).
Proof.
  apply (stub_receive_grants_exclusive_leases 1000 2000 "q1" sampleServer).
  - vm_compute. split; discriminate.
  - vm_compute. discriminate.
Defined.

(** X19. Deleting on the stub.  A message the queue holds is removed:
    the reply is 200 with the status deleted, the message can no longer be
    looked up, every other message is as before, and a second delete for
    the same identifier is answered 404.  For an identifier the queue does
    not hold the reply is 404 and nothing changes. *)
Theorem stub_delete_removes_the_message (queue id : string) (s : stub.Server) :
  match stub.GetMessage queue id s with
  | Some _ =>
      exists s',
        stub.handleDeleteMessage queue id s =
          (stub.mkReply 200 true (stub.StatusPayload "deleted"), s')
        /\ stub.GetMessage queue id s' = None
        /\ (forall queue' id', queue' <> queue \/ id' <> id ->
              stub.GetMessage queue' id' s' = stub.GetMessage queue' id' s)
        /\ stub.handleDeleteMessage queue id s' = (stub.notFound, s')
  | None => stub.handleDeleteMessage queue id s = (stub.notFound, s)
  end.
Proof.
  unfold stub.GetMessage, stub.handleDeleteMessage.
  destruct (stub.lookup queue (stub.messages s)) as [q|] eqn:Hq; [|reflexivity].
  destruct (stub.lookup id q) as [m|] eqn:Hm; [|reflexivity].
  eexists. split; [reflexivity|]. cbn [stub.messages].
  rewrite stub_lookup_insert, String.eqb_refl.
  rewrite stub_lookup_remove, String.eqb_refl.
  split; [reflexivity|]. split; [|reflexivity].
  intros queue' id' Hne. rewrite stub_lookup_insert.
  destruct (String.eqb queue queue') eqn:Hqq; [|reflexivity].
  apply String.eqb_eq in Hqq. subst queue'. rewrite Hq.
  rewrite stub_lookup_remove.
  destruct (String.eqb id id') eqn:Hii; [|reflexivity].
  apply String.eqb_eq in Hii. subst id'. destruct Hne; congruence.
Qed.

Lemma In_insert {A : Type} (k : string) (v : A) (m : list (string * A)) :
  In v (map snd (stub.insert k v m)).
Proof.
  induction m as [|[k0 v0] m IH]; cbn [stub.insert map snd].
  - left. reflexivity.
  - destruct (String.eqb k0 k); cbn [map snd]; [left; reflexivity | right; exact IH].
Qed.

(** X20. Sending to the stub and receiving from it.  A send whose body
    decodes to a content stores a message with that content, the
    identifier drawn, the time of the call as its creation time and no
    lease, and returns it; any receive after that (at a time after the
    epoch) delivers the message, acquired, with its content unchanged. *)
Theorem stub_send_then_receive
  (now now' : Z) (newID : string) (unmarshal : string -> result string)
  (r : Request) (queue body content : string) (s : stub.Server) :
  bodyBytes r = Ok body ->
  unmarshal body = Ok content ->
  0 < now' ->
  let m := mkMessage newID content now now 0 0 0 in
  exists s1 got s2,
    stub.handleSendMessage now newID unmarshal r queue s
      = (stub.mkReply 200 true (stub.MessagePayload m), s1)
    /\ stub.GetMessage queue newID s1 = Some m
    /\ stub.handleReceiveMessages now' queue s1
       = (stub.mkReply 200 true (stub.ResultMessagesPayload got), s2)
    /\ In (stub.acquire now' m) got
    /\ Content (stub.acquire now' m) = content
    /\ ID (stub.acquire now' m) = newID.
Proof.
  intros Hbody Hjson Hnow m.
  unfold stub.handleSendMessage. rewrite Hbody, Hjson. unfold stub.AddMessage. fold m.
  eexists.
  destruct (handleReceiveMessages_eq now' queue
              (stub.mkServer
                 (stub.insert queue
                    (stub.insert newID m
                       match stub.lookup queue (stub.messages s) with
                       | Some q => q
                       | None => []
                       end) (stub.messages s))
                 (wrap64 (stub.counter s + 1)) (stub.apiKey s)))
    as (s2 & H2 & _ & _).
  do 2 eexists. split; [reflexivity|].
  split.
  { unfold stub.GetMessage. cbn [stub.messages].
    rewrite stub_lookup_insert, String.eqb_refl.
    rewrite stub_lookup_insert, String.eqb_refl. reflexivity. }
  split; [exact H2|].
  split; [|split; reflexivity].
  apply in_map. apply filter_In. split.
  - unfold stub.queueMessages. cbn [stub.messages].
    rewrite stub_lookup_insert, String.eqb_refl. apply In_insert.
  - apply Z.ltb_lt. exact Hnow.
Qed.

Lemma stub_send_then_receive_witness :
  exists s1 got s2,
    stub.handleSendMessage 500 "c" sampleUnmarshal samplePost "q1" sampleServer
      = (stub.mkReply 200 true (stub.MessagePayload (mkMessage "c" "hello" 500 500 0 0 0)),
         s1)
    /\ stub.GetMessage "q1" "c" s1 = Some (mkMessage "c" "hello" 500 500 0 0 0)
    /\ stub.handleReceiveMessages 1000 "q1" s1
       = (stub.mkReply 200 true (stub.ResultMessagesPayload got), s2)
    /\ In (stub.acquire 1000 (mkMessage "c" "hello" 500 500 0 0 0)) got
    /\ Content (stub.acquire 1000 (mkMessage "c" "hello" 500 500 0 0 0)) = "hello"
    /\ ID (stub.acquire 1000 (mkMessage "c" "hello" 500 500 0 0 0)) = "c".
Proof.
  apply (stub_send_then_receive 500 1000 "c" sampleUnmarshal samplePost "q1" "hello"
           "hello" sampleServer).
  - reflexivity.
  - reflexivity.
  - reflexivity.
Defined.

(** ** The client *)

Section ClientFacts.

Variable L : simplemq.Libraries.
Variable c : simplemq.Client.

Hypothesis endpoint_parses : forall e, simplemq.url_Parse_error L e = None.
Hypothesis request_builds : forall m u, simplemq.http_NewRequest_error L m u = None.

(** What doRequest comes to when the request can be built. *)
Lemma doRequest_built (done : bool) (method path : string) (body : option string) :
  exists r,
    simplemq.doRequest L c done method path body =
      (match simplemq.http_Do L r with
       | Err err => Err (ErrWrap "request failed" err)
       | Ok resp => Ok resp
       end, Some r)
    /\ simplemq.ctxDone r = done /\ simplemq.httpMethod r = method
    /\ simplemq.httpBody r = body
    /\ simplemq.httpURL r =
         simplemq.url_JoinPath L
           (if isEmpty (simplemq.Endpoint c) then simplemq.DefaultEndpoint
            else simplemq.Endpoint c) path
    /\ simplemq.httpHeader r =
         (let h := Header_Set [] "Authorization" ("Bearer " ++ simplemq.APIKey c) in
          if String.eqb method "POST" || String.eqb method "PUT"
          then Header_Set h "Content-Type" "application/json" else h).
Proof.
  unfold simplemq.doRequest, simplemq.endpointURL.
  rewrite endpoint_parses, request_builds. cbv zeta.
  match goal with
  | |- context [simplemq.http_Do L ?q] => exists q
  end.
  split.
  - destruct (simplemq.http_Do L _); reflexivity.
  - repeat split.
Qed.

(** X21. A reply of the service whose status is not 200 becomes an error
    whatever the operation: the API error with the code and the message
    of the JSON body when the body decodes (the HTTP status itself is not
    kept), and the decoding failure wrapped as "decode error" when it does
    not. *)
Theorem client_error_reply_becomes_api_error
  (done : bool) (resp : simplemq.HTTPResponse) (content body id : string) :
  (forall r, simplemq.ctxDone r = done -> simplemq.http_Do L r = Ok resp) ->
  simplemq.httpStatusCode resp <> 200 ->
  simplemq.json_Marshal_content L content = Ok body ->
  let e := match simplemq.json_Decode_APIError L (simplemq.httpRespBody resp) with
           | Ok (code, message) => ErrAPI code message
           | Err err => ErrWrap "decode error" err
           end in
  fst (simplemq.SendMessage L c done content) = Err e
  /\ fst (simplemq.ReceiveMessages L c done) = Err e
  /\ fst (simplemq.DeleteMessage L c done id) = Some e
  /\ fst (simplemq.ExtendVisibilityTimeout L c done id) = Err e.
Proof.
  intros Hdo Hstatus Hmarshal e.
  assert (Hne : negb (simplemq.httpStatusCode resp =? 200) = true)
    by (apply negb_true_iff, Z.eqb_neq; exact Hstatus).
  assert (He : simplemq.apiError L resp = e).
  { unfold simplemq.apiError, e.
    destruct (simplemq.json_Decode_APIError L _) as [[code message]|err]; reflexivity. }
  unfold simplemq.SendMessage, simplemq.ReceiveMessages, simplemq.DeleteMessage,
    simplemq.ExtendVisibilityTimeout.
  rewrite Hmarshal.
  repeat split.
  - destruct (doRequest_built done "POST"
                ("/v1/queues/" ++ simplemq.Queue c ++ "/messages") (Some body))
      as (r & -> & Hd & _).
    rewrite (Hdo r Hd), Hne, He. reflexivity.
  - destruct (doRequest_built done "GET"
                ("/v1/queues/" ++ simplemq.Queue c ++ "/messages") None)
      as (r & -> & Hd & _).
    rewrite (Hdo r Hd), Hne, He. reflexivity.
  - destruct (doRequest_built done "DELETE"
                ("/v1/queues/" ++ simplemq.Queue c ++ "/messages/" ++ id) None)
      as (r & -> & Hd & _).
    rewrite (Hdo r Hd), Hne, He. reflexivity.
  - destruct (doRequest_built done "PUT"
                ("/v1/queues/" ++ simplemq.Queue c ++ "/messages/" ++ id) None)
      as (r & -> & Hd & _).
    rewrite (Hdo r Hd), Hne, He. reflexivity.
Qed.

(** X22. The requests the client makes.  Every request carries the API
    key as a bearer token and is addressed to the endpoint joined with
    the path of the operation: the messages of the queue for a send (POST,
    with the marshalled content as its body) and a receive (GET), one
    message of the queue for a delete (DELETE) and an extend (PUT).  The
    content type application/json is set on the POST and on the PUT, which
    has no body, and on no other request. *)
Theorem client_requests
  (done : bool) (content body id : string) :
  simplemq.json_Marshal_content L content = Ok body ->
  let endpoint := if isEmpty (simplemq.Endpoint c) then simplemq.DefaultEndpoint
                  else simplemq.Endpoint c in
  let collection := "/v1/queues/" ++ simplemq.Queue c ++ "/messages" in
  let item := "/v1/queues/" ++ simplemq.Queue c ++ "/messages/" ++ id in
  let shape (sent : option simplemq.HTTPRequest) (method path : string)
            (payload : option string) (contentType : string) : Prop :=
    exists r, sent = Some r
      /\ simplemq.httpMethod r = method
      /\ simplemq.httpURL r = simplemq.url_JoinPath L endpoint path
      /\ simplemq.httpBody r = payload
      /\ simplemq.ctxDone r = done
      /\ Header_Get (simplemq.httpHeader r) "Authorization"
         = "Bearer " ++ simplemq.APIKey c
      /\ Header_Get (simplemq.httpHeader r) "Content-Type" = contentType in
  shape (snd (simplemq.SendMessage L c done content)) "POST" collection (Some body)
    "application/json"
  /\ shape (snd (simplemq.ReceiveMessages L c done)) "GET" collection None ""
  /\ shape (snd (simplemq.DeleteMessage L c done id)) "DELETE" item None ""
  /\ shape (snd (simplemq.ExtendVisibilityTimeout L c done id)) "PUT" item None
       "application/json".
Proof.
  intros Hmarshal endpoint collection item shape.
  unfold simplemq.SendMessage, simplemq.ReceiveMessages, simplemq.DeleteMessage,
    simplemq.ExtendVisibilityTimeout.
  rewrite Hmarshal. fold collection. fold item.
  repeat split.
  - destruct (doRequest_built done "POST" collection (Some body))
      as (r & -> & Hd & Hm & Hb & Hu & Hh).
    exists r. split.
    { destruct (simplemq.http_Do L r) as [resp|err]; [|reflexivity].
      destruct (negb _); [reflexivity|].
      destruct (simplemq.json_Decode_message L _); reflexivity. }
    rewrite Hh. repeat split; assumption.
  - destruct (doRequest_built done "GET" collection None)
      as (r & -> & Hd & Hm & Hb & Hu & Hh).
    exists r. split.
    { destruct (simplemq.http_Do L r) as [resp|err]; [|reflexivity].
      destruct (negb _); [reflexivity|].
      destruct (simplemq.json_Decode_messages L _) as [[|m ms]|]; reflexivity. }
    rewrite Hh. repeat split; assumption.
  - destruct (doRequest_built done "DELETE" item None)
      as (r & -> & Hd & Hm & Hb & Hu & Hh).
    exists r. split.
    { destruct (simplemq.http_Do L r) as [resp|err]; [|reflexivity].
      destruct (negb _); reflexivity. }
    rewrite Hh. repeat split; assumption.
  - destruct (doRequest_built done "PUT" item None)
      as (r & -> & Hd & Hm & Hb & Hu & Hh).
    exists r. split.
    { destruct (simplemq.http_Do L r) as [resp|err]; [|reflexivity].
      destruct (negb _); [reflexivity|].
      destruct (simplemq.json_Decode_message L _); reflexivity. }
    rewrite Hh. repeat split; assumption.
Qed.

End ClientFacts.

Lemma client_error_reply_becomes_api_error_witness :
  fst (simplemq.SendMessage
         (sampleLibraries (Ok reply503) (Ok (429, "slow down"))) sampleClient false "hello")
    = Err (ErrAPI 429 "slow down")
  /\ fst (simplemq.ReceiveMessages
            (sampleLibraries (Ok reply503) (Ok (429, "slow down"))) sampleClient false)
     = Err (ErrAPI 429 "slow down")
  /\ fst (simplemq.DeleteMessage
            (sampleLibraries (Ok reply503) (Ok (429, "slow down"))) sampleClient false "m1")
     = Some (ErrAPI 429 "slow down")
  /\ fst (simplemq.ExtendVisibilityTimeout
            (sampleLibraries (Ok reply503) (Ok (429, "slow down"))) sampleClient false "m1")
     = Err (ErrAPI 429 "slow down").
Proof.
  apply (client_error_reply_becomes_api_error
           (sampleLibraries (Ok reply503) (Ok (429, "slow down"))) sampleClient
           (fun _ => eq_refl) (fun _ _ => eq_refl) false reply503 "hello" "hello" "m1").
  - intros r Hr. cbn. rewrite Hr. reflexivity.
  - vm_compute. discriminate.
  - reflexivity.
Defined.

Lemma client_requests_witness :
  exists r,
    snd (simplemq.ExtendVisibilityTimeout
           (sampleLibraries (Ok reply503) (Ok (429, "slow down"))) sampleClient false "m1")
      = Some r
    /\ simplemq.httpMethod r = "PUT"
    /\ simplemq.httpURL r = "http://stub/v1/queues/q1/messages/m1"
    /\ simplemq.httpBody r = None
    /\ Header_Get (simplemq.httpHeader r) "Authorization" = "Bearer secret"
    /\ Header_Get (simplemq.httpHeader r) "Content-Type" = "application/json".
Proof.
  destruct (client_requests (sampleLibraries (Ok reply503) (Ok (429, "slow down")))
              sampleClient (fun _ => eq_refl) (fun _ _ => eq_refl) false
              "hello" "hello" "m1" eq_refl)
    as (_ & _ & _ & r & Hs & Hm & Hu & Hb & _ & Ha & Hc).
  exists r. repeat split; assumption.
Defined.

(** ** The adapter over the client *)

Section OverTheClient.

Variable L : nat -> simplemq.Libraries.
Variable c : simplemq.Client.
Variable clock : nat -> Z.
Variable format : Z -> string.

(** RoundTrip when the send is answered with an API error. *)
Lemma RoundTrip_rejected (E : Env) (t : Transport) (r : Request) (w : World)
  (content : string) (err : error) (code : Z) (message : string) :
  Serialize (transportSerializer t) (Some r) = Ok content ->
  headerSafe (transportQueue t) = true ->
  SendMessage E (tick w) content = Err err ->
  errors_As_APIError err = Some (code, message) ->
  100 <= code <= 999 ->
  len message <= maxInt64 ->
  exists resp,
    RoundTrip E t r w =
      (Ok resp, mkWorld (S (tick w)) (events w ++ [(tick w, CallSend content)])%list)
    /\ StatusCode resp = code
    /\ RespBody resp
       = (if String.eqb (Method r) "HEAD" || negb (bodyAllowedForStatus code)
          then "" else message)
    /\ Header_Get (RespHeader resp) "Content-Type" = "text/plain"
    /\ Header_Get (RespHeader resp) "SimpleMQ-Queue-Name" = transportQueue t.
Proof.
  intros Hser Hq Herr Has Hcode Hlen.
  unfold RoundTrip. rewrite Hser. unfold callSend, record. rewrite Herr, Has.
  assert (Hn : 0 <= len message <= maxInt64) by (unfold len in *; lia).
  destruct (Itoa_nonneg (len message) ltac:(lia)) as (Hd & _ & _).
  rewrite (Header_Write_rejected _ _ Hq (digits_headerSafe _ Hd)).
  rewrite ReadResponse_rendered.
  2:{ exact Hcode. }
  2:{ cbn [forallb]. unfold goodLine. cbn [fst snd].
      rewrite Hq, (digits_headerSafe _ Hd). reflexivity. }
  cbn [fst].
  rewrite (readTransfer_plain code (Method r) _ (Itoa (len message)) (len message)
             message);
    [| reflexivity | reflexivity | reflexivity | reflexivity
     | apply parseContentLength_Itoa; exact Hn | lia].
  eexists. split; [reflexivity|].
  cbn [StatusCode RespBody ContentLength RespHeader trHeader trLength trBody].
  split; [reflexivity|].
  split; [rewrite takeStr_len; reflexivity|].
  split; reflexivity.
Qed.

(** X23. Transport.RoundTrip over the client, when the service answers
    the send with a status other than 200 and a JSON error body: the
    response RoundTrip returns has the code of that body as its status
    (a code of three digits), whatever the HTTP status of the service's
    reply was, and the message of the body as its body; the HTTP status of
    the reply does not reach the caller. *)
Theorem round_trip_status_is_the_code_of_the_error_body
  (t : Transport) (r : Request) (w : World) (content body : string)
  (reply : simplemq.HTTPResponse) (code : Z) (message : string) :
  transportQueue t = simplemq.Queue c ->
  headerSafe (transportQueue t) = true ->
  Serialize (transportSerializer t) (Some r) = Ok content ->
  simplemq.json_Marshal_content (L (tick w)) content = Ok body ->
  (forall e, simplemq.url_Parse_error (L (tick w)) e = None) ->
  (forall m u, simplemq.http_NewRequest_error (L (tick w)) m u = None) ->
  (forall q, simplemq.ctxDone q = false ->
             simplemq.http_Do (L (tick w)) q = Ok reply) ->
  simplemq.httpStatusCode reply <> 200 ->
  simplemq.json_Decode_APIError (L (tick w)) (simplemq.httpRespBody reply)
    = Ok (code, message) ->
  100 <= code <= 999 ->
  len message <= maxInt64 ->
  exists resp w',
    RoundTrip (clientEnv L c false false clock format) t r w = (Ok resp, w')
    /\ StatusCode resp = code
    /\ RespBody resp
       = (if String.eqb (Method r) "HEAD" || negb (bodyAllowedForStatus code)
          then "" else message)
    /\ Header_Get (RespHeader resp) "SimpleMQ-Queue-Name" = simplemq.Queue c.
Proof.
  intros Hqueue Hq Hser Hmarshal Hurl Hnew Hdo Hstatus Hdec Hcode Hlen.
  destruct (RoundTrip_rejected (clientEnv L c false false clock format) t r w content
              (ErrAPI code message) code message Hser Hq)
    as (resp & Hrun & Hc & Hb & _ & Hn); try assumption; try reflexivity.
  - cbn [SendMessage clientEnv].
    unfold simplemq.SendMessage, simplemq.doRequest, simplemq.endpointURL.
    rewrite Hmarshal, Hurl, Hnew. cbv zeta. rewrite Hdo by reflexivity. cbn [fst].
    replace (negb (simplemq.httpStatusCode reply =? 200)) with true
      by (symmetry; apply negb_true_iff, Z.eqb_neq; exact Hstatus).
    unfold simplemq.apiError. rewrite Hdec. reflexivity.
  - exists resp. eexists. split; [exact Hrun|].
    split; [exact Hc|]. split; [exact Hb|]. rewrite Hn. exact Hqueue.
Qed.

(** X24. Listener.Close and Accept.  Once an Accept has created the base
    context, Close cancels it for good: a later Accept that finds the
    buffer empty polls once with the cancelled context and, the HTTP
    client failing such a request with a cancellation, returns
    net.ErrClosed; but a later Accept that finds a message with a running
    lease in the buffer still returns a stream for it.  A Close on a
    listener that has not accepted yet finds nothing to cancel and changes
    nothing. *)
Theorem accept_after_listener_close
  (Request_Write : Request -> result string * option Reader)
  (fuel : nat) (s : Scope) (l : Listener) (w : World) :
  baseCancel s = true ->
  baseCtx s <> None ->
  (forall e, simplemq.url_Parse_error (L (tick w)) e = None) ->
  (forall m u, simplemq.http_NewRequest_error (L (tick w)) m u = None) ->
  (forall q, simplemq.ctxDone q = true ->
             exists e, simplemq.http_Do (L (tick w)) q = Err e
                       /\ errors_Is_Canceled e = true) ->
  let s' := snd (Listener_Close s) in
  (acceptedMessages l = [] ->
   AcceptWithContext L c clock format Request_Write (S fuel) s' l w =
     (Some (Err ErrNetClosed, l,
            mkWorld (S (tick w)) (events w ++ [(tick w, CallReceive)])%list), s'))
  /\ (forall m rest,
        acceptedMessages l = m :: rest ->
        clock (tick w) < VisibilityTimeoutTime m ->
        exists conn,
          AcceptWithContext L c clock format Request_Write (S fuel) s' l w =
            (Some (Ok conn, setAccepted l rest, mkWorld (S (tick w)) (events w)), s')
          /\ msg conn = m)
  /\ (forall parent, Listener_Close (mkScope parent None false)
                     = (None, mkScope parent None false)).
Proof.
  intros Hcancel Hctx Hurl Hnew Hdo s'.
  destruct (baseCtx s) as [d|] eqn:Hb; [|congruence].
  assert (Hs' : s' = mkScope (BaseContext s) (Some true) false).
  { unfold s', Listener_Close. rewrite Hcancel, Hb. reflexivity. }
  assert (Hbase : baseContext s' = (true, s')).
  { rewrite Hs'. reflexivity. }
  split; [|split].
  - intros Hempty. unfold AcceptWithContext. rewrite Hbase.
    set (E := clientEnv L c false true clock format).
    assert (Hpoll : exists e, ReceiveMessages E (tick w) = Err e
                              /\ errors_Is_Canceled e = true).
    { unfold E. cbn [ReceiveMessages clientEnv].
      unfold simplemq.ReceiveMessages, simplemq.doRequest, simplemq.endpointURL.
      rewrite Hurl, Hnew. cbv zeta.
      match goal with
      | |- context [simplemq.http_Do (L (tick w)) ?q] =>
          destruct (Hdo q eq_refl) as (e & -> & He)
      end.
      exists (ErrWrap "request failed" e). split; [reflexivity | exact He]. }
    destruct Hpoll as (e & Hpoll & He).
    cbn [Accept accept]. rewrite Hempty. unfold callReceive, record.
    rewrite Hpoll, He. reflexivity.
  - intros m rest Hbuf Hlive. unfold AcceptWithContext. rewrite Hbase.
    eexists. split.
    + cbn [Accept accept]. rewrite Hbuf. unfold Now. rewrite Until_nonpos.
      cbn [wallClock clientEnv].
      replace (VisibilityTimeoutTime m <=? clock (tick w)) with false
        by (symmetry; apply Z.leb_gt; exact Hlive).
      reflexivity.
    + destruct (ListenerResponseHandler _); cbn [msg setRespHandler];
        apply msg_newConn.
  - intros parent. reflexivity.
Qed.

End OverTheClient.

Lemma round_trip_status_is_the_code_of_the_error_body_witness :
  exists resp w',
    RoundTrip
      (clientEnv (fun _ => sampleLibraries (Ok reply503) (Ok (429, "slow down")))
         sampleClient false false (fun _ => 0) Itoa)
      (mkTransport "q1" None) samplePost startWorld = (Ok resp, w')
    /\ StatusCode resp = 429 /\ RespBody resp = "slow down".
Proof.
  destruct (round_trip_status_is_the_code_of_the_error_body
              (fun _ => sampleLibraries (Ok reply503) (Ok (429, "slow down")))
              sampleClient (fun _ => 0) Itoa (mkTransport "q1" None) samplePost startWorld
              "aGVsbG8=" "aGVsbG8=" reply503 429 "slow down")
    as (resp & w' & Hrun & Hcode & Hbody & _).
  - reflexivity.
  - vm_compute. reflexivity.
  - vm_compute. reflexivity.
  - reflexivity.
  - intros e. reflexivity.
  - intros m u. reflexivity.
  - intros q Hq. cbn. rewrite Hq. reflexivity.
  - vm_compute. discriminate.
  - reflexivity.
  - lia.
  - vm_compute. discriminate.
  - exists resp, w'. split; [exact Hrun|]. split; [exact Hcode | exact Hbody].
Defined.

Lemma accept_after_listener_close_witness :
  let s := snd (baseContext (mkScope None None false)) in
  let s' := snd (Listener_Close s) in
  AcceptWithContext (fun _ => sampleLibraries (Ok reply503) (Ok (429, "slow down")))
    sampleClient (fun _ => 0) Itoa sampleRequestWrite 1 s' sampleListener startWorld =
    (Some (Err ErrNetClosed, sampleListener, mkWorld 1 [(0%nat, CallReceive)]), s').
Proof.
  intros s s'.
  refine (proj1 (accept_after_listener_close
                   (fun _ => sampleLibraries (Ok reply503) (Ok (429, "slow down")))
                   sampleClient (fun _ => 0) Itoa sampleRequestWrite 0 s sampleListener
                   startWorld eq_refl _ (fun _ => eq_refl) (fun _ _ => eq_refl) _) eq_refl).
  - discriminate.
  - intros q Hq. exists (ErrWrap "Get" ErrContextCanceled). cbn. rewrite Hq.
    split; reflexivity.
Defined.

(** ** The routes of the stub *)

Lemma cutPrefix_app (p s : string) : stub.cutPrefix p (p ++ s) = Some s.
Proof.
  induction p as [|ch p IH]; cbn [stub.cutPrefix append].
  - destruct s; reflexivity.
  - rewrite Ascii.eqb_refl. exact IH.
Qed.

Lemma segment_app (q rest : string) :
  noSlash q = true -> stub.segment (q ++ String "/" rest) = (q, String "/" rest).
Proof.
  induction q as [|ch q IH]; cbn [stub.segment append noSlash allChars]; intros H.
  - reflexivity.
  - unfold noSlash in *. cbn [allChars] in H. apply andb_true_iff in H.
    destruct H as [Hc Hq]. apply negb_true_iff in Hc. rewrite Hc, (IH Hq). reflexivity.
Qed.

Lemma segment_whole (q : string) : noSlash q = true -> stub.segment q = (q, "").
Proof.
  induction q as [|ch q IH]; cbn [stub.segment]; intros H; [reflexivity|].
  unfold noSlash in *. cbn [allChars] in H. apply andb_true_iff in H.
  destruct H as [Hc Hq]. apply negb_true_iff in Hc. rewrite Hc, (IH Hq). reflexivity.
Qed.

(** X25. The stub routes the paths the client builds.  For a queue name
    and an identifier that are not empty and hold no slash, a request for
    /v1/queues/<queue>/messages is a send when its method is POST and a
    receive when it is GET, a request for /v1/queues/<queue>/messages/<id>
    is a delete when its method is DELETE and an extend when it is PUT,
    each for that queue and that identifier; with any other method the
    reply is 405 and nothing changes. *)
Theorem stub_routes_the_paths_of_the_client
  (now : Z) (newID : string) (unmarshal : string -> result string)
  (queue id : string) (r : Request) (s : stub.Server) :
  noSlash queue = true -> queue <> "" -> noSlash id = true -> id <> "" ->
  (Path (ReqURL r) = "/v1/queues/" ++ queue ++ "/messages" ->
   stub.handleRequests now newID unmarshal r s =
     if String.eqb (Method r) "POST"
     then stub.handleSendMessage now newID unmarshal r queue s
     else if String.eqb (Method r) "GET" then stub.handleReceiveMessages now queue s
     else (stub.mkReply 405 false stub.NoPayload, s))
  /\ (Path (ReqURL r) = "/v1/queues/" ++ queue ++ "/messages/" ++ id ->
      stub.handleRequests now newID unmarshal r s =
        if String.eqb (Method r) "DELETE" then stub.handleDeleteMessage queue id s
        else if String.eqb (Method r) "PUT"
             then stub.handleExtendVisibility now queue id s
             else (stub.mkReply 405 false stub.NoPayload, s)).
Proof.
  intros Hq Hqne Hid Hidne.
  assert (Heq : isEmpty queue = false) by (apply isEmpty_false; exact Hqne).
  assert (Hei : isEmpty id = false) by (apply isEmpty_false; exact Hidne).
  split; intros Hpath; unfold stub.handleRequests; rewrite Hpath.
  - unfold stub.queueMessagesPattern. rewrite cutPrefix_app.
    change (queue ++ "/messages") with (queue ++ String "/" "messages").
    rewrite (segment_app queue "messages" Hq), Heq. cbn [negb andb].
    rewrite String.eqb_refl. reflexivity.
  - unfold stub.queueMessagesPattern, stub.queueMessageIDPattern.
    rewrite cutPrefix_app.
    change (queue ++ "/messages/" ++ id) with (queue ++ String "/" ("messages/" ++ id)).
    rewrite (segment_app queue ("messages/" ++ id) Hq), Heq. cbn [negb andb].
    replace (String.eqb (String "/" ("messages/" ++ id)) "/messages") with false.
    2:{ symmetry. apply String.eqb_neq. intros H.
        destruct id; [congruence | discriminate H]. }
    change (String "/" ("messages/" ++ id)) with ("/messages/" ++ id).
    rewrite cutPrefix_app, (segment_whole id Hid), Hei. reflexivity.
Qed.

Lemma stub_routes_the_paths_of_the_client_witness :
  stub.handleRequests 1000 "c" sampleUnmarshal
    (mkRequest "DELETE" (mkURL "/v1/queues/q1/messages/a") [] None 0) sampleServer
  = stub.handleDeleteMessage "q1" "a" sampleServer.
Proof.
  refine (proj2 (stub_routes_the_paths_of_the_client 1000 "c" sampleUnmarshal "q1" "a"
                   (mkRequest "DELETE" (mkURL "/v1/queues/q1/messages/a") [] None 0)
                   sampleServer eq_refl _ eq_refl _) eq_refl); discriminate.
Defined.

(** ** The client before the stub; the size of a queue *)

Lemma eqb_Bearer (a b : string) :
  String.eqb ("Bearer " ++ a) ("Bearer " ++ b) = String.eqb a b.
Proof. reflexivity. Qed.

(** X26. The key of the client against the key of the stub.  A request
    that reaches the stub with the header the client built for it is let
    through to the handlers exactly when the API key of the client is the
    API key of the stub; otherwise the stub answers 401 with the API error
    unauthorized, runs no handler and changes nothing. *)
Theorem stub_admits_the_client_with_its_key
  (L : simplemq.Libraries) (c : simplemq.Client) (done : bool)
  (method path : string) (body : option string) (sent : simplemq.HTTPRequest)
  (next : Request -> stub.Server -> stub.Reply * stub.Server)
  (q : Request) (s : stub.Server) :
  snd (simplemq.doRequest L c done method path body) = Some sent ->
  ReqHeader q = simplemq.httpHeader sent ->
  stub.authMiddleware next q s =
    if String.eqb (simplemq.APIKey c) (stub.apiKey s) then next q s
    else (stub.mkReply 401 false (stub.APIErrorPayload 401 "unauthorized"), s).
Proof.
  intros Hsent Hq.
  assert (Hh : Header_Get (simplemq.httpHeader sent) "Authorization"
               = "Bearer " ++ simplemq.APIKey c).
  { revert Hsent. unfold simplemq.doRequest.
    destruct (simplemq.endpointURL L c path); [|discriminate].
    destruct (simplemq.http_NewRequest_error L method a); [discriminate|].
    cbv zeta.
    destruct (simplemq.http_Do L _); cbn [snd]; intros H; injection H as <-;
      cbn [simplemq.httpHeader]; destruct (_ || _); reflexivity. }
  unfold stub.authMiddleware. rewrite Hq, Hh, eqb_Bearer.
  destruct (String.eqb (simplemq.APIKey c) (stub.apiKey s)); reflexivity.
Qed.

Lemma stub_admits_the_client_with_its_key_witness :
  exists sent,
    snd (simplemq.doRequest (sampleLibraries (Ok reply503) (Ok (429, "slow down")))
           sampleClient false "GET" "/v1/queues/q1/messages" None) = Some sent
    /\ stub.authMiddleware (stub.handleRequests 1000 "c" sampleUnmarshal)
         (mkRequest "GET" (mkURL "/v1/queues/q1/messages") (simplemq.httpHeader sent)
            None 0) sampleServer
       = stub.handleRequests 1000 "c" sampleUnmarshal
           (mkRequest "GET" (mkURL "/v1/queues/q1/messages") (simplemq.httpHeader sent)
              None 0) sampleServer.
Proof.
  destruct (snd (simplemq.doRequest (sampleLibraries (Ok reply503) (Ok (429, "slow down")))
                   sampleClient false "GET" "/v1/queues/q1/messages" None))
    as [sent|] eqn:Hsent; [|vm_compute in Hsent; discriminate].
  exists sent. split; [reflexivity|].
  exact (stub_admits_the_client_with_its_key
           (sampleLibraries (Ok reply503) (Ok (429, "slow down"))) sampleClient false
           "GET" "/v1/queues/q1/messages" None sent
           (stub.handleRequests 1000 "c" sampleUnmarshal)
           (mkRequest "GET" (mkURL "/v1/queues/q1/messages") (simplemq.httpHeader sent)
              None 0)
           sampleServer Hsent eq_refl).
Defined.

Lemma length_insert {A : Type} (k : string) (v : A) (m : list (string * A)) :
  List.length (stub.insert k v m) =
  match stub.lookup k m with
  | Some _ => List.length m
  | None => S (List.length m)
  end.
Proof.
  induction m as [|[k0 v0] m IH]; cbn [stub.insert stub.lookup List.length].
  - reflexivity.
  - destruct (String.eqb k0 k); cbn [List.length]; [reflexivity|].
    rewrite IH. destruct (stub.lookup k m); reflexivity.
Qed.

(** X27. Adding a message to the stub.  The message can be looked up
    under the identifier drawn, with the content given, the time of the
    call as its creation and update time and no lease; the size of its
    queue grows by one when the identifier was not in use in that queue
    (and stays as it is when it was: the old message is replaced); the
    messages under other identifiers and the sizes of other queues do not
    change.  After Reset every queue is empty. *)
Theorem stub_add_message
  (now : Z) (id queue content : string) (s : stub.Server) :
  let '(m, s') := stub.AddMessage now id queue content s in
  m = mkMessage id content now now 0 0 0
  /\ stub.GetMessage queue id s' = Some m
  /\ stub.GetQueueSize queue s' =
       match stub.GetMessage queue id s with
       | Some _ => stub.GetQueueSize queue s
       | None => stub.GetQueueSize queue s + 1
       end
  /\ (forall queue' id', queue' <> queue \/ id' <> id ->
        stub.GetMessage queue' id' s' = stub.GetMessage queue' id' s)
  /\ (forall queue', queue' <> queue ->
        stub.GetQueueSize queue' s' = stub.GetQueueSize queue' s)
  /\ (forall queue' id', stub.GetMessage queue' id' (stub.Reset s') = None
                         /\ stub.GetQueueSize queue' (stub.Reset s') = 0).
Proof.
  unfold stub.AddMessage, stub.GetMessage, stub.GetQueueSize. cbn [stub.messages].
  split; [reflexivity|].
  rewrite !stub_lookup_insert, String.eqb_refl.
  split; [rewrite stub_lookup_insert, String.eqb_refl; reflexivity|].
  split.
  { rewrite length_insert.
    destruct (stub.lookup queue (stub.messages s)) as [q|]; cbn [stub.lookup List.length].
    - destruct (stub.lookup id q); [reflexivity | lia].
    - reflexivity. }
  split.
  { intros queue' id' Hne. rewrite stub_lookup_insert.
    destruct (String.eqb queue queue') eqn:Hqq; [|reflexivity].
    apply String.eqb_eq in Hqq. subst queue'. rewrite stub_lookup_insert.
    destruct (String.eqb id id') eqn:Hii.
    - apply String.eqb_eq in Hii. subst id'. destruct Hne; congruence.
    - destruct (stub.lookup queue (stub.messages s)); reflexivity. }
  split.
  { intros queue' Hne. rewrite stub_lookup_insert.
    destruct (String.eqb queue queue') eqn:Hqq; [|reflexivity].
    apply String.eqb_eq in Hqq. congruence. }
  intros queue' id'. split; reflexivity.
Qed.
